(* ===== verification/_CoqProject ===== *)
-Q . S2P
Prelude.v
PyStr.v
Config.v
ArgParse.v
ArgParseProps.v
Credentials.v
Database.v
World.v
Logging.v
TableState.v
Ingest.v
ChunkSpec.v
Script.v
Program.v
