(* ===== verification/Prelude.v ===== *)
(** * A verification development of glue-csv-to-mysql

    The repository is one Python script, [src/load_csv_to_mysql.py], run as an
    AWS Glue Python-shell job.  In order, the script
    - parses its command line into the [args] dict (lines 27-81) and
      normalises and validates [--delete_mode] (lines 78-79);
    - downloads the RDS certificate bundle, ignoring any failure (lines 83-87);
    - when [--db_secret_arn] is given, fetches a Secrets Manager secret and fills
      every connection field left unset on the command line (lines 89-100),
      then insists that user, password, host and database are set
      (lines 102-105);
    - opens one pymysql connection (lines 108-114) and a lazy chunked reader
      of the CSV object (lines 116-119);
    - prepares the target table: drop it, or clear its rows by TRUNCATE or
      DELETE when it exists, or leave it (lines 122-145);
    - appends every chunk, after [convert_dtypes], to the table and keeps a
      running row total (lines 121, 149-161);
    - counts the rows of the table and logs both counts (lines 164-172).

    The call of lines 153-161 passes the keyword [ssl_ca] to awswrangler's
    [wr.mysql.to_sql], whose signature ([df, con, table, schema, mode,
    index, dtype, varchar_lengths, use_column_names, chunksize]) has no such
    parameter and no [**kwargs]; Python raises [TypeError] while binding
    the arguments, before the body runs.  The model calls [to_sql] as
    Python does ([World.call_to_sql]), so no run of the script completes:
    every run stops with an exception at the latest on the first chunk,
    having appended nothing, and lines 164-172 are never reached.  The load
    loop takes the call's keyword list as a parameter, so that what it
    guarantees once the keyword is removed is proved as well.

    ** Files, in dependency order

    - [Prelude] (this file): the Python exceptions the script can raise
      ([py_exn]), the state-and-exception monad [PyM] in which the stateful
      parts are written (effects survive an exception, as in Python), its
      notation in [py_scope], the [pyrun] hint database and tactics,
      monotone computations ([py_mono], with the [mono] hint database), and
      the generic lemmas on the monad and on lists shared by the components.
    - [PyStr]: the Python [str] builtins the script relies on, on ASCII
      strings: [str.isspace], [str.strip], [str.upper] and [int(str)].
    - [Config]: the parsed arguments ([args], one field per [add_argument],
      with argparse's defaults), the logged view of them (line 66) and the
      delete-mode normalisation and check (lines 78-79).
    - [Credentials]: the Python values a JSON secret can hold, the merge of
      the secret into the explicit fields (lines 96-100) and the check that
      the required fields are set (lines 102-105), as pure functions.
    - [Database]: the SQL the script issues, rendered exactly as the script
      formats it; the interface [MySQL] (a typeclass with its laws) that the
      database and awswrangler's [to_sql]/[read_sql_query] promise to the
      script, transactions included (pymysql's default [autocommit=False],
      the implicit commit of DDL, [to_sql]'s commit and rollback); and an
      in-memory implementation on [gmap] discharging it.
    - [World]: the world the script runs in (the database state and the
      trace of observable events: log lines, downloads, secret fetches,
      connections, statements, appends), and the effects on it: [log_info],
      [log_error], [execute] (a [cursor.execute] that returns rows or raises),
      [to_sql] (the body of awswrangler's append, raising on an empty
      frame, committing or rolling back) and [call_to_sql] (the call, which
      raises [TypeError] on a keyword [to_sql] does not take).
    - [TableState]: [table_exists] (lines 122-128) and the pre-load
      disposition (lines 130-145).
    - [Ingest]: the chunking of the CSV reader (lines 116-119) and the load
      loop (lines 121, 149-161).
    - [Script]: the whole script as one computation in [PyM] over a world
      holding the database and the trace of observable events, the
      verification step (lines 164-172), and the end-to-end theorems.
    - [ArgParse]: the parser lines 27-62 build ([parser_actions]) and
      CPython 3.9's [argparse] run on it at line 65 ([parse_args]):
      classification of every token, consumption of the options, the
      required check and the unrecognised-argument check, with argparse's
      messages; and the reads of lines 68-81 ([args_of_ns]) that turn the
      namespace into [Config.args].
    - [ArgParseProps]: what that parser does with a command line, and the
      type invariant of its namespace.
    - [Logging]: the logging setup of lines 15-23 on the state of the root
      logger and the script's logger ([setup_logging]), [Logger.info] and
      [Logger.error] through both loggers' handlers ([emit_lines]), and the
      lines one event of a [World] trace prints ([event_lines]).
    - [ChunkSpec]: a reference chunker by well-founded recursion
      (Equations), through which the reader's chunks are described as
      slices.
    - [Program]: the script from its command line: [parse_args], the typed
      reads of lines 68-81, then [Script.main].

    ** What the theorems show

    The claims, by group (each theorem's comment names its claim id):
    - the load: with the script's keywords the loop raises [TypeError] on
      its first chunk after one log line, the database untouched; with any
      keywords, it either appends every chunk and returns their total, all
      committed, or stops at a chunk with exactly the earlier ones appended
      and committed; the chunks partition the rows in order with at most
      [chunk_size] rows each, chunk [i] being the slice
      [rows[i*n:(i+1)*n]] ([Ingest], [ChunkSpec]);
    - the whole run: no run completes or appends a row; an invalid mode
      stops before any I/O, but a missing connection field only after the
      CA download; the CA download never raises; a secret that cannot be
      found or decoded is fatal, uncaught, after the CA download; reader and
      load errors surface after the disposition has run (a dropped table
      stays dropped, a DELETE is rolled back with the connection, a
      TRUNCATE is not); nothing touches the database before a connection
      has succeeded ([Script]);
    - the configuration: a delete mode padded with whitespace and in any
      case is accepted exactly when it reads TRUNCATE or DELETE, and the
      logged arguments omit the password ([Config]);
    - the table: [table_exists] answers by the INFORMATION_SCHEMA query;
      [prepare_table] refines the abstract disposition (drop, clear when
      present, keep), and the branch it takes at line 136 is the mode given
      on the command line ([TableState]);
    - the credentials: explicit fields win and the secret fills the missing
      ones, except the port, which the code reads and discards, yet whose
      [int()] can still raise; resolution succeeds whenever every required
      field is available ([Credentials]);
    - the command line: a configuration printed as [--opt=value] tokens
      parses back to itself; unique abbreviations are transparent and
      ambiguous ones stop the run before anything else; a value that reads
      as an option is refused ([ArgParseProps]); on any command line without
      a token ending in [=--], a successful parse leaves every option with a
      value of its declared type, so the reads of lines 68-81 succeed and
      the script runs on them ([Program]);
    - the logging: every log call of the script prints two lines, one per
      handler ([Logging]).

    ** Bounds and fuel

    The chunker [Ingest.chunks_fuel] recurses on fuel; [read_chunks] gives it
    the number of rows, which suffices because every round consumes at least
    one row when [chunk_size >= 1] ([chunks_fuel_concat] proves the chunks then
    cover every row).  Row counts are [nat]: Python's integers do not overflow, and the
    MySQL count is converted with [Z.of_nat] only for the log line.
    [ChunkSpec.read_chunks_ref] shows that with this fuel the chunks are
    those of the well-founded reference chunker, so the fuel never cuts the
    data short.  The argparse loop [consume] is structural on the token
    list; its invariant is proved by induction on a length bound.

    ** Not modelled

    The help text [-h] prints (help is its [SystemExit 0]), the time stamp
    [asctime] (an input of [Logging.event_lines]), the network clients
    (urllib, boto3, pymysql's wire protocol) and pandas' CSV tokenizer are
    external; their results are inputs of the model (the environment record
    of [Script]).  Of the secret fetch (lines 92-93), only the three
    outcomes of [Script.secret_fetch] are modelled: the [KeyError] of a
    secret stored as [SecretBinary] (no [SecretString] key) and the errors
    of constructing the boto3 client (no region, no credentials) are not.
    The standard output holds only the script's own records: what other
    libraries log through the root logger, which [basicConfig] sets to
    INFO (boto3's and botocore's records, for instance), is not modelled.  Of awswrangler's [to_sql], the SQL column types it
    infers, the data errors of its INSERT and the error line its own logger
    prints on a failed append are not modelled.  Strings are ASCII or Latin-1 code points: Python's
    Unicode case mapping, whitespace and digits beyond them are not
    modelled.
*)

From stdpp Require Export base list strings gmap pretty.
From Stdlib Require Export ZArith Ascii.

(** ** Python exceptions *)

(** The exceptions the script can end with.  [SystemExit] is what
    [argparse.ArgumentParser.error] raises: it prints the message and exits
    with status 2. *)
Inductive py_exn : Type :=
| SystemExit (code : Z) (msg : string)
| KeyError (key : string)
| TypeError
| ValueError
| IndexError
| AttributeError
| OverflowError
| ClientError (service : string)
| JSONDecodeError
| OperationalError
| ProgrammingError (sql : string)
| EmptyDataFrame
| EmptyDataError.

#[export] Instance py_exn_eq_dec : EqDecision py_exn.
Proof. solve_decision. Defined.

(** ** The state-and-exception monad

    A computation reads and updates a state and ends with a value or an
    exception; the state reached when the exception is raised is kept, as
    Python keeps every side effect done before a [raise]. *)
Definition PyM (S A : Type) : Type := S -> (py_exn + A) * S.

Definition py_ret {S A} (a : A) : PyM S A := fun s => (inr a, s).

Definition py_bind {S A B} (m : PyM S A) (k : A -> PyM S B) : PyM S B :=
  fun s => match m s with
           | (inl e, s') => (inl e, s')
           | (inr a, s') => k a s'
           end.

Definition py_raise {S A} (e : py_exn) : PyM S A := fun s => (inl e, s).

Definition py_get {S} : PyM S S := fun s => (inr s, s).

Definition py_modify {S} (f : S -> S) : PyM S unit := fun s => (inr tt, f s).

(** A fallible pure computation, lifted. *)
Definition py_lift {S A} (r : py_exn + A) : PyM S A := fun s => (r, s).

(** [try: m except: h] with a bare [except]: every exception is caught. *)
Definition py_try {S A} (m : PyM S A) (h : py_exn -> PyM S A) : PyM S A :=
  fun s => match m s with
           | (inl e, s') => h e s'
           | r => r
           end.

Declare Scope py_scope.
Delimit Scope py_scope with py.
Notation "x <- m ;; k" := (py_bind m (fun x => k))
  (at level 100, m at next level, right associativity) : py_scope.
Notation "m ;;; k" := (py_bind m (fun _ => k))
  (at level 100, right associativity) : py_scope.

(** A [for] loop threading an accumulator. *)
Fixpoint py_fold {S A B} (f : A -> B -> PyM S A) (acc : A) (l : list B) : PyM S A :=
  match l with
  | [] => py_ret acc
  | x :: xs => py_bind (f acc x) (fun a => py_fold f a xs)
  end.

(** Pure fallible code: [E + A] (mostly [py_exn + A]), sequenced by [sum_bind]. *)
Definition sum_bind {E A B} (r : E + A) (k : A -> E + B) : E + B :=
  match r with inl e => inl e | inr a => k a end.

Notation "'let?' x ':=' r 'in' k" := (sum_bind r (fun x => k))
  (at level 10, x name, r at level 100, k at level 200) : py_scope.

Definition is_inl {A B} (r : A + B) : bool :=
  match r with inl _ => true | inr _ => false end.

(** ** Generic lemmas *)

Create HintDb pyrun discriminated.
Create Rewrite HintDb pyrun.

Section MonadLemmas.
Context {S : Type}.

Lemma py_bind_ret {A B} (a : A) (k : A -> PyM S B) s :
    py_bind (py_ret a) k s = k a s.
Proof. reflexivity. Qed.

Lemma py_bind_raise {A B} e (k : A -> PyM S B) s :
    py_bind (py_raise e) k s = (inl e, s).
Proof. reflexivity. Qed.

Lemma py_bind_assoc {A B C} (m : PyM S A) (k : A -> PyM S B) (h : B -> PyM S C) s :
    py_bind (py_bind m k) h s = py_bind m (fun a => py_bind (k a) h) s.
Proof. unfold py_bind. destruct (m s) as [[e|a] s']; reflexivity. Qed.

Lemma py_bind_run_inr {A B} (m : PyM S A) (k : A -> PyM S B) s a s' :
    m s = (inr a, s') -> py_bind m k s = k a s'.
Proof. intros H. unfold py_bind. by rewrite H. Qed.

Lemma py_bind_run_inl {A B} (m : PyM S A) (k : A -> PyM S B) s e s' :
    m s = (inl e, s') -> py_bind m k s = (inl e, s').
Proof. intros H. unfold py_bind. by rewrite H. Qed.

  (** A bind that returned: both halves returned. *)
Lemma py_bind_inr_inv {A B} (m : PyM S A) (k : A -> PyM S B) s b s' :
    py_bind m k s = (inr b, s') -> exists a s1, m s = (inr a, s1) /\ k a s1 = (inr b, s').
Proof. unfold py_bind. destruct (m s) as [[e|a] s1]; [done|eauto]. Qed.

Lemma py_lift_inr_inv {A} (r : py_exn + A) (s s' : S) a :
    py_lift r s = (inr a, s') -> r = inr a /\ s' = s.
Proof. unfold py_lift. by intros [= -> ->]. Qed.

Lemma py_bind_lift_inr {A B} (a : A) (k : A -> PyM S B) s :
    py_bind (py_lift (inr a)) k s = k a s.
Proof. reflexivity. Qed.

Lemma py_bind_lift_inl {A B} e (k : A -> PyM S B) s :
    py_bind (py_lift (A:=A) (inl e)) k s = (inl e, s).
Proof. reflexivity. Qed.

  (** A loop over a concatenation runs the two loops in sequence. *)
Lemma py_fold_app {A B} (f : A -> B -> PyM S A) acc l1 l2 s :
    py_fold f acc (l1 ++ l2) s = py_bind (py_fold f acc l1) (fun a => py_fold f a l2) s.
Proof.
    revert acc s. induction l1 as [|x l1 IH]; intros acc s; simpl; [reflexivity|].
    rewrite py_bind_assoc. unfold py_bind at 1 2.
    destruct (f acc x s) as [[e|a] s']; [reflexivity|]. apply IH.
Qed.

  (** A loop invariant: a predicate on accumulator and state preserved by
      every step that returns holds at the end of a loop that returns, and
      the state at an exception satisfies it too. *)
Lemma py_fold_invariant {A B} (I : A -> S -> Prop) (f : A -> B -> PyM S A) l :
    (forall acc x s, In x l -> I acc s ->
       match f acc x s with (inr a, s') => I a s' | (inl _, s') => exists a, I a s' end) ->
    forall acc s, I acc s ->
    match py_fold f acc l s with (inr a, s') => I a s' | (inl _, s') => exists a, I a s' end.
Proof.
    induction l as [|x l IH]; intros Hstep acc s HI; simpl; [exact HI|].
    unfold py_bind. pose proof (Hstep acc x s (or_introl eq_refl) HI) as Hx.
    destruct (f acc x s) as [[e|a] s']; [exact Hx|].
    apply IH; [|exact Hx]. intros ???? ; apply Hstep; right; assumption.
Qed.
End MonadLemmas.

(** ** Monotone computations

    A computation each of whose runs, returning or raising, moves the state
    forward along a preorder [R]: for the world of [World], the trace only
    grows. *)
Section Mono.
Context {S : Type} (R : relation S) `{!PreOrder R}.

Definition py_mono {A} (m : PyM S A) : Prop := forall s, R s (m s).2.

Lemma py_mono_run {A} (m : PyM S A) s r s' : py_mono m -> m s = (r, s') -> R s s'.
Proof. intros Hm Hr. specialize (Hm s). by rewrite Hr in Hm. Qed.

Lemma py_mono_ret {A} (a : A) : py_mono (py_ret a).
Proof. intros s. simpl. reflexivity. Qed.

Lemma py_mono_raise {A} e : py_mono (A:=A) (py_raise e).
Proof. intros s. simpl. reflexivity. Qed.

Lemma py_mono_lift {A} (r : py_exn + A) : py_mono (py_lift r).
Proof. intros s. simpl. reflexivity. Qed.

Lemma py_mono_get : py_mono py_get.
Proof. intros s. simpl. reflexivity. Qed.

Lemma py_mono_modify f : (forall s, R s (f s)) -> py_mono (py_modify f).
Proof. intros Hf s. apply Hf. Qed.

Lemma py_mono_bind {A B} (m : PyM S A) (k : A -> PyM S B) :
  py_mono m -> (forall a, py_mono (k a)) -> py_mono (py_bind m k).
Proof.
  intros Hm Hk s. unfold py_bind. specialize (Hm s).
  destruct (m s) as [[e|a] s']; simpl in *; [done|]. etrans; [exact Hm|apply Hk].
Qed.

Lemma py_mono_try {A} (m : PyM S A) h :
  py_mono m -> (forall e, py_mono (h e)) -> py_mono (py_try m h).
Proof.
  intros Hm Hh s. unfold py_try. specialize (Hm s).
  destruct (m s) as [[e|a] s']; simpl in *; [|done]. etrans; [exact Hm|apply Hh].
Qed.

Lemma py_mono_fold {A B} (f : A -> B -> PyM S A) acc l :
  (forall a x, py_mono (f a x)) -> py_mono (py_fold f acc l).
Proof.
  intros Hf. revert acc. induction l as [|x l IH]; intros acc; simpl;
    [apply py_mono_ret|apply py_mono_bind; auto].
Qed.
End Mono.

Create HintDb mono discriminated.
#[export] Hint Resolve py_mono_ret py_mono_raise py_mono_lift py_mono_get py_mono_bind
  py_mono_try py_mono_fold : mono.

Lemma sum_bind_inr {E A B} (r : E + A) (k : A -> E + B) b :
  sum_bind r k = inr b -> exists a, r = inr a /\ k a = inr b.
Proof. destruct r; simpl; [done|eauto]. Qed.

#[export] Hint Rewrite @py_bind_ret @py_bind_raise @py_bind_assoc
  @py_bind_lift_inr @py_bind_lift_inl : pyrun.

(** Unfold one layer of the monad and simplify. *)
Ltac py_step :=
  repeat (autorewrite with pyrun; cbn [py_bind py_ret py_raise py_get py_modify py_lift py_try]).

(** Unfold the monad's combinators completely. *)
Ltac py_unfold :=
  unfold py_bind, py_ret, py_raise, py_get, py_modify, py_lift, py_try.

(** Case on a pure fallible computation bound in the goal. *)
Ltac py_case_sum E :=
  match goal with
  | |- context [match ?r with inl _ => _ | inr _ => _ end] => destruct r eqn:E
  end.

(** ** Strings *)

(** Every character of the string satisfies [p]. *)
Fixpoint str_forallb (p : ascii -> bool) (s : string) : bool :=
  match s with EmptyString => true | String c r => p c && str_forallb p r end.

Lemma str_forallb_impl (p q : ascii -> bool) s :
  (forall c, p c = true -> q c = true) -> str_forallb p s = true -> str_forallb q s = true.
Proof.
  intros Hpq. induction s as [|c s IH]; simpl; [done|].
  intros (Hc & Hs)%andb_prop. by rewrite Hpq, IH.
Qed.

(** [+:+] does not unfold by [simpl]; its equation on a [String]: *)
Lemma string_app_cons c s1 s2 : String c s1 +:+ s2 = String c (s1 +:+ s2).
Proof. reflexivity. Qed.

Lemma string_app_nil_r s : s +:+ EmptyString = s.
Proof. induction s as [|c s IH]; [done|]. by rewrite string_app_cons, IH. Qed.

Lemma string_app_assoc s1 s2 s3 : s1 +:+ (s2 +:+ s3) = (s1 +:+ s2) +:+ s3.
Proof. induction s1 as [|c s1 IH]; [done|]. by rewrite !string_app_cons, IH. Qed.

Lemma str_forallb_app p s1 s2 :
  str_forallb p (s1 +:+ s2) = str_forallb p s1 && str_forallb p s2.
Proof. induction s1 as [|c s1 IH]; simpl; [done|]. by rewrite IH, andb_assoc. Qed.

(** ** List lemmas *)

Lemma sum_list_with_length_concat {A} (ls : list (list A)) :
  sum_list_with length ls = length (concat ls).
Proof.
  induction ls as [|l ls IH]; simpl; [reflexivity|].
  rewrite length_app, IH. reflexivity.
Qed.

#[export] Hint Rewrite @sum_list_with_length_concat : pyrun.

(** [f] is injective on a list whose images are distinct. *)
Lemma NoDup_fmap_in_inj {A B} (f : A -> B) (l : list A) x y :
  NoDup (f <$> l) -> In x l -> In y l -> f x = f y -> x = y.
Proof.
  induction l as [|z l IH]; intros Hnd Hx Hy Hf; [done|].
  simpl in Hnd. apply NoDup_cons in Hnd as [Hz Hnd].
  destruct Hx as [<-|Hx], Hy as [<-|Hy]; try done.
  - exfalso. apply Hz. rewrite Hf. apply list_elem_of_fmap_2. by apply list_elem_of_In.
  - exfalso. apply Hz. rewrite <-Hf. apply list_elem_of_fmap_2. by apply list_elem_of_In.
  - by apply IH.
Qed.

Lemma in_zip_l {A B} (l1 : list A) (l2 : list B) x y : In (x, y) (zip l1 l2) -> In x l1.
Proof.
  revert l2. induction l1 as [|a l1 IH]; intros [|b l2]; simpl; try tauto.
  intros [[= -> _]|H]; eauto.
Qed.

Lemma in_zip_r {A B} (l1 : list A) (l2 : list B) x y : In (x, y) (zip l1 l2) -> In y l2.
Proof.
  revert l2. induction l1 as [|a l1 IH]; intros [|b l2]; simpl; try tauto.
  intros [[= _ ->]|H]; eauto.
Qed.

(** Pairing [l1] with the values of an association list whose keys are
    [f <$> l1]: each entry [(k, v)] becomes [(x, v)] with [f x = k]. *)
Lemma in_zip_keys {A K V} (f : A -> K) (l1 : list A) (l2 : list (K * V)) k v :
  f <$> l1 = fst <$> l2 -> In (k, v) l2 -> exists x, In (x, v) (zip l1 (snd <$> l2)) /\ f x = k.
Proof.
  revert l2. induction l1 as [|x l1 IH]; intros [|[k' v'] l2] Hk Hin; try done.
  simpl in Hk. injection Hk as Hx Hk. destruct Hin as [[= -> ->]|Hin].
  - exists x. split; [by left|done].
  - destruct (IH l2 Hk Hin) as (y & Hy & Hf). exists y. split; [by right|done].
Qed.
