(* ===== verification/PyStr.v ===== *)
(** * Python string builtins

    [str.isspace], [str.strip()], [str.upper()] and [int(str)] as CPython
    computes them on ASCII text.  The script uses [strip] and [upper] on
    [--delete_mode] (lines 78 and 136) and [int] on the secret's port
    (line 100).  The lemmas here (idempotence, commutation of [upper] with
    [strip]) are what [Config] and [TableState] need to show that the second
    normalisation at line 136 agrees with the first at line 78; the
    round trip [int(str(z)) = z] is what [ArgParseProps] needs for
    [--chunk_size] and [--db_port].  [repr(str)] ([py_repr]) is the quoting
    argparse's messages and the logged dict (line 66) use.  A character is
    8 bits, read as a Latin-1 code point: [repr] is exact on all of them,
    [isspace], [upper] and [int] on the ASCII ones (their non-ASCII cases,
    such as [\xa0] being a space, are not modelled). *)

From S2P Require Import Prelude.

Local Open Scope string_scope.

Module PyStr.

(** CPython's [Py_UNICODE_ISSPACE] on ASCII: [\t \n \v \f \r], the four
    separators [\x1c]-[\x1f], and the space. *)
Definition py_isspace (c : ascii) : bool :=
  let n := nat_of_ascii c in
  (((9 <=? n) && (n <=? 13)) || ((28 <=? n) && (n <=? 32)))%nat.

(** [str.lstrip()]: drop leading whitespace. *)
Fixpoint lstrip (s : string) : string :=
  match s with
  | EmptyString => EmptyString
  | String c r => if py_isspace c then lstrip r else s
  end.

(** [str.rstrip()]: drop trailing whitespace. *)
Fixpoint rstrip (s : string) : string :=
  match s with
  | EmptyString => EmptyString
  | String c r =>
      match rstrip r with
      | EmptyString => if py_isspace c then EmptyString else String c EmptyString
      | r' => String c r'
      end
  end.

(** [str.strip()] with no argument (CPython's [do_strip] with
    [BOTHSTRIP]): the leading and the trailing whitespace go. *)
Definition py_strip (s : string) : string := rstrip (lstrip s).

(** [str.upper()] on ASCII: [a]-[z] become [A]-[Z]. *)
Definition py_upper_char (c : ascii) : ascii :=
  let n := nat_of_ascii c in
  if ((97 <=? n) && (n <=? 122))%nat then ascii_of_nat (n - 32)%nat else c.

Fixpoint py_upper (s : string) : string :=
  match s with
  | EmptyString => EmptyString
  | String c r => String (py_upper_char c) (py_upper r)
  end.

(** [int(s)] for a [str] [s] in base 10: surrounding whitespace is
    ignored, one optional sign, then decimal digits where single
    underscores may separate digits. *)
Definition digit_val (c : ascii) : option Z :=
  let n := nat_of_ascii c in
  if ((48 <=? n) && (n <=? 57))%nat then Some (Z.of_nat (n - 48)%nat) else None.

Fixpoint parse_digits (s : string) (acc : Z) (after_digit : bool) : option Z :=
  match s with
  | EmptyString => if after_digit then Some acc else None
  | String c r =>
      match digit_val c with
      | Some d => parse_digits r (acc * 10 + d)%Z true
      | None =>
          if after_digit && Ascii.eqb c "_" then parse_digits r acc false else None
      end
  end.

Definition py_int_of_str (s : string) : option Z :=
  match py_strip s with
  | String "-" r => option_map Z.opp (parse_digits r 0 false)
  | String "+" r => parse_digits r 0 false
  | t => parse_digits t 0 false
  end.

(** ** [repr] of a [str] *)

Definition hex_digit (n : nat) : ascii := ascii_of_nat (if (n <? 10)%nat then 48 + n else 87 + n).

(** One character of [repr(s)] between quotes [q]. *)
Definition repr_char (q c : ascii) : string :=
  let n := nat_of_ascii c in
  if Ascii.eqb c q || Ascii.eqb c "\" then String "\" (String c EmptyString)
  else if (n =? 9)%nat then "\t"
  else if (n =? 10)%nat then "\n"
  else if (n =? 13)%nat then "\r"
  else if ((n <? 32) || ((127 <=? n) && (n <=? 160)) || (n =? 173))%nat
  then String "\" (String "x" (String (hex_digit (n / 16)) (String (hex_digit (n mod 16)) EmptyString)))
  else String c EmptyString.

Fixpoint str_flat_map (f : ascii -> string) (s : string) : string :=
  match s with EmptyString => EmptyString | String c r => f c +:+ str_flat_map f r end.

Definition has_char (c : ascii) (s : string) : bool := negb (str_forallb (fun d => negb (Ascii.eqb d c)) s).

(** [repr(s)]: single quotes, unless [s] has one and no double quote. *)
Definition py_repr (s : string) : string :=
  let dq := ascii_of_nat 34 in
  let q := if has_char "'" s && negb (has_char dq s) then dq else "'"%char in
  String q (str_flat_map (repr_char q) s +:+ String q EmptyString).

(** ** Lemmas *)

Lemma py_upper_char_isspace c : py_isspace (py_upper_char c) = py_isspace c.
Proof. destruct c as [[] [] [] [] [] [] [] []]; reflexivity. Qed.

Lemma py_upper_char_idem c : py_upper_char (py_upper_char c) = py_upper_char c.
Proof. destruct c as [[] [] [] [] [] [] [] []]; reflexivity. Qed.

Lemma py_upper_idem s : py_upper (py_upper s) = py_upper s.
Proof. induction s as [|c s IH]; simpl; [done|]. by rewrite py_upper_char_idem, IH. Qed.

Lemma lstrip_upper s : lstrip (py_upper s) = py_upper (lstrip s).
Proof.
  induction s as [|c s IH]; simpl; [done|].
  rewrite py_upper_char_isspace. by destruct (py_isspace c).
Qed.

Lemma py_upper_empty s : py_upper s = EmptyString <-> s = EmptyString.
Proof. destruct s; simpl; split; congruence. Qed.

Lemma rstrip_upper s : rstrip (py_upper s) = py_upper (rstrip s).
Proof.
  induction s as [|c s IH]; simpl; [done|].
  rewrite IH, py_upper_char_isspace.
  destruct (rstrip s) eqn:E; simpl; [|done].
  by destruct (py_isspace c).
Qed.

Lemma upper_strip s : py_strip (py_upper s) = py_upper (py_strip s).
Proof. unfold py_strip. by rewrite lstrip_upper, rstrip_upper. Qed.

Lemma lstrip_idem s : lstrip (lstrip s) = lstrip s.
Proof.
  induction s as [|c s IH]; simpl; [done|].
  destruct (py_isspace c) eqn:E; [done|]. simpl. by rewrite E.
Qed.

Lemma rstrip_idem s : rstrip (rstrip s) = rstrip s.
Proof.
  induction s as [|c s IH]; simpl; [done|].
  destruct (rstrip s) as [|c' r'] eqn:E.
  - destruct (py_isspace c) eqn:Hc; simpl; [done|]. by rewrite Hc.
  - remember (String c' r') as t eqn:Ht.
    simpl. rewrite IH. by subst t.
Qed.

(** [rstrip] keeps a non-space first character. *)
Lemma rstrip_head c r :
  py_isspace c = false -> exists r', rstrip (String c r) = String c r'.
Proof. intros Hc. simpl. destruct (rstrip r); rewrite ?Hc; eauto. Qed.

Lemma lstrip_rstrip_lstrip s : lstrip (rstrip (lstrip s)) = rstrip (lstrip s).
Proof.
  induction s as [|c s IH]; [done|]. cbn [lstrip].
  destruct (py_isspace c) eqn:Hc; [done|].
  destruct (rstrip_head c s Hc) as [r' ->]. cbn [lstrip]. by rewrite Hc.
Qed.

Lemma py_strip_idem s : py_strip (py_strip s) = py_strip s.
Proof. unfold py_strip. by rewrite lstrip_rstrip_lstrip, rstrip_idem. Qed.

(** The normalisation [s.strip().upper()] of the script is idempotent. *)
Lemma upper_strip_idem s :
  py_upper (py_strip (py_upper (py_strip s))) = py_upper (py_strip s).
Proof. by rewrite upper_strip, py_strip_idem, py_upper_idem. Qed.

(** Surrounding whitespace does not change [strip]: the lemmas for a
    padded [--delete_mode]. *)
Lemma lstrip_spaces w : str_forallb py_isspace w = true -> lstrip w = EmptyString.
Proof.
  induction w as [|c w IH]; simpl; [done|]. intros (-> & Hw)%andb_prop. by apply IH.
Qed.

Lemma lstrip_app_empty s w : lstrip s = EmptyString -> lstrip (s +:+ w) = lstrip w.
Proof.
  induction s as [|c s IH]; simpl; [done|]. destruct (py_isspace c); [exact IH|done].
Qed.

Lemma lstrip_app_nonempty s w : lstrip s <> EmptyString -> lstrip (s +:+ w) = lstrip s +:+ w.
Proof.
  induction s as [|c s IH]; simpl; [done|]. destruct (py_isspace c); [exact IH|done].
Qed.

Lemma rstrip_spaces w : str_forallb py_isspace w = true -> rstrip w = EmptyString.
Proof.
  induction w as [|c w IH]; simpl; [done|]. intros (Hc & Hw)%andb_prop. by rewrite IH, Hc.
Qed.

Lemma rstrip_app_spaces s w : str_forallb py_isspace w = true -> rstrip (s +:+ w) = rstrip s.
Proof.
  intros Hw. induction s as [|c s IH]; simpl; [by apply rstrip_spaces|]. by rewrite IH.
Qed.

Lemma py_strip_pad w1 s w2 :
  str_forallb py_isspace w1 = true -> str_forallb py_isspace w2 = true ->
  py_strip (w1 +:+ s +:+ w2) = py_strip s.
Proof.
  intros H1 H2. unfold py_strip. rewrite lstrip_app_empty by (by apply lstrip_spaces).
  destruct (decide (lstrip s = EmptyString)) as [He|He].
  - by rewrite lstrip_app_empty, He, lstrip_spaces.
  - by rewrite lstrip_app_nonempty, rstrip_app_spaces.
Qed.

(** ** [int(str(z)) == z]

    [str] of an [int] is [pretty] (decimal digits, a [-] for negatives);
    [int] reads it back.  [argparse] relies on this for [type=int]. *)

Lemma lstrip_nospace s : str_forallb (fun c => negb (py_isspace c)) s = true -> lstrip s = s.
Proof. destruct s as [|c s]; simpl; [done|]. by intros (->%negb_true_iff & _)%andb_prop. Qed.

Lemma rstrip_nospace s : str_forallb (fun c => negb (py_isspace c)) s = true -> rstrip s = s.
Proof.
  induction s as [|c s IH]; simpl; [done|]. intros (Hc%negb_true_iff & Hs)%andb_prop.
  rewrite IH by done. destruct s; by rewrite ?Hc.
Qed.

Lemma py_strip_nospace s : str_forallb (fun c => negb (py_isspace c)) s = true -> py_strip s = s.
Proof. intros H. unfold py_strip. by rewrite lstrip_nospace, rstrip_nospace. Qed.

Lemma digit_val_pretty_char d : (d < 10)%N -> digit_val (pretty_N_char d) = Some (Z.of_N d).
Proof.
  intros Hd. destruct d as [|p]; [done|].
  do 9 (destruct p as [p|p|]; try done; try lia).
Qed.

Lemma pretty_N_char_nospace d : negb (py_isspace (pretty_N_char d)) = true.
Proof. unfold pretty_N_char. repeat case_match; done. Qed.

Lemma pretty_N_go_nospace x s :
  str_forallb (fun c => negb (py_isspace c)) s = true ->
  str_forallb (fun c => negb (py_isspace c)) (pretty_N_go x s) = true.
Proof.
  revert s. induction x as [x IH] using (well_founded_induction N.lt_wf_0).
  intros s Hs. destruct (decide (0 < x)%N) as [Hx|Hx].
  - rewrite pretty_N_go_step by done. apply IH; [apply N.div_lt; lia|].
    simpl. by rewrite pretty_N_char_nospace.
  - assert (x = 0)%N as -> by lia. done.
Qed.

Lemma parse_digits_pretty_N_go x s b :
  (0 < x)%N -> parse_digits (pretty_N_go x s) 0 b = parse_digits s (Z.of_N x) true.
Proof.
  revert s b. induction x as [x IH] using (well_founded_induction N.lt_wf_0).
  intros s b Hx. rewrite pretty_N_go_step by done.
  assert (Hm : (x `mod` 10 < 10)%N) by (apply N.mod_lt; lia).
  destruct (N.eq_dec (x `div` 10) 0) as [Hq|Hq].
  - rewrite Hq, pretty_N_go_0. simpl.
    rewrite digit_val_pretty_char by done. f_equal.
    rewrite (N.div_mod x 10) at 2 by lia. lia.
  - rewrite IH by (apply N.div_lt; lia) || by apply N.neq_0_lt_0. simpl. rewrite digit_val_pretty_char by done.
    f_equal. rewrite (N.div_mod x 10) at 3 by lia. lia.
Qed.

Lemma pretty_N_nospace (x : N) : str_forallb (fun c => negb (py_isspace c)) (pretty x) = true.
Proof. unfold pretty, pretty_N. case_decide; [done|]. by apply pretty_N_go_nospace. Qed.

Lemma parse_digits_pretty_N (x : N) : parse_digits (pretty x) 0 false = Some (Z.of_N x).
Proof.
  unfold pretty, pretty_N. case_decide as Hx; [by subst|].
  rewrite parse_digits_pretty_N_go by lia. done.
Qed.

Lemma pretty_N_head (x : N) : exists c r, pretty x = String c r /\ c <> "-"%char /\ c <> "+"%char.
Proof.
  unfold pretty, pretty_N. case_decide as Hx; [by do 2 eexists|].
  assert (H : forall y s, (0 < y)%N -> exists c r, pretty_N_go y s = String c r /\
            c <> "-"%char /\ c <> "+"%char).
  { intros y. induction y as [y IH] using (well_founded_induction N.lt_wf_0).
    intros s Hy. rewrite pretty_N_go_step by done.
    destruct (N.eq_dec (y `div` 10) 0) as [Hq|Hq].
    - rewrite Hq, pretty_N_go_0. do 2 eexists. split; [done|]. unfold pretty_N_char. split; repeat case_match; done.
    - apply IH; [apply N.div_lt; lia | by apply N.neq_0_lt_0]. }
  apply H. lia.
Qed.

(** [int(str(z)) == z] for every integer. *)
Lemma py_int_of_str_pretty (z : Z) : py_int_of_str (pretty z) = Some z.
Proof.
  destruct z as [|p|p]; [done| |].
  - change (pretty (Zpos p)) with (pretty (Npos p)). unfold py_int_of_str.
    rewrite py_strip_nospace by apply pretty_N_nospace.
    destruct (pretty_N_head (Npos p)) as (c & r & Hr & Hm & Hp).
    pose proof (parse_digits_pretty_N (Npos p)) as Hd.
    rewrite Hr in Hd |- *. destruct c as [[] [] [] [] [] [] [] []]; done.
  - change (pretty (Zneg p)) with ("-" +:+ pretty (Npos p)). unfold py_int_of_str.
    rewrite py_strip_nospace by (simpl; apply pretty_N_nospace).
    pose proof (parse_digits_pretty_N (Npos p)) as Hd.
    remember (pretty (Npos p)) as t eqn:Ht. simpl. change ("" +:+ t) with t. by rewrite Hd.
Qed.

Lemma has_char_app c s1 s2 : has_char c (s1 +:+ s2) = has_char c s1 || has_char c s2.
Proof. unfold has_char. by rewrite str_forallb_app, negb_andb. Qed.

End PyStr.
