(* ===== verification/Config.v ===== *)
(** * The job's configuration

    [args] is the dict [vars(arg_parser.parse_args())] of line 65: one field
    per [add_argument] of lines 42-62, with argparse's defaults.  [config]
    holds the module-level constants the script derives from it at lines
    68-81; building it can fail only at line 79, on an invalid delete mode.
    The database fields are read by [Credentials]. *)

From S2P Require Import Prelude PyStr.
Import PyStr.

Local Open Scope string_scope.

Module Config.

(** ** The parsed arguments (lines 42-62) *)
Record args := mk_args {
  s3_object : string;
  db_host : option string;
  db_port : option Z;
  db_name : option string;
  db_user : option string;
  db_password : option string;
  db_secret_arn : option string;
  table_name : string;
  drop_table : bool;
  delete_rows : bool;
  delete_mode : string;
  chunk_size : Z;
  ssl_ca_url : string;
  extra_py_files : option string;
  scriptLocation : option string;
  job_bookmark_option : option string;
  job_language : option string;
  connection_names : option string
}.

Definition default_delete_mode : string := "TRUNCATE".
Definition default_chunk_size : Z := 10000.
Definition default_ssl_ca_url : string :=
  "https://s3.amazonaws.com/rds-downloads/rds-combined-ca-bundle.pem".

(** The dict for a command line giving only the two required flags. *)
Definition default_args (obj table : string) : args := {|
  s3_object := obj; db_host := None; db_port := None; db_name := None;
  db_user := None; db_password := None; db_secret_arn := None;
  table_name := table; drop_table := false; delete_rows := false;
  delete_mode := default_delete_mode; chunk_size := default_chunk_size;
  ssl_ca_url := default_ssl_ca_url; extra_py_files := None;
  scriptLocation := None; job_bookmark_option := None; job_language := None;
  connection_names := None |}.

(** ** The logged view of the arguments (line 66) *)

(** A value of the dict as Python holds it; argparse can also store a
    list (see [ArgParse.take_store]). *)
#[warnings="-register-all"] Inductive argval := AStr (s : string) | AInt (z : Z) | ABool (b : bool) | ANone
| AList (vs : list argval).

Definition opt_str (o : option string) : argval :=
  match o with Some s => AStr s | None => ANone end.
Definition opt_int (o : option Z) : argval :=
  match o with Some z => AInt z | None => ANone end.

(** The items of [vars(args)], in insertion order, i.e. the order of the
    [add_argument] calls, keyed by each option's [dest]. *)
Definition args_items (a : args) : list (string * argval) := [
  ("s3_object", AStr (s3_object a)); ("db_host", opt_str (db_host a));
  ("db_port", opt_int (db_port a)); ("db_name", opt_str (db_name a));
  ("db_user", opt_str (db_user a)); ("db_password", opt_str (db_password a));
  ("db_secret_arn", opt_str (db_secret_arn a)); ("table_name", AStr (table_name a));
  ("drop_table", ABool (drop_table a)); ("delete_rows", ABool (delete_rows a));
  ("delete_mode", AStr (delete_mode a)); ("chunk_size", AInt (chunk_size a));
  ("ssl_ca_url", AStr (ssl_ca_url a)); ("extra_py_files", opt_str (extra_py_files a));
  ("scriptLocation", opt_str (scriptLocation a));
  ("job_bookmark_option", opt_str (job_bookmark_option a));
  ("job_language", opt_str (job_language a));
  ("connection_names", opt_str (connection_names a))].

(** [{i:args[i] for i in args if i not in ['db_password']}] *)
Definition logged_args (a : args) : list (string * argval) :=
  List.filter (fun kv => negb (bool_decide (kv.1 ∈ ["db_password"]))) (args_items a).

(** ** The delete mode (lines 78-79) *)

(** [args["delete_mode"].strip().upper()] *)
Definition normalize_delete_mode (s : string) : string := py_upper (py_strip s).

(** [if DELETE_MODE not in ['TRUNCATE', 'DELETE']: raise arg_parser.error(...)] *)
Definition check_delete_mode (m : string) : py_exn + string :=
  if bool_decide (m ∈ ["TRUNCATE"; "DELETE"]) then inr m
  else inl (SystemExit 2 (m +:+ " is not a valid delete mode")).

(** The module-level constants of lines 68-81 that are not connection
    fields. *)
Record config := mk_config {
  cfg_s3_object : string;
  cfg_table_name : string;
  cfg_drop_table : bool;
  cfg_delete_rows : bool;
  cfg_delete_mode : string;
  cfg_chunk_size : Z;
  cfg_ssl_ca : string
}.

Definition load_config (a : args) : py_exn + config :=
  match check_delete_mode (normalize_delete_mode (delete_mode a)) with
  | inl e => inl e
  | inr m => inr {| cfg_s3_object := s3_object a; cfg_table_name := table_name a;
                   cfg_drop_table := drop_table a; cfg_delete_rows := delete_rows a;
                   cfg_delete_mode := m; cfg_chunk_size := chunk_size a;
                   cfg_ssl_ca := ssl_ca_url a |}
  end.

(** ** Lemmas *)

Lemma check_delete_mode_spec m :
  check_delete_mode m =
  if bool_decide (m = "TRUNCATE" \/ m = "DELETE") then inr m
  else inl (SystemExit 2 (m +:+ " is not a valid delete mode")).
Proof.
  unfold check_delete_mode. apply (f_equal (fun b : bool => if b then _ else _)).
  apply bool_decide_ext. rewrite !elem_of_cons, elem_of_nil. tauto.
Qed.

(** A mode accepted at line 79 is a fixed point of the normalisation of
    line 78, which line 136 applies again. *)
Lemma normalize_checked_mode s m :
  check_delete_mode (normalize_delete_mode s) = inr m ->
  normalize_delete_mode m = m /\ (m = "TRUNCATE" \/ m = "DELETE").
Proof.
  rewrite check_delete_mode_spec. case_bool_decide as H; [|done].
  intros [= <-]. split; [apply upper_strip_idem | exact H].
Qed.

Lemma load_config_inr a cfg :
  load_config a = inr cfg -> normalize_delete_mode (cfg_delete_mode cfg) = cfg_delete_mode cfg.
Proof.
  unfold load_config. destruct (check_delete_mode _) as [e|m] eqn:Hm; [done|].
  intros [= <-]. simpl. by apply normalize_checked_mode in Hm as [? _].
Qed.

Lemma load_config_ssl_ca a cfg : load_config a = inr cfg -> cfg_ssl_ca cfg = ssl_ca_url a.
Proof. unfold load_config. destruct (check_delete_mode _); [done|]. by intros [= <-]. Qed.

Lemma load_config_delete_mode a cfg :
  load_config a = inr cfg -> cfg_delete_mode cfg = normalize_delete_mode (delete_mode a).
Proof.
  unfold load_config. destruct (check_delete_mode _) as [e|m] eqn:Hm; [done|].
  intros [= <-]. simpl. revert Hm. rewrite check_delete_mode_spec. case_bool_decide; congruence.
Qed.

Lemma logged_args_filter k v a :
  In (k, v) (logged_args a) <-> In (k, v) (args_items a) /\ k <> "db_password".
Proof.
  unfold logged_args. rewrite filter_In. simpl.
  rewrite negb_true_iff, bool_decide_eq_false, list_elem_of_singleton. done.
Qed.

(** ** Properties *)

(** C8: For a [--delete_mode] that is a word [s] between any
    whitespace, building the configuration succeeds exactly when [s]
    upper-cased is TRUNCATE or DELETE, whatever its case, and then keeps
    that upper-cased word; otherwise the job stops with argparse's exit
    status 2 and a message naming it. *)
Theorem load_config_mode a w1 s w2 :
  delete_mode a = w1 +:+ s +:+ w2 ->
  str_forallb py_isspace w1 = true -> str_forallb py_isspace w2 = true -> py_strip s = s ->
  match load_config a with
  | inr cfg => cfg_delete_mode cfg = py_upper s /\ (py_upper s = "TRUNCATE" \/ py_upper s = "DELETE")
  | inl e =>
      e = SystemExit 2 (py_upper s +:+ " is not a valid delete mode") /\
      py_upper s <> "TRUNCATE" /\ py_upper s <> "DELETE"
  end.
Proof.
  intros Ha H1 H2 Hs. unfold load_config, normalize_delete_mode.
  rewrite Ha, py_strip_pad, Hs, check_delete_mode_spec by done.
  case_bool_decide as H; simpl; [done|]. split_and!; [done | naive_solver..].
Qed.

(** C16: The dict logged at line 66 has every argument except
    [db_password], with its value. *)
Theorem logged_args_no_password a k v :
  In (k, v) (logged_args a) <-> In (k, v) (args_items a) /\ k <> "db_password".
Proof. apply logged_args_filter. Qed.

(** ** Witnesses *)

(** [--delete_mode " delete\t"] *)
Definition padded_args : args := {|
  s3_object := "s3://bucket/data.csv"; db_host := None; db_port := None; db_name := None;
  db_user := None; db_password := None; db_secret_arn := None;
  table_name := "t"; drop_table := false; delete_rows := true;
  delete_mode := " delete" +:+ String "009" EmptyString; chunk_size := default_chunk_size;
  ssl_ca_url := default_ssl_ca_url; extra_py_files := None;
  scriptLocation := None; job_bookmark_option := None; job_language := None;
  connection_names := None |}.

Lemma load_config_mode_witness :
  match load_config padded_args with
  | inr cfg => cfg_delete_mode cfg = py_upper "delete" /\
               (py_upper "delete" = "TRUNCATE" \/ py_upper "delete" = "DELETE")
  | inl e =>
      e = SystemExit 2 (py_upper "delete" +:+ " is not a valid delete mode") /\
      py_upper "delete" <> "TRUNCATE" /\ py_upper "delete" <> "DELETE"
  end.
Proof.
  apply (load_config_mode padded_args " " "delete" (String "009" EmptyString));
    vm_compute; reflexivity.
Defined.

End Config.
