(* ===== verification/ArgParse.v ===== *)
(** * The command line (lines 27-65)

    Lines 27-62 build an [argparse.ArgumentParser] and line 65 calls
    [parse_args()] on [sys.argv[1:]].  [parser_actions] is the parser those
    lines build: the automatic [-h/--help] and one action per
    [add_argument], with its option string, kind ([store], with [type]
    None, [str] or [int], or [store_true]), [required] flag and default.
    The rest of the file is argparse's parsing for these action kinds, as
    CPython 3.9's [argparse.py] does it ([_parse_known_args] with its
    helpers [_parse_optional], [_get_option_tuples], [consume_optional],
    [_get_values], then the required-argument check and the
    unrecognised-argument check of [parse_args]):
    - every token is classified first ([classify]): option (exact, with
      [=value], or a unique prefix), positional (not starting with [-], a
      negative number, containing a space, or after [--]), or an unknown
      option; an ambiguous prefix stops the run here;
    - then the options are consumed left to right ([consume]); [-h] exits
      at once; a [store] takes its [=value] or the next positional token;
    - then the required options are checked, then the leftover tokens.
    Errors are [SystemExit 2] with argparse's message, help is
    [SystemExit 0].  Strings are Latin-1 code points, as in [PyStr]
    (whose [py_repr] quotes the values in the messages).  What the parser
    does with a command line is proved in [ArgParseProps]. *)

From S2P Require Import Prelude PyStr Config.
Import PyStr Config.

Local Open Scope py_scope.
Local Open Scope string_scope.

Module ArgParse.

(** ** The parser of lines 27-62 *)

(** The [type=] of an argument: none (the string itself), [str] or [int]. *)
Inductive arg_type := TNone | TStr | TInt.

(** The actions these lines create: [store] (the default [action]),
    [store_true], and the [help] action [ArgumentParser] adds. *)
Inductive action_kind := AStore (ty : arg_type) | AStoreTrue | AHelp.

Record action := mk_action {
  act_opts : list string;
  act_dest : string;
  act_kind : action_kind;
  act_required : bool;
  act_default : argval
}.

(** [_get_optional_kwargs]: the [dest] of [--foo-bar] is [foo_bar]. *)
Fixpoint dash_to_underscore (s : string) : string :=
  match s with
  | EmptyString => EmptyString
  | String c r => String (if Ascii.eqb c "-" then "_"%char else c) (dash_to_underscore r)
  end.

Definition dest_of (opt : string) : string := dash_to_underscore (String.substring 2 (String.length opt) opt).

(** [add_argument(opt, ...)] for one long option string. *)
Definition long_opt (opt : string) (k : action_kind) (req : bool) (dflt : argval) : action :=
  mk_action [opt] (dest_of opt) k req dflt.

(** [add_help=True]: [-h/--help], whose [dest] and default are [SUPPRESS]. *)
Definition help_action : action := mk_action ["-h"; "--help"] "help" AHelp false ANone.

(** Lines 42-62, in order. *)
Definition parser_actions : list action := [
  help_action;
  long_opt "--s3_object" (AStore TNone) true ANone;
  long_opt "--db_host" (AStore TNone) false ANone;
  long_opt "--db_port" (AStore TInt) false ANone;
  long_opt "--db_name" (AStore TNone) false ANone;
  long_opt "--db_user" (AStore TNone) false ANone;
  long_opt "--db_password" (AStore TNone) false ANone;
  long_opt "--db_secret_arn" (AStore TNone) false ANone;
  long_opt "--table_name" (AStore TNone) true ANone;
  long_opt "--drop_table" AStoreTrue false (ABool false);
  long_opt "--delete_rows" AStoreTrue false (ABool false);
  long_opt "--delete_mode" (AStore TStr) false (AStr default_delete_mode);
  long_opt "--chunk_size" (AStore TInt) false (AInt default_chunk_size);
  long_opt "--ssl_ca_url" (AStore TStr) false (AStr default_ssl_ca_url);
  long_opt "--extra-py-files" (AStore TStr) false ANone;
  long_opt "--scriptLocation" (AStore TStr) false ANone;
  long_opt "--job-bookmark-option" (AStore TStr) false ANone;
  long_opt "--job-language" (AStore TStr) false ANone;
  long_opt "--connection-names" (AStore TStr) false ANone].

(** [_option_string_actions], in insertion order. *)
Definition option_map : list (string * action) :=
  flat_map (fun a => map (fun o => (o, a)) (act_opts a)) parser_actions.

Definition lookup_opt (o : string) : option action :=
  snd <$> List.find (fun oa => bool_decide (oa.1 = o)) option_map.

(** ** String helpers of [_parse_optional] *)

(** [s.split('=', 1)] when ['='] occurs in [s]. *)
Fixpoint split_eq (s : string) : option (string * string) :=
  match s with
  | EmptyString => None
  | String c r =>
      if Ascii.eqb c "=" then Some (EmptyString, r)
      else (fun '(a, b) => (String c a, b)) <$> split_eq r
  end.

Definition is_digit (c : ascii) : bool := bool_decide (is_Some (digit_val c)).

Fixpoint split_dot (s : string) : option (string * string) :=
  match s with
  | EmptyString => None
  | String c r =>
      if Ascii.eqb c "." then Some (EmptyString, r)
      else (fun '(a, b) => (String c a, b)) <$> split_dot r
  end.

(** The body of [^-\d+$|^-\d*\.\d+$] after the dash, without the newline
    that [$] allows at the very end. *)
Definition num_body (r : string) : bool :=
  (negb (bool_decide (r = "")) && str_forallb is_digit r)
  || match split_dot r with
     | Some (a, b) => str_forallb is_digit a && negb (bool_decide (b = "")) && str_forallb is_digit b
     | None => false
     end.

(** [_negative_number_matcher.match(s)]: [$] also matches before a final
    newline. *)
Definition negative_number (s : string) : bool :=
  match s with
  | String "-" r =>
      num_body r ||
      match String.index 0 (String "010" EmptyString) r with
      | Some i => bool_decide (i + 1 = String.length r)%nat && num_body (String.substring 0 i r)
      | None => false
      end
  | _ => false
  end.

Definition has_space (s : string) : bool := negb (str_forallb (fun c => negb (Ascii.eqb c " ")) s).

(** ** Classifying the tokens ([_parse_optional], [_get_option_tuples]) *)

(** [(action, option_string, explicit_arg)]. *)
Record opt_match := mk_match { om_action : action; om_opt : string; om_explicit : option string }.

(** The pattern letter of a token: ['A'], ['-'] (the first [--]) or ['O'],
    with the option it names ([None] for an unknown option). *)
Inductive tok := TokA | TokDashDash | TokO (m : option opt_match).

Inductive arg_error :=
| Ambiguous (arg : string) (matches : list string)
| ExpectedOne (a : action)
| InvalidInt (a : action) (value : string)
| IgnoredExplicit (a : action) (explicit : string)
| Required (names : list string)
| Unrecognized (extras : list string).

(** [_get_option_tuples(s)] for [--prefix] (or [--prefix=value]): the
    option strings starting with the prefix. *)
Definition long_tuples (s : string) : list opt_match :=
  let '(prefix, explicit) :=
    match split_eq s with Some (p, e) => (p, Some e) | None => (s, None) end in
  (fun '(o, a) => mk_match a o explicit) <$>
    List.filter (fun oa => String.prefix prefix oa.1) option_map.

(** [_get_option_tuples(s)] for [-xyz]: [-x] with explicit argument [yz],
    and the option strings starting with [s]. *)
Definition short_tuples (s : string) : list opt_match :=
  let short := String.substring 0 2 s in
  let short_explicit := String.substring 2 (String.length s) s in
  omap (fun '(o, a) =>
          if bool_decide (o = short) then Some (mk_match a o (Some short_explicit))
          else if String.prefix s o then Some (mk_match a o None) else None)
       option_map.

(** [_get_option_tuples(s)], for [s] starting with [-] and of length 2 or more. *)
Definition option_tuples (s : string) : list opt_match :=
  match s with
  | String "-" (String "-" _) => long_tuples s
  | _ => short_tuples s
  end.

(** [_parse_optional(s)]; [inl] is the [error] of an ambiguous prefix. *)
Definition parse_optional (s : string) : arg_error + tok :=
  match s with
  | EmptyString => inr TokA
  | String c _ =>
      if negb (Ascii.eqb c "-") then inr TokA else
      match lookup_opt s with
      | Some a => inr (TokO (Some (mk_match a s None)))
      | None =>
      if bool_decide (String.length s = 1)%nat then inr TokA else
      match (split_eq s ≫= fun '(o, e) => (fun a => mk_match a o (Some e)) <$> lookup_opt o) with
      | Some m => inr (TokO (Some m))
      | None =>
      match option_tuples s with
      | [m] => inr (TokO (Some m))
      | (_ :: _ :: _) as ms => inl (Ambiguous s (om_opt <$> ms))
      | [] =>
          if negative_number s then inr TokA
          else if has_space s then inr TokA
          else inr (TokO None)
      end end end
  end.

(** The loop of [_parse_known_args] that builds [arg_strings_pattern]:
    after the first [--] every token is positional. *)
Fixpoint classify (args : list string) : arg_error + list (string * tok) :=
  match args with
  | [] => inr []
  | s :: rest =>
      if bool_decide (s = "--") then inr ((s, TokDashDash) :: ((fun t => (t, TokA)) <$> rest))
      else
        let? t := parse_optional s in
        let? ts := classify rest in
        inr ((s, t) :: ts)
  end.

(** ** Consuming the options ([consume_optional], [take_action]) *)

(** [argparse.Namespace]: attribute name to value. *)
Abbreviation namespace := (gmap string argval).

(** [_get_value(action, s)]: [type_func(s)], an [int] that fails is an error. *)
Definition get_value (a : action) (s : string) : arg_error + argval :=
  match act_kind a with
  | AStore TInt => match py_int_of_str s with Some z => inr (AInt z) | None => inl (InvalidInt a s) end
  | _ => inr (AStr s)
  end.

(** [[self._get_value(action, v) for v in arg_strings]] *)
Fixpoint get_values (a : action) (vs : list string) : arg_error + list argval :=
  match vs with
  | [] => inr []
  | v :: r => let? x := get_value a v in let? xs := get_values a r in inr (x :: xs)
  end.

(** [list.remove('--')]: the first [--] goes. *)
Fixpoint remove_dashdash (l : list string) : list string :=
  match l with
  | [] => []
  | x :: r => if bool_decide (x = "--") then r else x :: remove_dashdash r
  end.

(** [_get_values] for a [store] ([nargs=None]): without its first [--],
    one string gives one value; any other number of strings a list. *)
Definition take_store (a : action) (vals : list string) : arg_error + argval :=
  match remove_dashdash vals with
  | [v] => get_value a v
  | vs => let? xs := get_values a vs in inr (AList xs)
  end.

Inductive outcome :=
| Done (ns : namespace) (seen : list string) (extras : list string)
| HelpExit
| Fail (e : arg_error)
| Crash (e : py_exn).

(** [-h] with an explicit argument [e] ([-hX] or [-h=X]): each further
    character must be another [h]; the [explicit_arg[0]] of an empty [e]
    raises [IndexError]. *)
Fixpoint help_cluster (e : string) : outcome :=
  match e with
  | EmptyString => Crash IndexError
  | String "h" EmptyString => HelpExit
  | String "h" r => help_cluster r
  | _ => Fail (IgnoredExplicit help_action e)
  end.

(** [option_string[1] not in prefix_chars]: a single-dash option. *)
Definition single_dash (o : string) : bool :=
  match o with String _ (String c _) => negb (Ascii.eqb c "-") | _ => false end.

Definition store (ns : namespace) (seen : list string) (a : action) (v : argval) :=
  (<[act_dest a := v]> ns, act_dest a :: seen).

(** The loop of [_parse_known_args] over the classified tokens: with no
    positional argument in this parser, every token no option consumes
    goes to [extras], in order. *)
Fixpoint consume (ns : namespace) (seen extras : list string) (ts : list (string * tok)) : outcome :=
  match ts with
  | [] => Done ns seen extras
  | (_, TokO (Some m)) :: rest =>
      let a := om_action m in
      match om_explicit m, act_kind a with
      | Some e, AStore _ =>
          match take_store a [e] with
          | inl err => Fail err
          | inr v => let '(ns', seen') := store ns seen a v in consume ns' seen' extras rest
          end
      | Some e, AStoreTrue => Fail (IgnoredExplicit a e)
      | Some e, AHelp => if single_dash (om_opt m) then help_cluster e else Fail (IgnoredExplicit a e)
      | None, AStore _ =>
          match rest with
          | (v, TokA) :: rest' =>
              match take_store a [v] with
              | inl err => Fail err
              | inr x => let '(ns', seen') := store ns seen a x in consume ns' seen' extras rest'
              end
          | _ => Fail (ExpectedOne a)
          end
      | None, AStoreTrue => let '(ns', seen') := store ns seen a (ABool true) in consume ns' seen' extras rest
      | None, AHelp => HelpExit
      end
  | (s, _) :: rest => consume ns seen (extras ++ [s]) rest
  end.

(** ** [parse_args] *)

(** The defaults [parse_known_args] sets first ([help]'s is [SUPPRESS]). *)
Definition default_ns : namespace :=
  foldl (fun ns a => match act_kind a with AHelp => ns | _ => <[act_dest a := act_default a]> ns end)
    ∅ parser_actions.

(** [_get_action_name] of the required actions not seen. *)
Definition missing_required (seen : list string) : list string :=
  omap (fun a => if act_required a && negb (bool_decide (act_dest a ∈ seen))
                 then Some (String.concat "/" (act_opts a)) else None) parser_actions.

Definition parse_result (o : outcome) : arg_error + namespace + py_exn :=
  match o with
  | Done ns seen extras =>
      match missing_required seen with
      | (_ :: _) as names => inl (inl (Required names))
      | [] => match extras with [] => inl (inr ns) | _ => inl (inl (Unrecognized extras)) end
      end
  | HelpExit => inr (SystemExit 0 "")
  | Fail e => inl (inl e)
  | Crash e => inr e
  end.

(** ** Messages *)

Definition action_name (a : action) : string := String.concat "/" (act_opts a).

(** The messages of [ArgumentError] and [parser.error]. *)
Definition error_msg (e : arg_error) : string :=
  match e with
  | Ambiguous s ms => "ambiguous option: " +:+ s +:+ " could match " +:+ String.concat ", " ms
  | ExpectedOne a => "argument " +:+ action_name a +:+ ": expected one argument"
  | InvalidInt a v => "argument " +:+ action_name a +:+ ": invalid int value: " +:+ py_repr v
  | IgnoredExplicit a v => "argument " +:+ action_name a +:+ ": ignored explicit argument " +:+ py_repr v
  | Required names => "the following arguments are required: " +:+ String.concat ", " names
  | Unrecognized xs => "unrecognized arguments: " +:+ String.concat " " xs
  end.

(** [parser.error(msg)] exits with status 2. *)
Definition exit2 (e : arg_error) : py_exn := SystemExit 2 (error_msg e).

(** Line 65: [arg_parser.parse_args()]; help is [SystemExit 0] after
    printing the help text (not modelled). *)
Definition parse_args (argv : list string) : py_exn + namespace :=
  match classify argv with
  | inl e => inl (exit2 e)
  | inr ts =>
      match parse_result (consume default_ns [] [] ts) with
      | inl (inl e) => inl (exit2 e)
      | inl (inr ns) => inr ns
      | inr x => inl x
      end
  end.

(** ** The dict of line 65, as the script reads it *)

Definition as_str (v : argval) : option string := match v with AStr s => Some s | _ => None end.
Definition as_int (v : argval) : option Z := match v with AInt z => Some z | _ => None end.
Definition as_bool (v : argval) : option bool := match v with ABool b => Some b | _ => None end.
Definition as_opt_str (v : argval) : option (option string) :=
  match v with AStr s => Some (Some s) | ANone => Some None | _ => None end.
Definition as_opt_int (v : argval) : option (option Z) :=
  match v with AInt z => Some (Some z) | ANone => Some None | _ => None end.

(** [vars(args)] read at lines 68-81 as the fields of [Config.args];
    [None] when a value has another type than the script expects. *)
Definition args_of_ns (ns : namespace) : option args :=
  s3 ← ns !! "s3_object" ≫= as_str;
  host ← ns !! "db_host" ≫= as_opt_str;
  port ← ns !! "db_port" ≫= as_opt_int;
  name ← ns !! "db_name" ≫= as_opt_str;
  user ← ns !! "db_user" ≫= as_opt_str;
  pw ← ns !! "db_password" ≫= as_opt_str;
  arn ← ns !! "db_secret_arn" ≫= as_opt_str;
  table ← ns !! "table_name" ≫= as_str;
  drop ← ns !! "drop_table" ≫= as_bool;
  del ← ns !! "delete_rows" ≫= as_bool;
  mode ← ns !! "delete_mode" ≫= as_str;
  chunk ← ns !! "chunk_size" ≫= as_int;
  ca ← ns !! "ssl_ca_url" ≫= as_str;
  epf ← ns !! "extra_py_files" ≫= as_opt_str;
  loc ← ns !! "scriptLocation" ≫= as_opt_str;
  jbo ← ns !! "job_bookmark_option" ≫= as_opt_str;
  lang ← ns !! "job_language" ≫= as_opt_str;
  conn ← ns !! "connection_names" ≫= as_opt_str;
  Some (mk_args s3 host port name user pw arn table drop del mode chunk ca epf loc jbo lang conn).

End ArgParse.
