(* ===== verification/ArgParseProps.v ===== *)
(** * Properties of the command line (lines 27-65)

    What the parser of [ArgParse] does with a command line: a
    configuration printed as [--opt=value] tokens parses back to itself
    ([parse_args_roundtrip]); a unique abbreviation parses as the option it
    abbreviates ([parse_args_abbrev]); an ambiguous one stops the run
    before anything else ([parse_args_ambiguous]); and a value that looks
    like an option is refused ([parse_args_expects_value]); on any command
    line without a token ending in [=--], a successful parse leaves a
    namespace of the declared types ([parse_args_ns_typed], by the
    invariant [ns_inv] of [consume]); [--opt=--] instead stores an empty
    list, which no field of [args] can hold.  The lemmas compute the classification
    of rendered tokens ([classify_toks]), what [consume] does with them
    ([consume_toks]), the namespace they build, and the shape of the
    tokens [classify] hands to [consume] ([classify_ok]). *)

From S2P Require Import Prelude PyStr Config ArgParse.
Import PyStr Config ArgParse.

Local Open Scope py_scope.
Local Open Scope string_scope.

Module ArgParseProps.

(** ** A configuration as a command line *)

(** The actions of lines 42-62, and each one's option string. *)
Definition long_actions : list action := tail parser_actions.
Definition long_name (a : action) : string := default "" (head (act_opts a)).

(** The values a [store] or [store_true] action can leave in the namespace. *)
Definition fits (k : action_kind) (v : argval) : bool :=
  match k, v with
  | AStore TInt, AInt _ | AStore TInt, ANone => true
  | AStore TNone, AStr _ | AStore TNone, ANone | AStore TStr, AStr _ | AStore TStr, ANone => true
  | AStoreTrue, ABool _ => true
  | _, _ => false
  end.

(** Each action with the value [a] gives it, in the order of lines 42-62. *)
Definition assignments (a : args) : list (action * argval) :=
  zip long_actions (snd <$> args_items a).

(** The tokens of one assignment, [--opt=value] or the bare flag, with
    their classification; [None] and [False] give none. *)
Definition tok_of (x : action * argval) : list (string * tok) :=
  let '(act, v) := x in
  let o := long_name act in
  match v with
  | AStr s => [(o +:+ "=" +:+ s, TokO (Some (mk_match act o (Some s))))]
  | AInt z => [(o +:+ "=" +:+ pretty z, TokO (Some (mk_match act o (Some (pretty z)))))]
  | ABool true => [(o, TokO (Some (mk_match act o None)))]
  | _ => []
  end.

(** A command line that sets [a]: what a job definition would pass. *)
Definition argv_of (a : args) : list string := fst <$> flat_map tok_of (assignments a).

(** ** Lemmas on the option table and on classification *)

Lemma option_map_no_eq : forallb (fun oa => negb (has_char "=" oa.1)) option_map = true.
Proof. reflexivity. Qed.

Lemma lookup_opt_Some o act : lookup_opt o = Some act -> In (o, act) option_map.
Proof.
  unfold lookup_opt. destruct (List.find _ _) as [[o' a']|] eqn:E; [|done].
  intros [= <-]. apply find_some in E as [Hin Heq]. by apply bool_decide_eq_true in Heq as <-.
Qed.

Lemma lookup_opt_no_eq o act : lookup_opt o = Some act -> has_char "=" o = false.
Proof.
  intros Hin%lookup_opt_Some. pose proof option_map_no_eq as H.
  rewrite forallb_forall in H. apply negb_true_iff, (H (o, act) Hin).
Qed.

(** The option strings of lines 42-62: each names its action, has no
    [=], and is [--] followed by at least one character. *)
Lemma long_actions_names :
  Forall (fun act => lookup_opt (long_name act) = Some act /\
    exists c r, long_name act = String "-" (String "-" (String c r))) long_actions.
Proof. repeat constructor; eauto. Qed.

Lemma split_eq_app o s : has_char "=" o = false -> split_eq (o +:+ "=" +:+ s) = Some (o, s).
Proof.
  induction o as [|c o IH]; [done|]. unfold has_char in *. cbn [str_forallb].
  intros H. apply negb_false_iff, andb_prop in H as [Hc Ho]. apply negb_true_iff in Hc.
  simpl. rewrite Hc, IH by (by rewrite Ho). done.
Qed.

Lemma long_action_name act :
  In act long_actions ->
  lookup_opt (long_name act) = Some act /\ exists c r, long_name act = String "-" (String "-" (String c r)).
Proof. intros Hin. exact (proj1 (List.Forall_forall _ _) long_actions_names act Hin). Qed.

(** [--opt=value]: an option string with an explicit argument. *)
Lemma parse_optional_explicit act s :
  In act long_actions ->
  parse_optional (long_name act +:+ "=" +:+ s) = inr (TokO (Some (mk_match act (long_name act) (Some s)))).
Proof.
  intros (Hl & c & r & Hn)%long_action_name.
  set (t := long_name act +:+ "=" +:+ s).
  assert (Ht : t = String "-" (String "-" (String c (r +:+ "=" +:+ s)))) by (unfold t; by rewrite Hn).
  assert (Hno : lookup_opt t = None).
  { destruct (lookup_opt t) as [a'|] eqn:E; [|done]. apply lookup_opt_no_eq in E.
    unfold t in E. rewrite !has_char_app in E. apply orb_false_iff in E as [_ E].
    apply orb_false_iff in E as [E _]. done. }
  unfold parse_optional. rewrite Ht at 1. cbn [Ascii.eqb negb]. rewrite Hno.
  rewrite bool_decide_false by (rewrite Ht; done).
  unfold t. rewrite split_eq_app by (by eapply lookup_opt_no_eq). simpl. by rewrite Hl.
Qed.

(** [--flag]: an option string on its own. *)
Lemma parse_optional_exact act :
  In act long_actions ->
  parse_optional (long_name act) = inr (TokO (Some (mk_match act (long_name act) None))).
Proof.
  intros (Hl & c & r & Hn)%long_action_name.
  unfold parse_optional. rewrite Hn at 1. cbn [Ascii.eqb negb]. by rewrite Hl.
Qed.

Lemma long_token_ne act s : In act long_actions -> long_name act +:+ s <> "--".
Proof. intros (_ & c & r & Hn)%long_action_name. rewrite Hn. by inversion 1. Qed.

Lemma classify_cons t tk rest ts :
  t <> "--" -> parse_optional t = inr tk -> classify rest = inr ts ->
  classify (t :: rest) = inr ((t, tk) :: ts).
Proof. intros Hd Ht Hr. simpl. rewrite bool_decide_false by done. by rewrite Ht, Hr. Qed.

(** The rendered assignments classify as the options they were rendered from. *)
Lemma classify_toks l :
  (forall x, In x l -> In x.1 long_actions) ->
  classify (fst <$> flat_map tok_of l) = inr (flat_map tok_of l).
Proof.
  induction l as [|[act v] l IH]; intros Hl; [done|].
  assert (Hin : In act long_actions) by exact (Hl _ (or_introl eq_refl)).
  assert (IH' := IH (fun x Hx => Hl x (or_intror Hx))).
  cbn [flat_map]. rewrite fmap_app.
  destruct v as [s|z|[]| |vs]; simpl; try exact IH'.
  - apply classify_cons; [apply long_token_ne | apply parse_optional_explicit |]; done.
  - apply classify_cons; [apply long_token_ne | apply parse_optional_explicit |]; done.
  - apply classify_cons; [| apply parse_optional_exact |]; [|done..].
    rewrite <-(string_app_nil_r (long_name act)). by apply long_token_ne.
Qed.

(** The namespace and [seen_actions] after one assignment. *)
Definition assign (st : namespace * list string) (x : action * argval) : namespace * list string :=
  match x.2 with ANone | ABool false => st | v => store st.1 st.2 x.1 v end.

Lemma pretty_ne_dashdash (z : Z) : pretty z <> "--".
Proof. intros H. pose proof (py_int_of_str_pretty z) as Hz. by rewrite H in Hz. Qed.

(** The assignments the rendering can express: a value of the action's
    type, and no string [--] (which [_get_values] would drop). *)
Definition renderable (x : action * argval) : Prop :=
  In x.1 long_actions /\ fits (act_kind x.1) x.2 = true /\ x.2 <> AStr "--".

Lemma consume_toks l ns seen ex rest :
  Forall renderable l ->
  consume ns seen ex (flat_map tok_of l ++ rest) =
    let '(ns', seen') := foldl assign (ns, seen) l in consume ns' seen' ex rest.
Proof.
  revert ns seen. induction l as [|[act v] l IH]; intros ns seen Hl; [done|].
  apply Forall_cons in Hl as [(Hin & Hfit & Hdd) Hl]. cbn [flat_map foldl fst snd] in *.
  destruct v as [s|z|[]| |vs]; destruct (act_kind act) as [[]| |] eqn:Ek;
    simpl in Hfit; try discriminate Hfit; simpl; rewrite ?Ek; try (by apply IH);
    unfold take_store; simpl.
  1,2: rewrite bool_decide_false by congruence; unfold get_value; rewrite Ek; by apply IH.
  rewrite bool_decide_false by apply pretty_ne_dashdash.
  unfold get_value; rewrite Ek, py_int_of_str_pretty. by apply IH.
Qed.

(** ** The namespace the assignments build *)

Definition absent (v : argval) : bool := match v with ANone | ABool false => true | _ => false end.

Definition dests (l : list (action * argval)) : list string := (act_dest ∘ fst) <$> l.

Lemma assign_lookup_ne st x k : act_dest x.1 <> k -> (assign st x).1 !! k = st.1 !! k.
Proof.
  destruct x as [act v], st as [ns seen]. unfold assign, store. simpl. intros Hne.
  destruct v as [| |[]| |]; simpl; try done; by rewrite lookup_insert_ne.
Qed.

Lemma assign_seen_mono st x k : k ∈ st.2 -> k ∈ (assign st x).2.
Proof. destruct x as [act [| |[]| |]], st; simpl; set_solver. Qed.

Lemma foldl_assign_notin l st k : k ∉ dests l -> (foldl assign st l).1 !! k = st.1 !! k.
Proof.
  revert st. induction l as [|x l IH]; intros st Hk; [done|]. simpl in *.
  apply not_elem_of_cons in Hk as [Hx Hk]. rewrite IH by done. by apply assign_lookup_ne.
Qed.

Lemma foldl_assign_in l st act v :
  NoDup (dests l) -> In (act, v) l -> (absent v = true -> st.1 !! act_dest act = Some v) ->
  (foldl assign st l).1 !! act_dest act = Some v.
Proof.
  revert st. induction l as [|[act' v'] l IH]; intros st Hnd Hin Hd; [done|].
  simpl in Hnd, Hin |- *. apply NoDup_cons in Hnd as [Hnot Hnd].
  destruct Hin as [[= -> ->]|Hin].
  - rewrite foldl_assign_notin by done. destruct st as [ns seen].
    unfold assign, store. destruct v as [| |[]| |]; simpl in *; try (by rewrite lookup_insert_eq); by apply Hd.
  - apply IH; [done..|]. intros Ha. rewrite assign_lookup_ne; [by apply Hd|].
    intros Heq. apply Hnot. simpl in Heq |- *. rewrite Heq. apply list_elem_of_fmap. exists (act, v). split; [done|].
    by apply list_elem_of_In.
Qed.

Lemma foldl_assign_seen l st act v :
  In (act, v) l -> absent v = false -> act_dest act ∈ (foldl assign st l).2.
Proof.
  assert (Hm : forall l st k, k ∈ st.2 -> k ∈ (foldl assign st l).2).
  { induction l0 as [|x l0 IH]; intros st0 k Hk; [done|]. apply IH, assign_seen_mono, Hk. }
  revert st. induction l as [|[act' v'] l IH]; intros st Hin Ha; [done|].
  destruct Hin as [[= -> ->]|Hin]; [|by apply IH]. cbn [foldl]. apply Hm.
  destruct st as [ns seen]. unfold assign, store. destruct v as [| |[]| |]; simpl in *; try discriminate; set_solver.
Qed.

Lemma bind_opt_str (x : option string) : Some (opt_str x) ≫= as_opt_str = Some x.
Proof. by destruct x. Qed.

Lemma bind_opt_int (x : option Z) : Some (opt_int x) ≫= as_opt_int = Some x.
Proof. by destruct x. Qed.

(** The typed view succeeds on a namespace holding the dict [args_items a]. *)
Lemma args_of_ns_items ns a :
  (forall k v, In (k, v) (args_items a) -> ns !! k = Some v) -> args_of_ns ns = Some a.
Proof.
  intros H. destruct a as [s3 host port name user pw arn table drop del mode chunk ca epf loc jbo lang conn].
  unfold args_of_ns. cbn [args_items] in H.
  repeat match goal with
  | |- context [ns !! ?k] =>
      match goal with _ : ns !! k = _ |- _ => fail 1 | _ => idtac end;
      let E := fresh "E" in
      assert (E : ns !! k = _) by (apply H; simpl; eauto 20); rewrite E
  end.
  rewrite ?bind_opt_str, ?bind_opt_int. reflexivity.
Qed.

(** ** The assignments of a configuration *)

(** No string of the configuration is [--]. *)
Definition no_dashdash (a : args) : Prop := Forall (fun kv => kv.2 <> AStr "--") (args_items a).

Lemma fits_opt_str t x : t <> TInt -> fits (AStore t) (opt_str x) = true.
Proof. destruct t, x; done. Qed.

Lemma fits_opt_int x : fits (AStore TInt) (opt_int x) = true.
Proof. by destruct x. Qed.

Lemma assignments_fit a : forallb (fun x => fits (act_kind x.1) x.2) (assignments a) = true.
Proof.
  destruct a. unfold assignments. cbn -[opt_str opt_int fits].
  by rewrite ?fits_opt_str, ?fits_opt_int.
Qed.

Lemma assignments_renderable a : no_dashdash a -> Forall renderable (assignments a).
Proof.
  intros Hd. apply List.Forall_forall. intros [act v] Hin. split_and!.
  - by apply in_zip_l in Hin.
  - pose proof (assignments_fit a) as Hf. rewrite forallb_forall in Hf. apply (Hf _ Hin).
  - apply in_zip_r, in_map_iff in Hin as ([k v'] & <- & Hkv).
    exact (proj1 (List.Forall_forall _ _) Hd _ Hkv).
Qed.

Lemma assignments_nodup a : NoDup (dests (assignments a)).
Proof. apply (bool_decide_eq_true_1 _). by vm_compute. Qed.

(** An absent value is its action's default. *)
Definition absent_ok (d v : argval) : bool :=
  negb (absent v) || match d, v with ANone, ANone | ABool false, ABool false => true | _, _ => false end.

Lemma absent_ok_opt_str x : absent_ok ANone (opt_str x) = true.
Proof. by destruct x. Qed.
Lemma absent_ok_opt_int x : absent_ok ANone (opt_int x) = true.
Proof. by destruct x. Qed.
Lemma absent_ok_bool b : absent_ok (ABool false) (ABool b) = true.
Proof. by destruct b. Qed.

Lemma long_defaults :
  Forall (fun act => default_ns !! act_dest act = Some (act_default act)) long_actions.
Proof. repeat (apply List.Forall_cons; [vm_compute; reflexivity|]). apply List.Forall_nil. Qed.

Lemma assignments_defaults a act v :
  In (act, v) (assignments a) -> absent v = true -> default_ns !! act_dest act = Some v.
Proof.
  intros Hin Ha.
  assert (Hok : absent_ok (act_default act) v = true).
  { assert (H : forallb (fun x => absent_ok (act_default x.1) x.2) (assignments a) = true).
    { destruct a. unfold assignments. cbn -[opt_str opt_int absent_ok].
      by rewrite ?absent_ok_opt_str, ?absent_ok_opt_int, ?absent_ok_bool. }
    rewrite forallb_forall in H. apply (H _ Hin). }
  rewrite (proj1 (List.Forall_forall _ _) long_defaults act (in_zip_l _ _ _ _ Hin)).
  unfold absent_ok in Hok. rewrite Ha in Hok.
  destruct (act_default act) as [| |[]| |], v as [| |[]| |]; done.
Qed.

Lemma items_assignments a k v :
  In (k, v) (args_items a) -> exists act, In (act, v) (assignments a) /\ act_dest act = k.
Proof. apply in_zip_keys. reflexivity. Qed.

Lemma missing_required_nil seen :
  "s3_object" ∈ seen -> "table_name" ∈ seen -> missing_required seen = [].
Proof. intros H1 H2. unfold missing_required. cbn. by rewrite !bool_decide_true. Qed.

(** ** Abbreviations and option-like tokens *)

(** The options a token [p] abbreviates: those whose option string starts
    with [p] ([_get_option_tuples]). *)
Definition prefix_matches (p : string) : list (string * action) :=
  List.filter (fun oa => String.prefix p oa.1) option_map.

(** argparse reads [v] as an option (known or not), not as a value. *)
Definition reads_as_option (v : string) : bool :=
  match parse_optional v with inr (TokO _) => negb (bool_decide (v = "--")) | _ => false end.

(** ** Lemmas on arbitrary command lines *)

Lemma classify_app l1 l2 :
  "--" ∉ l1 ->
  classify (l1 ++ l2) = (let? t1 := classify l1 in let? t2 := classify l2 in inr (app t1 t2)).
Proof.
  induction l1 as [|s l1 IH]; intros Hd; simpl.
  - by destruct (classify l2).
  - apply not_elem_of_cons in Hd as [Hs Hd]. rewrite bool_decide_false by done.
    destruct (parse_optional s); [done|]. simpl. rewrite IH by done.
    destruct (classify l1), (classify l2); done.
Qed.

(** What [consume] reads of a token: the string only when no option
    claims it. *)
Definition tok_erase (x : string * tok) : string * tok :=
  match x.2 with TokO (Some _) => ("", x.2) | _ => x end.

Lemma consume_erase n ts1 ts2 ns seen ex :
  length ts1 <= n -> tok_erase <$> ts1 = tok_erase <$> ts2 ->
  consume ns seen ex ts1 = consume ns seen ex ts2.
Proof.
  revert ts1 ts2 ns seen ex. induction n as [|n IH]; intros ts1 ts2 ns seen ex Hn He.
  { destruct ts1; [|simpl in Hn; lia]. by destruct ts2. }
  destruct ts1 as [|[s t] r1], ts2 as [|[s' t'] r2]; try done.
  simpl in He. injection He as Hh Hr. simpl in Hn.
  unfold tok_erase in Hh. simpl in Hh.
  destruct t as [| |[m|]], t' as [| |[m'|]]; simplify_eq; simpl; try (apply IH; [lia|done]).
  destruct (om_explicit m') as [e|], (act_kind (om_action m')) as [ty| |]; try done;
    try (destruct (take_store _ _); [done|]; unfold store; cbn iota beta; apply IH; [lia|done]);
    try (unfold store; cbn iota beta; apply IH; [lia|done]).
  destruct r1 as [|[v t1] r1], r2 as [|[v' t2] r2]; try done.
  simpl in Hr. injection Hr as Hh2 Hr. unfold tok_erase in Hh2. simpl in Hh2.
  destruct t1 as [| |[m1|]], t2 as [| |[m2|]]; simplify_eq; try done.
  destruct (take_store _ _); [done|]. unfold store; cbn iota beta. apply IH; [simpl in Hn; lia|done].
Qed.

Lemma prefix_cons a b s1 s2 :
  String.prefix (String a s1) (String b s2) = true -> a = b /\ String.prefix s1 s2 = true.
Proof. simpl. destruct (ascii_dec a b); [auto|done]. Qed.

Lemma split_eq_none s : has_char "=" s = false -> split_eq s = None.
Proof.
  induction s as [|c s IH]; [done|]. unfold has_char in *. cbn [str_forallb].
  intros H. apply negb_false_iff, andb_prop in H as [Hc Hs]. apply negb_true_iff in Hc.
  simpl. rewrite Hc, IH by (by rewrite Hs). done.
Qed.

Lemma find_key_nodup {K V} `{EqDecision K} (l : list (K * V)) k v :
  NoDup (fst <$> l) -> In (k, v) l -> snd <$> List.find (fun kv => bool_decide (kv.1 = k)) l = Some v.
Proof.
  induction l as [|[k' v'] l IH]; intros Hnd Hin; [done|].
  simpl in Hnd. apply NoDup_cons in Hnd as [Hk Hnd]. simpl.
  destruct Hin as [[= -> ->]|Hin]; [by rewrite bool_decide_true|].
  rewrite bool_decide_false; [by apply IH|].
  intros ->. apply Hk. apply list_elem_of_fmap. exists (k, v). split; [done|by apply list_elem_of_In].
Qed.

Lemma option_map_nodup : NoDup (fst <$> option_map).
Proof. apply (bool_decide_eq_true_1 _). by vm_compute. Qed.

Lemma option_map_dash : forallb (fun oa => String.prefix "-" oa.1 && negb (bool_decide (oa.1 = "--"))) option_map = true.
Proof. reflexivity. Qed.

Lemma lookup_opt_In o act : In (o, act) option_map -> lookup_opt o = Some act.
Proof. intros Hin. by apply find_key_nodup; [apply option_map_nodup|]. Qed.

(** An option string of the parser, on its own. *)
Lemma parse_optional_opt o act :
  In (o, act) option_map -> o <> "--" /\ parse_optional o = inr (TokO (Some (mk_match act o None))).
Proof.
  intros Hin. pose proof option_map_dash as Hd. rewrite forallb_forall in Hd.
  apply Hd in Hin as Hp. apply andb_prop in Hp as [Hp Hne]. simpl in Hne.
  split; [by apply negb_true_iff, bool_decide_eq_false in Hne|].
  destruct o as [|c r]; [done|]. apply prefix_cons in Hp as [<- _]. unfold parse_optional.
  by rewrite (lookup_opt_In _ _ Hin).
Qed.

(** A prefix of exactly one option string, without [=]. *)
Lemma parse_optional_abbrev p o act :
  String.prefix "--" p = true -> has_char "=" p = false -> lookup_opt p = None ->
  prefix_matches p = [(o, act)] ->
  p <> "--" /\ parse_optional p = inr (TokO (Some (mk_match act o None))).
Proof.
  intros Hp He Hl Hf. unfold prefix_matches in Hf.
  destruct p as [|c1 p]; [done|]. apply prefix_cons in Hp as [<- Hp].
  destruct p as [|c2 r]; [by vm_compute in Hp|]. apply prefix_cons in Hp as [<- _].
  split; [intros [= ->]; by vm_compute in Hf|].
  unfold parse_optional. cbn [Ascii.eqb negb]. rewrite Hl.
  rewrite bool_decide_false by done. rewrite split_eq_none by done.
  unfold option_tuples, long_tuples. rewrite split_eq_none by done. by rewrite Hf.
Qed.

Lemma classify_cons_eq t l :
  t <> "--" ->
  classify (t :: l) = (let? tk := parse_optional t in let? ts := classify l in inr ((t, tk) :: ts)).
Proof. intros Ht. simpl. by rewrite bool_decide_false. Qed.

(** A prefix of two or more option strings, without [=]. *)
Lemma parse_optional_ambiguous p :
  String.prefix "--" p = true -> has_char "=" p = false -> lookup_opt p = None -> p <> "--" ->
  2 <= length (prefix_matches p) ->
  parse_optional p = inl (Ambiguous p (fst <$> prefix_matches p)).
Proof.
  intros Hp He Hl Hdd H2. unfold prefix_matches in *.
  destruct p as [|c1 p]; [done|]. apply prefix_cons in Hp as [<- Hp].
  destruct p as [|c2 r]; [by vm_compute in Hp|]. apply prefix_cons in Hp as [<- _].
  unfold parse_optional. cbn [Ascii.eqb negb]. rewrite Hl.
  rewrite bool_decide_false by done. rewrite split_eq_none by done.
  unfold option_tuples, long_tuples. rewrite split_eq_none by done.
  destruct (List.filter _ option_map) as [|x1 [|x2 xs]] eqn:Ef; simpl in H2; try lia.
  f_equal. f_equal. destruct x1, x2. simpl. f_equal. f_equal.
  clear. induction xs as [|[] xs IH]; simpl; congruence.
Qed.

(** ** The types of the namespace *)

Definition is_anone (v : argval) : bool := match v with ANone => true | _ => false end.

(** [v] is a value [act] can hold: of its type, and [None] only where the
    default is [None]. *)
Definition holds (act : action) (v : argval) : bool :=
  fits (act_kind act) v && (is_anone (act_default act) || negb (is_anone v)).

(** Every action of lines 42-62 holds a value it can hold. *)
Definition typed (ns : namespace) : bool :=
  forallb (fun act => match ns !! act_dest act with Some v => holds act v | None => false end)
    long_actions.

Lemma typed_default : typed default_ns = true.
Proof. by vm_compute. Qed.

Lemma long_dests_nodup : NoDup (act_dest <$> long_actions).
Proof. apply (bool_decide_eq_true_1 _). by vm_compute. Qed.

Lemma typed_store ns a v :
  typed ns = true -> In a long_actions -> holds a v = true ->
  typed (<[act_dest a := v]> ns) = true.
Proof.
  unfold typed. rewrite !forallb_forall. intros Ht Ha Hv act Hact.
  destruct (decide (act_dest a = act_dest act)) as [Heq|Hne].
  - rewrite Heq, lookup_insert_eq.
    by rewrite <-(NoDup_fmap_in_inj act_dest long_actions a act long_dests_nodup Ha Hact Heq).
  - rewrite lookup_insert_ne by done. by apply Ht.
Qed.

(** The typed view succeeds on a typed namespace whose required options
    are set. *)
Lemma typed_args_of_ns ns :
  typed ns = true -> ns !! "s3_object" <> Some ANone -> ns !! "table_name" <> Some ANone ->
  is_Some (args_of_ns ns).
Proof.
  unfold typed, holds. cbn -[lookup fits is_anone]. intros H Hs Ht. unfold args_of_ns.
  repeat match goal with
  | H : (match ns !! ?k with Some v => _ | None => false end && _)%bool = true |- _ =>
      apply andb_prop in H as [? H]
  end.
  repeat match goal with
  | Hk : match ns !! ?k with Some v => _ | None => false end = true |- _ =>
      let v := fresh "v" in destruct (ns !! k) as [v|]; [|discriminate Hk]
  end.
  cbn [mbind option_bind].
  repeat match goal with
  | |- context [as_str ?v] => destruct (as_str v) eqn:?; [|exfalso; destruct v; simpl in *; congruence]
  | |- context [as_opt_str ?v] => destruct (as_opt_str v) eqn:?; [|exfalso; destruct v; simpl in *; congruence]
  | |- context [as_int ?v] => destruct (as_int v) eqn:?; [|exfalso; destruct v; simpl in *; congruence]
  | |- context [as_opt_int ?v] => destruct (as_opt_int v) eqn:?; [|exfalso; destruct v; simpl in *; congruence]
  | |- context [as_bool ?v] => destruct (as_bool v) eqn:?; [|exfalso; destruct v; simpl in *; congruence]
  end.
  eexists. reflexivity.
Qed.

(** ** What classification hands to [consume] *)

(** A token's option: one of the parser's actions, and an explicit
    argument [--] only for [-h] (whose argument is never stored). *)
Definition match_ok (m : opt_match) : Prop :=
  In (om_action m) parser_actions /\
  forall e, om_explicit m = Some e -> act_kind (om_action m) <> AHelp -> e <> "--".

(** The classified tokens: no [--] value before the first [--] token,
    nothing but positionals after it. *)
Fixpoint toks_ok (ts : list (string * tok)) : Prop :=
  match ts with
  | [] => True
  | (_, TokDashDash) :: r => Forall (fun x => x.2 = TokA) r
  | (s, TokA) :: r => s <> "--" /\ toks_ok r
  | (_, TokO None) :: r => toks_ok r
  | (_, TokO (Some m)) :: r => match_ok m /\ toks_ok r
  end.

(** [s.endswith('=--')] *)
Fixpoint ends_eq_dashdash (s : string) : bool :=
  bool_decide (s = "=--") || match s with EmptyString => false | String _ r => ends_eq_dashdash r end.

(** No token ends in [=--]. *)
Definition no_eq_dashdash (argv : list string) : bool :=
  forallb (fun t => negb (ends_eq_dashdash t)) argv.

Lemma ends_eq_dashdash_app pre : ends_eq_dashdash (pre +:+ "=--") = true.
Proof. induction pre as [|c pre IH]; [done|]. rewrite string_app_cons. simpl. by rewrite IH, orb_true_r. Qed.

Lemma split_eq_spec s o e : split_eq s = Some (o, e) -> s = o +:+ "=" +:+ e.
Proof.
  revert o. induction s as [|c s IH]; intros o; [done|]. simpl.
  destruct (Ascii.eqb c "=") eqn:Ec.
  - apply Ascii.eqb_eq in Ec as ->. by intros [= <- <-].
  - destruct (split_eq s) as [[o' e']|] eqn:E; [|done]. intros [= <- ->].
    by rewrite (IH o' eq_refl).
Qed.

Lemma option_map_actions o a : In (o, a) option_map -> In a parser_actions.
Proof.
  unfold option_map. intros (a' & Ha' & Ho)%in_flat_map.
  apply in_map_iff in Ho as (o' & [= _ <-] & _). done.
Qed.

Lemma option_map_short o a : In (o, a) option_map -> String.length o <= 2 -> act_kind a = AHelp.
Proof.
  intros Hin Hl. repeat (destruct Hin as [[= <- <-]|Hin]; [try reflexivity; simpl in Hl; lia|]).
  destruct Hin.
Qed.

Lemma substring_02_length s : String.length (String.substring 0 2 s) <= 2.
Proof. destruct s as [|c1 [|c2 r]]; [simpl; lia..|]. cbn. destruct r; simpl; lia. Qed.

Lemma option_tuples_cases s : option_tuples s = long_tuples s \/ option_tuples s = short_tuples s.
Proof. unfold option_tuples. repeat case_match; auto. Qed.

Lemma long_tuples_ok s m :
  (forall pre, s <> pre +:+ "=--") -> In m (long_tuples s) -> match_ok m.
Proof.
  intros Hs Hin. unfold long_tuples in Hin.
  destruct (split_eq s) as [[p e]|] eqn:Esp;
    apply in_map_iff in Hin as ([o a] & <- & Hoa); apply filter_In in Hoa as [Hoa _];
    (split; [by apply (option_map_actions o a)|]); simpl; intros e' He' _; [|done].
  injection He' as <-. intros ->. apply (Hs p). by apply split_eq_spec.
Qed.

Lemma short_tuples_ok s m : In m (short_tuples s) -> match_ok m.
Proof.
  unfold short_tuples. intros ([o a] & Hoa & Hm)%list_elem_of_In%list_elem_of_omap.
  apply list_elem_of_In in Hoa.
  case_bool_decide as Eo; [|destruct (String.prefix s o)]; simplify_eq.
  - split; [by eapply option_map_actions|]. simpl. intros e _ Hk. exfalso.
    apply Hk. eapply option_map_short; [exact Hoa|]. apply substring_02_length.
  - split; [by eapply option_map_actions|done].
Qed.

Lemma parse_optional_ok s m :
  (forall pre, s <> pre +:+ "=--") -> parse_optional s = inr (TokO (Some m)) -> match_ok m.
Proof.
  intros Hs. unfold parse_optional.
  destruct s as [|c r]; [done|]. case_match; [done|].
  destruct (lookup_opt _) as [a|] eqn:El.
  { intros [= <-]. split; [|done]. apply lookup_opt_Some in El. by apply (option_map_actions (String c r) a). }
  case_match; [done|].
  destruct (split_eq _ ≫= _) as [m'|] eqn:Esp.
  { intros [= <-]. destruct (split_eq (String c r)) as [[o e]|] eqn:E; [|done].
    simpl in Esp. destruct (lookup_opt o) as [a|] eqn:Eo; [|done]. injection Esp as <-.
    split; [by apply lookup_opt_Some, option_map_actions in Eo|]. simpl.
    intros e' [= <-] _ ->. apply (Hs o). by apply split_eq_spec. }
  destruct (option_tuples _) as [|m1 [|m2 ms]] eqn:Et; try (repeat case_match; done).
  intros [= <-]. assert (Hin : In m1 (option_tuples (String c r))) by (rewrite Et; by left).
  destruct (option_tuples_cases (String c r)) as [E|E]; rewrite E in Hin;
    [by apply (long_tuples_ok (String c r))|by apply short_tuples_ok in Hin].
Qed.

Lemma classify_ok argv ts : no_eq_dashdash argv = true -> classify argv = inr ts -> toks_ok ts.
Proof.
  revert ts. induction argv as [|x argv IH]; intros ts Hn Hc; simpl in Hc.
  { by injection Hc as <-. }
  simpl in Hn. apply andb_prop in Hn as [Hx%negb_true_iff Hn].
  assert (Hx' : forall pre, x <> pre +:+ "=--") by (intros pre ->; by rewrite ends_eq_dashdash_app in Hx).
  case_bool_decide as Hd.
  - injection Hc as <-. simpl. apply List.Forall_forall. intros y (z & <- & _)%in_map_iff. done.
  - destruct (parse_optional x) as [|t] eqn:Ep; [done|]. simpl in Hc.
    destruct (classify argv) as [|ts'] eqn:Ec; [done|]. injection Hc as <-.
    specialize (IH ts' Hn eq_refl). destruct t as [| |[m|]]; simpl.
    + done.
    + exfalso. unfold parse_optional in Ep. repeat case_match; done.
    + split; [by apply (parse_optional_ok x m Hx')|done].
    + done.
Qed.

(** ** The consume loop keeps the namespace typed *)

(** The namespace is typed and every action seen holds a value other than
    [None]. *)
Definition ns_inv (ns : namespace) (seen : list string) : Prop :=
  typed ns = true /\ Forall (fun k => ns !! k <> Some ANone) seen.

Lemma long_of_parser a : In a parser_actions -> act_kind a <> AHelp -> In a long_actions.
Proof. intros [<-|H] Hk; [by destruct Hk|done]. Qed.

Lemma holds_fits a v : fits (act_kind a) v = true -> is_anone v = false -> holds a v = true.
Proof. unfold holds. intros -> ->. by rewrite orb_true_r. Qed.

Lemma take_store_holds a ty v x :
  act_kind a = AStore ty -> v <> "--" -> take_store a [v] = inr x -> holds a x = true /\ x <> ANone.
Proof.
  intros Hk Hv. unfold take_store. simpl. rewrite bool_decide_false by done.
  unfold get_value. rewrite Hk.
  destruct ty; repeat case_match; intros Ht; simplify_eq; (split; [by apply holds_fits; rewrite ?Hk|done]).
Qed.

Lemma store_inv ns seen a x :
  ns_inv ns seen -> In a long_actions -> holds a x = true -> x <> ANone ->
  ns_inv (store ns seen a x).1 (store ns seen a x).2.
Proof.
  unfold ns_inv.
  intros [Ht Hs] Ha Hx Hn. split; [by apply typed_store|]. unfold store; simpl.
  constructor; [by rewrite lookup_insert_eq; congruence|].
  apply List.Forall_forall. intros k Hk. rewrite List.Forall_forall in Hs.
  destruct (decide (act_dest a = k)) as [<-|Hne];
    [rewrite lookup_insert_eq; congruence|rewrite lookup_insert_ne by done; by apply Hs].
Qed.

Lemma consume_positionals ns seen ex r :
  Forall (fun x => x.2 = TokA) r -> consume ns seen ex r = Done ns seen (ex ++ r.*1).
Proof.
  revert ex. induction r as [|[s t] r IH]; intros ex Hr; simpl; [by rewrite app_nil_r|].
  apply Forall_cons in Hr as [Ht Hr]. simpl in Ht. subst t.
  rewrite IH by done. by rewrite <-app_assoc.
Qed.

Lemma help_cluster_not_done e ns seen ex : help_cluster e <> Done ns seen ex.
Proof. induction e as [|c e IH]; simpl; [done|]. by repeat case_match. Qed.

Lemma consume_inv n ts ns seen ex ns' seen' ex' :
  length ts <= n -> toks_ok ts -> ns_inv ns seen ->
  consume ns seen ex ts = Done ns' seen' ex' -> ns_inv ns' seen'.
Proof.
  revert ts ns seen ex. induction n as [|n IH]; intros ts ns seen ex Hn Hok Hi Hc.
  { destruct ts; [by injection Hc as -> -> _|simpl in Hn; lia]. }
  destruct ts as [|[s t] r]; [by injection Hc as -> -> _|]. simpl in Hn.
  destruct t as [| |[m|]]; simpl in Hok, Hc.
  - destruct Hok as [_ Hok]. by eapply (IH r); [lia|..].
  - rewrite consume_positionals in Hc by done. by injection Hc as -> -> _.
  - destruct Hok as [[Hin He] Hok].
    destruct (om_explicit m) as [e|] eqn:Ee, (act_kind (om_action m)) as [ty| |] eqn:Ek; try done;
      [|destruct (single_dash (om_opt m)); [by apply help_cluster_not_done in Hc|done]|..].
    + destruct (take_store (om_action m) [e]) as [|x] eqn:Et; [done|].
      destruct (take_store_holds _ _ _ _ Ek (He e eq_refl ltac:(congruence)) Et) as [Hx Hxn].
      eapply (IH r); [lia|done| |exact Hc]. apply store_inv; [done| |done..].
      apply long_of_parser; congruence.
    + destruct r as [|[v [| |]] r']; try done. destruct Hok as [Hv Hok].
      destruct (take_store (om_action m) [v]) as [|x] eqn:Et; [done|].
      destruct (take_store_holds _ _ _ _ Ek Hv Et) as [Hx Hxn].
      eapply (IH r'); [simpl in Hn; lia|done| |exact Hc]. apply store_inv; [done| |done..].
      apply long_of_parser; congruence.
    + eapply (IH r); [lia|done| |exact Hc]. apply store_inv; [done| |by apply holds_fits; rewrite ?Ek|done].
      apply long_of_parser; congruence.
  - by eapply (IH r); [lia|..].
Qed.

Lemma missing_required_in seen :
  missing_required seen = [] -> "s3_object" ∈ seen /\ "table_name" ∈ seen.
Proof.
  intros H. split; apply dec_stable; intros Hn; revert H; unfold missing_required; cbn;
    rewrite (bool_decide_false _ Hn); repeat case_bool_decide; done.
Qed.

Lemma ns_inv_args_of_ns ns seen :
  ns_inv ns seen -> "s3_object" ∈ seen -> "table_name" ∈ seen -> is_Some (args_of_ns ns).
Proof.
  intros [Ht Hs] H1 H2. rewrite List.Forall_forall in Hs.
  apply typed_args_of_ns; [done|apply Hs..]; by apply list_elem_of_In.
Qed.

(** What a successful parse leaves, on a command line without [=--]. *)
Lemma parse_args_ns_typed argv ns :
  no_eq_dashdash argv = true -> parse_args argv = inr ns ->
  typed ns = true /\ is_Some (args_of_ns ns).
Proof.
  intros Hn. unfold parse_args.
  destruct (classify argv) as [|ts] eqn:Ec; [done|].
  destruct (consume default_ns [] [] ts) as [ns0 seen ex| | |] eqn:Eco; simpl; try done.
  destruct (missing_required seen) eqn:Em; [|done]. destruct ex; [|done]. intros [= <-].
  assert (Hi : ns_inv ns0 seen).
  { apply (consume_inv (length ts) ts default_ns [] [] ns0 seen []); [done|by apply (classify_ok argv)| |done].
    split; [apply typed_default|constructor]. }
  split; [apply Hi|]. apply missing_required_in in Em as [H1 H2]. by apply (ns_inv_args_of_ns _ seen).
Qed.

(** ** Properties *)

(** C18: Printing a configuration as the command line [argv_of a]
    ([--opt=value] for each value set, the bare flag for each flag set)
    and parsing it back with the parser of lines 27-65 gives the same
    configuration: the parse succeeds and the dict the script reads at
    lines 68-81 is [a]. *)
Theorem parse_args_roundtrip a :
  no_dashdash a -> exists ns, parse_args (argv_of a) = inr ns /\ args_of_ns ns = Some a.
Proof.
  intros Hd%assignments_renderable.
  unfold parse_args, argv_of. rewrite classify_toks.
  2: { intros x Hx. exact (proj1 (proj1 (List.Forall_forall _ _) Hd x Hx)). }
  rewrite <-(app_nil_r (flat_map tok_of _)), consume_toks by done.
  destruct (foldl assign (default_ns, []) (assignments a)) as [ns seen] eqn:E.
  simpl. rewrite missing_required_nil.
  2: change seen with (ns, seen).2; rewrite <-E;
     apply (foldl_assign_seen _ _ (long_opt "--s3_object" (AStore TNone) true ANone) (AStr (s3_object a)));
     [unfold assignments; cbn -[opt_str opt_int]; by left | done].
  2: change seen with (ns, seen).2; rewrite <-E;
     apply (foldl_assign_seen _ _ (long_opt "--table_name" (AStore TNone) true ANone) (AStr (table_name a)));
     [unfold assignments; cbn -[opt_str opt_int]; do 7 right; by left | done].
  exists ns. split; [done|]. apply args_of_ns_items. intros k v Hkv.
  destruct (items_assignments a k v Hkv) as (act & Hin & <-).
  change ns with (ns, seen).1. rewrite <-E. apply foldl_assign_in; [apply assignments_nodup|done|].
  intros Ha. by apply (assignments_defaults a).
Qed.

(** C19: argparse's abbreviations are transparent: a token [--p] that
    is a prefix of exactly one option string [o] (and not itself an
    option, and without [=]) parses exactly as [o] would, wherever it
    stands before a [--]. *)
Theorem parse_args_abbrev l1 l2 p o act :
  "--" ∉ l1 -> String.prefix "--" p = true -> has_char "=" p = false -> lookup_opt p = None ->
  prefix_matches p = [(o, act)] ->
  parse_args (l1 ++ p :: l2) = parse_args (l1 ++ o :: l2).
Proof.
  intros Hd Hp He Hl Hf.
  destruct (parse_optional_abbrev p o act Hp He Hl Hf) as [Hpd Hpp].
  assert (Hin : In (o, act) option_map).
  { assert (H : In (o, act) (prefix_matches p))
      by (rewrite Hf; by left).
    unfold prefix_matches in H. by apply filter_In in H as [H _]. }
  destruct (parse_optional_opt o act Hin) as [Hod Hop].
  unfold parse_args. rewrite !classify_app, !classify_cons_eq, Hpp, Hop by done.
  destruct (classify l1) as [e1|t1], (classify l2) as [e2|t2]; simpl; try done.
  rewrite (consume_erase (length (t1 ++ (p, TokO (Some (mk_match act o None))) :: t2))
             _ (t1 ++ (o, TokO (Some (mk_match act o None))) :: t2)); [done|lia|].
  by rewrite !fmap_app.
Qed.

(** C20: An ambiguous abbreviation stops the run with argparse's
    "ambiguous option" error listing every option it could match, before
    any option is acted on: whatever precedes it (even [-h], or a missing
    required option) and whatever follows it. *)
Theorem parse_args_ambiguous l1 l2 p ts1 :
  "--" ∉ l1 -> classify l1 = inr ts1 ->
  String.prefix "--" p = true -> has_char "=" p = false -> lookup_opt p = None -> p <> "--" ->
  2 <= length (prefix_matches p) ->
  parse_args (l1 ++ p :: l2) =
    inl (SystemExit 2 ("ambiguous option: " +:+ p +:+ " could match " +:+
           String.concat ", " (fst <$> prefix_matches p))).
Proof.
  intros Hd H1 Hp He Hl Hdd H2. unfold parse_args.
  rewrite classify_app, classify_cons_eq, (parse_optional_ambiguous p) by done.
  by rewrite H1.
Qed.

(** C21: An option that takes a value, followed by a token argparse reads
    as an option (such as a password starting with [-]), stops the run
    with "expected one argument", even though the script would accept that
    value given as [--opt=value]. *)
Theorem parse_args_expects_value o act ty v l2 ts2 :
  In (o, act) option_map -> act_kind act = AStore ty ->
  reads_as_option v = true -> classify l2 = inr ts2 ->
  parse_args (o :: v :: l2) = inl (SystemExit 2 ("argument " +:+ action_name act +:+ ": expected one argument")).
Proof.
  intros Hin Hk Hv Hl2. destruct (parse_optional_opt o act Hin) as [Hod Hop].
  unfold reads_as_option in Hv. destruct (parse_optional v) as [|[| |m]] eqn:Hpv; try done.
  apply negb_true_iff, bool_decide_eq_false in Hv.
  unfold parse_args. rewrite !classify_cons_eq, Hop, Hpv, Hl2 by done.
  simpl. by rewrite Hk.
Qed.

(** ** Witnesses *)

(** A Glue job's configuration: a secret, a port, a drop, a chunk size and
    one of Glue's own arguments. *)
Definition glue_args : args := {|
  s3_object := "s3://bucket/data.csv"; db_host := None; db_port := Some 3306%Z; db_name := None;
  db_user := None; db_password := None; db_secret_arn := Some "arn:aws:secretsmanager:secret";
  table_name := "tbl"; drop_table := true; delete_rows := false; delete_mode := "delete";
  chunk_size := 5000; ssl_ca_url := default_ssl_ca_url; extra_py_files := None;
  scriptLocation := Some "s3://bucket/script.py"; job_bookmark_option := Some "job-bookmark-disable";
  job_language := Some "python"; connection_names := None |}.

Lemma parse_args_roundtrip_witness :
  no_dashdash glue_args /\
  exists ns, parse_args (argv_of glue_args) = inr ns /\ args_of_ns ns = Some glue_args.
Proof.
  assert (H : no_dashdash glue_args).
  { apply List.Forall_forall. intros kv Hkv. simpl in Hkv.
    repeat (destruct Hkv as [<-|Hkv]; [vm_compute; congruence|]). destruct Hkv. }
  split; [exact H | exact (parse_args_roundtrip glue_args H)].
Defined.

(** [--drop] is [--drop_table]. *)
Lemma parse_args_abbrev_witness :
  parse_args (["--s3_object"; "s3://bucket/data.csv"] ++ "--drop" :: ["--table_name"; "tbl"]) =
  parse_args (["--s3_object"; "s3://bucket/data.csv"] ++ "--drop_table" :: ["--table_name"; "tbl"]).
Proof.
  apply (parse_args_abbrev _ _ _ _ (long_opt "--drop_table" AStoreTrue false (ABool false)));
    [apply (bool_decide_eq_true_1 _); by vm_compute | reflexivity..].
Defined.

(** [-h --delete]: the ambiguity wins over the help. *)
Lemma parse_args_ambiguous_witness :
  parse_args (["-h"] ++ "--delete" :: []) =
    inl (SystemExit 2 ("ambiguous option: " +:+ "--delete" +:+ " could match " +:+
           String.concat ", " (fst <$> prefix_matches "--delete"))).
Proof.
  eapply parse_args_ambiguous;
    [apply (bool_decide_eq_true_1 _); by vm_compute | reflexivity | reflexivity | reflexivity
    | reflexivity | discriminate | vm_compute; lia].
Defined.

(** [--db_password -secret]. *)
Lemma parse_args_expects_value_witness :
  parse_args ("--db_password" :: "-secret" :: ["--s3_object"; "s3://bucket/data.csv"; "--table_name"; "tbl"]) =
    inl (SystemExit 2 ("argument " +:+ action_name (long_opt "--db_password" (AStore TNone) false ANone) +:+
                       ": expected one argument")).
Proof.
  eapply (parse_args_expects_value _ _ TNone);
    [do 7 right; left; reflexivity | reflexivity | reflexivity | reflexivity].
Defined.

End ArgParseProps.
