(* ===== verification/Credentials.v ===== *)
(** * Credential resolution (lines 89-105)

    The connection fields start as the command-line values ([None] when
    absent).  When a secret is given, lines 96-100 fill each field still
    [None] from the decoded JSON secret, and lines 102-105 stop the job when
    user, password, host or database is still [None].  Both steps are pure
    functions here: [fill_from_secret] and [require_creds]; the fetch of the
    secret itself is an effect of [Script].  A JSON document decodes to the
    Python values of [pyval]: [null] is [None], so a secret holding
    ["username": null] leaves the user unset. *)

From S2P Require Import Prelude PyStr Config.
Import PyStr Config.

Local Open Scope string_scope.
Local Open Scope py_scope.

Module Credentials.

(** ** Python values a decoded JSON secret can hold *)

(** A float as [int()] sees it: finite (with its truncation), infinite or
    NaN ([json.loads] accepts [Infinity] and [NaN]). *)
Inductive float_kind := FFinite (trunc : Z) | FInf | FNaN.

(** A float, a list and a dict carry their [str()]; nothing else of them
    is observed by the script. *)
Inductive pyval :=
| PyNone
| PyBool (b : bool)
| PyInt (z : Z)
| PyFloat (repr : string) (f : float_kind)
| PyStr (s : string)
| PyList (repr : string)
| PyDict (repr : string).

(** The result of [json.loads(SecretString)]: an object, i.e. a [dict]
    (with the last value of a duplicated key, as [json.loads] keeps it), or
    any other top-level value. *)
Inductive json_doc :=
| JObject (m : gmap string pyval)
| JValue (v : pyval).

Definition is_none (v : pyval) : bool :=
  match v with PyNone => true | _ => false end.

Definition of_opt_str (o : option string) : pyval :=
  match o with Some s => PyStr s | None => PyNone end.

(** [d[k]]: a missing key raises [KeyError]; subscripting a list or a
    string with a [str], or a scalar at all, raises [TypeError]. *)
Definition py_getitem (d : json_doc) (k : string) : py_exn + pyval :=
  match d with
  | JObject m => match m !! k with Some v => inr v | None => inl (KeyError k) end
  | JValue _ => inl TypeError
  end.

(** [d.get(k, dflt)]: only a [dict] has [get]. *)
Definition py_dict_get (d : json_doc) (k : string) (dflt : pyval) : py_exn + pyval :=
  match d with
  | JObject m => inr (default dflt (m !! k))
  | JValue _ => inl AttributeError
  end.

(** [int(v)] *)
Definition py_int (v : pyval) : py_exn + Z :=
  match v with
  | PyInt z => inr z
  | PyBool b => inr (if b then 1 else 0)%Z
  | PyFloat _ (FFinite z) => inr z
  | PyFloat _ FInf => inl OverflowError
  | PyFloat _ FNaN => inl ValueError
  | PyStr s => match py_int_of_str s with Some z => inr z | None => inl ValueError end
  | PyNone | PyList _ | PyDict _ => inl TypeError
  end.

(** [str(v)], what ["{}".format(v)] inserts. *)
Definition py_str (v : pyval) : string :=
  match v with
  | PyNone => "None"
  | PyBool b => if b then "True" else "False"
  | PyInt z => pretty z
  | PyFloat r _ | PyList r | PyDict r => r
  | PyStr s => s
  end.

(** ** The connection fields *)

(** [DB_USER], [DB_PASSWORD], [DB_HOST], [DB_NAME] and [DB_PORT]. *)
Record creds := mk_creds {
  cr_user : pyval;
  cr_password : pyval;
  cr_host : pyval;
  cr_name : pyval;
  cr_port : option Z
}.

(** Lines 69-73. *)
Definition explicit_creds (a : args) : creds := {|
  cr_user := of_opt_str (db_user a); cr_password := of_opt_str (db_password a);
  cr_host := of_opt_str (db_host a); cr_name := of_opt_str (db_name a);
  cr_port := db_port a |}.

(** [if X is None: X = db_credentials[k]] *)
Definition fill_field (cur : pyval) (d : json_doc) (k : string) : py_exn + pyval :=
  if is_none cur then py_getitem d k else inr cur.

(** Line 100: [if DB_PORT is None: int(db_credentials.get('port', 0))].
    The converted value is not assigned: the statement can only raise. *)
Definition port_check (port : option Z) (d : json_doc) : py_exn + unit :=
  match port with
  | None => let? v := py_dict_get d "port" (PyInt 0) in
            let? _ := py_int v in inr tt
  | Some _ => inr tt
  end.

(** Lines 96-100, in the code's order. *)
Definition fill_from_secret (c : creds) (d : json_doc) : py_exn + creds :=
  let? u := fill_field (cr_user c) d "username" in
  let? p := fill_field (cr_password c) d "password" in
  let? h := fill_field (cr_host c) d "host" in
  let? n := fill_field (cr_name c) d "dbname" in
  let? _ := port_check (cr_port c) d in
  inr {| cr_user := u; cr_password := p; cr_host := h; cr_name := n;
         cr_port := cr_port c |}.

(** ** The required-field check (lines 102-105) *)

(** The messages as Python builds them: the doubled quotes of the source
    are adjacent literals, which Python concatenates, so no quote is left. *)
Definition msg_user : string :=
  "Database username must be specified either in --db_user argument or as username in secrets manager secret.".
Definition msg_password : string :=
  "Database password must be specified either in --db_password argument or as password in secrets manager secret.".
Definition msg_host : string :=
  "Database hostname must be specified either in --db_host argument or as host in secrets manager secret.".
Definition msg_dbname : string :=
  "Database hostname must be specified either in --db_name argument or as dbname in secrets manager secret.".

(** The keyword arguments of [pymysql.connect] (lines 108-114). *)
Record conn_params := mk_conn_params {
  cp_host : pyval;
  cp_user : pyval;
  cp_password : pyval;
  cp_database : pyval;
  cp_port : option Z
}.

Definition require_creds (c : creds) : py_exn + conn_params :=
  if is_none (cr_user c) then inl (SystemExit 2 msg_user)
  else if is_none (cr_password c) then inl (SystemExit 2 msg_password)
  else if is_none (cr_host c) then inl (SystemExit 2 msg_host)
  else if is_none (cr_name c) then inl (SystemExit 2 msg_dbname)
  else inr {| cp_host := cr_host c; cp_user := cr_user c;
              cp_password := cr_password c; cp_database := cr_name c;
              cp_port := cr_port c |}.

(** Lines 89-105 without the fetch: [secret] is the decoded secret when
    [--db_secret_arn] is given. *)
Definition resolve_creds (c : creds) (secret : option json_doc) : py_exn + conn_params :=
  let? c' := match secret with Some d => fill_from_secret c d | None => inr c end in
  require_creds c'.

(** What the contract of the resolver (spec 4.1) asks of one resolved
    field [v], given its explicit value and the decoded secret: it is set,
    it is the explicit value when there is one, and otherwise it is the
    secret's entry for key [k]. *)
Definition field_spec (explicit : pyval) (secret : option json_doc) (k : string)
    (v : pyval) : Prop :=
  is_none v = false /\
  (is_none explicit = false -> v = explicit) /\
  (is_none explicit = true -> exists m, secret = Some (JObject m) /\ m !! k = Some v).

(** A field the secret can supply: set explicitly, or present and not
    [null] in a secret object. *)
Definition field_available (explicit : pyval) (secret : option json_doc) (k : string) : Prop :=
  is_none explicit = false \/
  exists m v, secret = Some (JObject m) /\ m !! k = Some v /\ is_none v = false.

(** ** Lemmas *)

(** What a field holds after [fill_field]: the explicit value when there
    is one, else the secret's entry. *)
Lemma fill_field_inr cur d k v :
  fill_field cur d k = inr v ->
  (is_none cur = false -> v = cur) /\
  (is_none cur = true -> exists m, d = JObject m /\ m !! k = Some v).
Proof.
  unfold fill_field, py_getitem. destruct (is_none cur); split; intros; try done.
  - destruct d as [m|]; [|done]. exists m. split; [done|]. destruct (m !! k); congruence.
  - congruence.
Qed.

Lemma fill_field_set cur d k : is_none cur = false -> fill_field cur d k = inr cur.
Proof. unfold fill_field. by intros ->. Qed.

Lemma fill_from_secret_inv c d c' :
  fill_from_secret c d = inr c' ->
  fill_field (cr_user c) d "username" = inr (cr_user c') /\
  fill_field (cr_password c) d "password" = inr (cr_password c') /\
  fill_field (cr_host c) d "host" = inr (cr_host c') /\
  fill_field (cr_name c) d "dbname" = inr (cr_name c') /\
  port_check (cr_port c) d = inr tt /\ cr_port c' = cr_port c.
Proof.
  unfold fill_from_secret.
  intros (u & Hu & H)%sum_bind_inr. apply sum_bind_inr in H as (p & Hp & H).
  apply sum_bind_inr in H as (h & Hh & H). apply sum_bind_inr in H as (n & Hn & H).
  apply sum_bind_inr in H as ([] & Hport & H). injection H as <-. simpl. done.
Qed.

Lemma require_creds_ok c p :
  require_creds c = inr p ->
  cp_user p = cr_user c /\ cp_password p = cr_password c /\ cp_host p = cr_host c /\
  cp_database p = cr_name c /\ cp_port p = cr_port c /\
  is_none (cr_user c) = false /\ is_none (cr_password c) = false /\
  is_none (cr_host c) = false /\ is_none (cr_name c) = false.
Proof.
  unfold require_creds.
  destruct (is_none (cr_user c)) eqn:?, (is_none (cr_password c)) eqn:?,
    (is_none (cr_host c)) eqn:?, (is_none (cr_name c)) eqn:?; intros; simplify_eq; done.
Qed.

(** A resolved field satisfies [field_spec]. *)
Lemma field_spec_of_fill cur d k v :
  fill_field cur d k = inr v -> is_none v = false -> field_spec cur (Some d) k v.
Proof.
  intros Hf Hv. apply fill_field_inr in Hf as [H1 H2].
  split; [done|]. split; [done|]. intros Hn. destruct (H2 Hn) as (m & -> & Hm). eauto.
Qed.

Lemma field_spec_explicit cur k : is_none cur = false -> field_spec cur None k cur.
Proof. intros Hn. split; [done|]. split; [done|]. congruence. Qed.

Lemma fill_field_available cur d k :
  field_available cur (Some d) k -> exists v, fill_field cur d k = inr v /\ is_none v = false.
Proof.
  unfold fill_field. intros [Hn | (m & v & [= ->] & Hm & Hv)].
  - rewrite Hn. eauto.
  - destruct (is_none cur) eqn:E; simpl; [rewrite Hm|]; eauto.
Qed.

(** ** Properties of the resolver *)

(** C6: After a successful resolution, user, password, host and database
    are all set; each is the explicit value when one was given and
    otherwise the secret's entry; and the port is the explicit port (the
    secret's port is never used, see line 100). *)
Theorem resolve_creds_correct c secret p :
  resolve_creds c secret = inr p ->
  field_spec (cr_user c) secret "username" (cp_user p) /\
  field_spec (cr_password c) secret "password" (cp_password p) /\
  field_spec (cr_host c) secret "host" (cp_host p) /\
  field_spec (cr_name c) secret "dbname" (cp_database p) /\
  cp_port p = cr_port c.
Proof.
  unfold resolve_creds. intros (c' & Hc' & Hp)%sum_bind_inr.
  apply require_creds_ok in Hp as (-> & -> & -> & -> & -> & Hu & Hpw & Hh & Hn).
  destruct secret as [d|].
  - apply fill_from_secret_inv in Hc' as (Fu & Fp & Fh & Fn & _ & ->).
    refine (conj _ (conj _ (conj _ (conj _ _)))); [by apply field_spec_of_fill..|done].
  - injection Hc' as <-.
    refine (conj _ (conj _ (conj _ (conj _ _)))); [by apply field_spec_explicit..|done].
Qed.

(** C7: Conversely, resolution succeeds when every required field is
    available and the port check of line 100 passes. *)
Theorem resolve_creds_complete c secret :
  field_available (cr_user c) secret "username" ->
  field_available (cr_password c) secret "password" ->
  field_available (cr_host c) secret "host" ->
  field_available (cr_name c) secret "dbname" ->
  (forall d, secret = Some d -> port_check (cr_port c) d = inr tt) ->
  exists p, resolve_creds c secret = inr p.
Proof.
  intros Au Ap Ah An Hport. unfold resolve_creds, require_creds.
  destruct secret as [d|].
  - apply fill_field_available in Au as (u & Hu & Nu), Ap as (pw & Hpw & Npw),
      Ah as (h & Hh & Nh), An as (n & Hn & Nn).
    unfold fill_from_secret. rewrite Hu, Hpw, Hh, Hn; simpl. rewrite Hport by done.
    simpl. rewrite Nu, Npw, Nh, Nn. eauto.
  - destruct Au as [Nu|(? & ? & ? & _)]; [|done]. destruct Ap as [Np|(? & ? & ? & _)]; [|done].
    destruct Ah as [Nh|(? & ? & ? & _)]; [|done]. destruct An as [Nn|(? & ? & ? & _)]; [|done].
    simpl. rewrite Nu, Np, Nh, Nn. eauto.
Qed.

(** C11: Line 100 converts the secret's port and throws the result away,
    yet the conversion still raises: with no [--db_port], a secret whose
    ["port"] is a string [int()] rejects stops the job with [ValueError],
    even when every other field was given on the command line. *)
Theorem fill_from_secret_port_raises c m s :
  cr_port c = None -> m !! "port" = Some (PyStr s) -> py_int_of_str s = None ->
  is_none (cr_user c) = false -> is_none (cr_password c) = false ->
  is_none (cr_host c) = false -> is_none (cr_name c) = false ->
  fill_from_secret c (JObject m) = inl ValueError.
Proof.
  intros Hp Hm Hs Hu Hpw Hh Hn. unfold fill_from_secret.
  rewrite !fill_field_set by done. simpl.
  unfold port_check. rewrite Hp. simpl. rewrite Hm. simpl. by rewrite Hs.
Qed.

(** ** Witnesses *)

(** The examples of spec 8: explicit user ["a"] against the secret's
    ["b"]; no explicit host, the secret's ["h"]. *)
Definition example_secret : json_doc :=
  JObject (<["username" := PyStr "b"]> (<["password" := PyStr "pw"]>
          (<["host" := PyStr "h"]> (<["dbname" := PyStr "db"]> (<["port" := PyStr "3306"]> ∅))))).

Definition example_creds : creds :=
  {| cr_user := PyStr "a"; cr_password := PyNone; cr_host := PyNone; cr_name := PyNone;
     cr_port := None |}.

Lemma resolve_creds_correct_witness :
  resolve_creds example_creds (Some example_secret) =
    inr {| cp_host := PyStr "h"; cp_user := PyStr "a"; cp_password := PyStr "pw";
           cp_database := PyStr "db"; cp_port := None |} /\
  field_spec (PyStr "a") (Some example_secret) "username" (PyStr "a") /\
  field_spec PyNone (Some example_secret) "host" (PyStr "h").
Proof.
  assert (H : resolve_creds example_creds (Some example_secret) =
    inr {| cp_host := PyStr "h"; cp_user := PyStr "a"; cp_password := PyStr "pw";
           cp_database := PyStr "db"; cp_port := None |}) by reflexivity.
  split; [exact H|].
  destruct (resolve_creds_correct _ _ _ H) as (Hu & _ & Hh & _). split; [exact Hu|exact Hh].
Defined.

Lemma resolve_creds_complete_witness :
  exists p, resolve_creds example_creds (Some example_secret) = inr p.
Proof.
  apply resolve_creds_complete.
  - left. reflexivity.
  - right. do 2 eexists. split_and!; reflexivity.
  - right. do 2 eexists. split_and!; reflexivity.
  - right. do 2 eexists. split_and!; reflexivity.
  - intros d [= <-]. reflexivity.
Defined.

Lemma fill_from_secret_port_raises_witness :
  fill_from_secret
    {| cr_user := PyStr "u"; cr_password := PyStr "p"; cr_host := PyStr "h";
       cr_name := PyStr "db"; cr_port := None |}
    (JObject (<["port" := PyStr "default"]> ∅)) = inl ValueError.
Proof. apply (fill_from_secret_port_raises _ _ "default"); reflexivity. Defined.

End Credentials.
