(* ===== verification/Database.v ===== *)
(** * The database as the script sees it

    The script talks to MySQL through one pymysql connection: it sends the
    five statements of [stmt] with [cursor.execute] or
    [wr.mysql.read_sql_query], formatting the names into the SQL text with
    [str.format] (lines 124, 133, 139, 143, 165), and it appends DataFrames
    with [wr.mysql.to_sql] (lines 153-161).  [render] is that formatting.

    [MySQL] is the interface the server, pymysql and awswrangler offer the
    script, as operations on the state of its session, and [MySQLLaws]
    what they promise: the statements do what their SQL says on a name
    that parses, an append adds a whole chunk and leaves other tables
    alone; the connection is not in autocommit mode, so changes stay
    pending until [con.commit()], DDL ([DROP], [TRUNCATE]) commits by
    itself, and [con.rollback()] returns to the last durable state.  The
    script's theorems are proved against these laws only.  [MemDB] is an
    implementation on [gmap] (durable tables and the session's view) that
    discharges them, used to run the script on concrete inputs. *)

From S2P Require Import Prelude.

Local Open Scope string_scope.

Module Database.

(** ** The statements and their text *)

Inductive stmt :=
| SelectExists (db t : string)
| DropIfExists (db t : string)
| Truncate (db t : string)
| DeleteFrom (db t : string)
| SelectCount (db t : string).

#[export] Instance stmt_eq_dec : EqDecision stmt.
Proof. solve_decision. Defined.

(** The SQL text, as the script's format strings build it. *)
Definition render (q : stmt) : string :=
  match q with
  | SelectExists db t =>
      "SELECT 1 as exist FROM INFORMATION_SCHEMA.TABLES WHERE TABLE_SCHEMA = '" +:+ db
      +:+ "' AND TABLE_NAME='" +:+ t +:+ "'"
  | DropIfExists db t => "DROP TABLE IF EXISTS " +:+ db +:+ "." +:+ t
  | Truncate db t => "TRUNCATE TABLE " +:+ db +:+ "." +:+ t
  | DeleteFrom db t => "DELETE FROM " +:+ db +:+ "." +:+ t
  | SelectCount db t => "SELECT count(*) as count FROM " +:+ db +:+ "." +:+ t
  end.

(** The statements after which MySQL commits by itself: [DROP TABLE] and
    [TRUNCATE TABLE] are DDL and cause an implicit commit; [DELETE] and the
    [SELECT]s run inside the open transaction. *)
Definition implicit_commit (q : stmt) : bool :=
  match q with DropIfExists _ _ | Truncate _ _ => true | _ => false end.

(** ** Names as MySQL parses them *)

(** A character of an unquoted MySQL identifier (ASCII part): a letter, a
    digit, [$] or [_]. *)
Definition ident_char (c : ascii) : bool :=
  let n := nat_of_ascii c in
  ((48 <=? n) && (n <=? 57) || (65 <=? n) && (n <=? 90) || (97 <=? n) && (n <=? 122)
   || (n =? 36) || (n =? 95))%nat.

Definition digit_char (c : ascii) : bool :=
  let n := nat_of_ascii c in ((48 <=? n) && (n <=? 57))%nat.

(** A name the unquoted [db.table] of lines 133-165 parses as one
    identifier: not empty, identifier characters only, not all digits.
    (Reserved words are not excluded by this model.) *)
Definition ident_ok (s : string) : bool :=
  negb (bool_decide (s = "")) && str_forallb ident_char s
  && negb (str_forallb digit_char s).

(** A name that stays one string literal inside the quotes of line 124. *)
Definition literal_ok (s : string) : bool :=
  str_forallb (fun c => negb (Ascii.eqb c "'") && negb (Ascii.eqb c "\")) s.

(** A name awswrangler can quote with backticks. *)
Definition backtick_ok (s : string) : bool :=
  str_forallb (fun c => negb (Ascii.eqb c "`")) s.

(** ** DataFrames *)

(** A cell after [convert_dtypes]: missing ([pd.NA]), or a value of one of
    the nullable dtypes. *)
Inductive value := VNull | VInt (z : Z) | VFloat (repr : string) | VBool (b : bool) | VStr (s : string).

Record frame := mk_frame {
  fr_columns : list string;
  fr_rows : list (list value)
}.

(** ** The interface *)

Class MySQL (D : Type) := {
  (** [cursor.execute(sql)] followed by reading the result rows, each an
      integer, as [fetchone] or [read_sql_query] would. *)
  sql_exec : D -> stmt -> py_exn + (list Z * D);
  (** [wr.mysql.to_sql(df, table, schema=db, mode="append", index=False)]
      for a non-empty [df]. *)
  sql_append : D -> string -> string -> frame -> py_exn + D;
  (** [con.commit()] and [con.rollback()]: the connection is opened with
      pymysql's default [autocommit=False], so changes are pending in the
      session until a commit. *)
  sql_commit : D -> D;
  sql_rollback : D -> D;
  (** Observations: whether a table exists and how many rows it has. *)
  db_has_table : D -> string -> string -> bool;
  db_row_count : D -> string -> string -> nat
}.

Section Laws.
Context {D : Type} `{!MySQL D}.

  (** Every table other than [db.t] is as it was. *)
Definition others_unchanged (s s' : D) (db t : string) : Prop :=
    forall db' t', (db', t') <> (db, t) ->
      db_has_table s' db' t' = db_has_table s db' t' /\
      db_row_count s' db' t' = db_row_count s db' t'.

  (** The rows a table holds before an append: none when it is created. *)
Definition rows_before (s : D) (db t : string) : nat :=
    if db_has_table s db t then db_row_count s db t else 0.
End Laws.

Class MySQLLaws (D : Type) `{!MySQL D} := {
  law_select_exists s db t :
    literal_ok db = true -> literal_ok t = true ->
    sql_exec s (SelectExists db t) = inr (if db_has_table s db t then [1%Z] else [], s);
  law_drop s db t :
    ident_ok db = true -> ident_ok t = true ->
    exists s', sql_exec s (DropIfExists db t) = inr ([], s') /\
      db_has_table s' db t = false /\ others_unchanged s s' db t;
  law_truncate s db t :
    ident_ok db = true -> ident_ok t = true -> db_has_table s db t = true ->
    exists s', sql_exec s (Truncate db t) = inr ([], s') /\
      db_has_table s' db t = true /\ db_row_count s' db t = 0 /\ others_unchanged s s' db t;
  law_delete s db t :
    ident_ok db = true -> ident_ok t = true -> db_has_table s db t = true ->
    exists s', sql_exec s (DeleteFrom db t) = inr ([], s') /\
      db_has_table s' db t = true /\ db_row_count s' db t = 0 /\ others_unchanged s s' db t;
  law_count s db t :
    ident_ok db = true -> ident_ok t = true -> db_has_table s db t = true ->
    sql_exec s (SelectCount db t) = inr ([Z.of_nat (db_row_count s db t)], s);
  law_count_missing s db t :
    db_has_table s db t = false -> exists e, sql_exec s (SelectCount db t) = inl e;
  law_append s db t f s' :
    sql_append s db t f = inr s' ->
    db_has_table s' db t = true /\
    db_row_count s' db t = rows_before s db t + length (fr_rows f) /\
    others_unchanged s s' db t;
  (** A commit makes the session's view durable and does not change it. *)
  law_commit_view s db t :
    db_has_table (sql_commit s) db t = db_has_table s db t /\
    db_row_count (sql_commit s) db t = db_row_count s db t;
  law_commit_durable s : sql_rollback (sql_commit s) = sql_commit s;
  (** A rollback returns to the last durable state. *)
  law_rollback_idem s : sql_rollback (sql_rollback s) = sql_rollback s;
  (** DDL commits; any other statement leaves the durable state alone. *)
  law_exec_commit s q rows s' :
    sql_exec s q = inr (rows, s') -> implicit_commit q = true -> sql_rollback s' = s';
  law_exec_pending s q rows s' :
    sql_exec s q = inr (rows, s') -> implicit_commit q = false -> sql_rollback s' = sql_rollback s
}.

Section LawLemmas.
Context {D : Type} `{!MySQL D} `{!MySQLLaws D}.

Lemma rows_before_commit s db t : rows_before (sql_commit s) db t = rows_before s db t.
Proof. unfold rows_before. by destruct (law_commit_view s db t) as [-> ->]. Qed.

End LawLemmas.

(** ** An in-memory implementation *)

Module MemDB.

  (** A table: its columns, its rows, and its AUTO_INCREMENT counter
      ([TRUNCATE] resets it, [DELETE] does not). *)
Record table := mk_table {
    tb_columns : list string;
    tb_rows : list (list value);
    tb_auto_inc : nat
  }.

Abbreviation tables := (gmap (string * string) table).

  (** The server as the script's session sees it: the durable tables, and
      the session's view of them, which also holds the work it has not
      committed. *)
Record memdb := mk_memdb { md_committed : tables; md_current : tables }.

  (** A fresh session on the durable tables [m]. *)
Definition mem_init (m : tables) : memdb := mk_memdb m m.

#[export] Instance memdb_empty : Empty memdb := mem_init ∅.

  (** The session's tables after statement [q]; DDL commits them. *)
Definition mem_set (s : memdb) (q : stmt) (m : tables) : memdb :=
    if implicit_commit q then mk_memdb m m else mk_memdb (md_committed s) m.

Definition mem_exec (s : memdb) (q : stmt) : py_exn + (list Z * memdb) :=
    let m := md_current s in
    match q with
    | SelectExists db t =>
        if literal_ok db && literal_ok t
        then inr (if bool_decide (is_Some (m !! (db, t))) then [1%Z] else [], s)
        else inl (ProgrammingError (render q))
    | DropIfExists db t =>
        if ident_ok db && ident_ok t then inr ([], mem_set s q (delete (db, t) m))
        else inl (ProgrammingError (render q))
    | Truncate db t =>
        match (if ident_ok db && ident_ok t then m !! (db, t) else None) with
        | Some tb => inr ([], mem_set s q (<[(db, t) := mk_table (tb_columns tb) [] 1]> m))
        | None => inl (ProgrammingError (render q))
        end
    | DeleteFrom db t =>
        match (if ident_ok db && ident_ok t then m !! (db, t) else None) with
        | Some tb => inr ([], mem_set s q (<[(db, t) := mk_table (tb_columns tb) [] (tb_auto_inc tb)]> m))
        | None => inl (ProgrammingError (render q))
        end
    | SelectCount db t =>
        match (if ident_ok db && ident_ok t then m !! (db, t) else None) with
        | Some tb => inr ([Z.of_nat (length (tb_rows tb))], s)
        | None => inl (ProgrammingError (render q))
        end
    end.

  (** awswrangler's [_create_table] then [INSERT]: a missing table is
      created with the frame's columns by [CREATE TABLE IF NOT EXISTS],
      which is DDL and commits; an existing one gets a positional [INSERT]
      of every row, pending until the commit, and the frame must have as
      many columns as the table. *)
Definition mem_append (s : memdb) (db t : string) (f : frame) : py_exn + memdb :=
    let m := md_current s in
    if backtick_ok db && backtick_ok t then
      match m !! (db, t) with
      | None =>
          inr (mk_memdb (<[(db, t) := mk_table (fr_columns f) [] 1]> m)
                        (<[(db, t) := mk_table (fr_columns f) (fr_rows f) 1]> m))
      | Some tb =>
          if bool_decide (length (fr_columns f) = length (tb_columns tb))
          then inr (mk_memdb (md_committed s)
                     (<[(db, t) := mk_table (tb_columns tb) (tb_rows tb ++ fr_rows f) (tb_auto_inc tb)]> m))
          else inl (ProgrammingError "INSERT")
      end
    else inl (ProgrammingError "CREATE TABLE").

Definition mem_commit (s : memdb) : memdb := mk_memdb (md_current s) (md_current s).
Definition mem_rollback (s : memdb) : memdb := mk_memdb (md_committed s) (md_committed s).

Definition mem_has (s : memdb) (db t : string) : bool := bool_decide (is_Some (md_current s !! (db, t))).
Definition mem_count (s : memdb) (db t : string) : nat :=
    match md_current s !! (db, t) with Some tb => length (tb_rows tb) | None => 0 end.

#[export] Instance mem_mysql : MySQL memdb := {|
    sql_exec := mem_exec; sql_append := mem_append;
    sql_commit := mem_commit; sql_rollback := mem_rollback;
    db_has_table := mem_has; db_row_count := mem_count |}.

Lemma mem_others_insert (s s' : memdb) db t tb :
    md_current s' = <[(db, t) := tb]> (md_current s) -> others_unchanged s s' db t.
Proof.
    intros Hs db' t' Hne. cbn. unfold mem_has, mem_count. rewrite Hs.
    rewrite lookup_insert_ne by congruence. done.
Qed.

Lemma mem_others_delete (s s' : memdb) db t :
    md_current s' = delete (db, t) (md_current s) -> others_unchanged s s' db t.
Proof.
    intros Hs db' t' Hne. cbn. unfold mem_has, mem_count. rewrite Hs.
    rewrite lookup_delete_ne by congruence. done.
Qed.

(** A name that parses unquoted has no backtick, so awswrangler can quote it. *)
Lemma ident_ok_backtick s : ident_ok s = true -> backtick_ok s = true.
Proof.
  unfold ident_ok, backtick_ok. intros ((_ & H)%andb_prop & _)%andb_prop.
  revert H. apply str_forallb_impl. by intros [[] [] [] [] [] [] [] []].
Qed.

  (** Emptying a table leaves it present and empty, and others alone. *)
Lemma mem_clear_ok s q db t cols n :
    mem_has (mem_set s q (<[(db, t) := mk_table cols [] n]> (md_current s))) db t = true /\
    mem_count (mem_set s q (<[(db, t) := mk_table cols [] n]> (md_current s))) db t = 0 /\
    others_unchanged s (mem_set s q (<[(db, t) := mk_table cols [] n]> (md_current s))) db t.
Proof.
    unfold mem_has, mem_count, mem_set.
    destruct (implicit_commit q); cbn; rewrite lookup_insert_eq;
      (split_and!; [done|done|by eapply mem_others_insert]).
Qed.

Ltac mem_exists :=
    repeat match goal with
    | H : ident_ok _ = true |- _ => rewrite H; clear H
    | H : mem_has _ _ _ = true |- _ =>
        unfold mem_has in H; apply bool_decide_eq_true in H as [? H]
    end; cbn -[mem_set]; match goal with H : _ !! _ = Some _ |- _ => rewrite H end.

#[export] Instance mem_mysql_laws : MySQLLaws memdb.
Proof.
    split; cbn -[mem_set].
    - intros s db t H1 H2. by rewrite H1, H2.
    - intros s db t H1 H2. rewrite H1, H2. eexists; split_and!; [done| |].
      + unfold mem_has. cbn. by rewrite lookup_delete_eq.
      + by apply mem_others_delete.
    - intros s db t H1 H2 H3. mem_exists. eexists; split; [reflexivity|]. by apply mem_clear_ok.
    - intros s db t H1 H2 H3. mem_exists. eexists; split; [reflexivity|]. by apply mem_clear_ok.
    - intros s db t H1 H2 H3. mem_exists. unfold mem_count. by rewrite H3.
    - intros s db t H. unfold mem_has in H. apply bool_decide_eq_false in H.
      destruct (md_current s !! (db, t)) eqn:E; [by destruct H|].
      destruct (ident_ok db && ident_ok t); eauto.
    - intros s db t f s' H. unfold mem_append in H.
      destruct (backtick_ok db && backtick_ok t); [|done].
      unfold rows_before; cbn; unfold mem_has, mem_count.
      destruct (md_current s !! (db, t)) as [tb|] eqn:E.
      + case_bool_decide; [|done]. injection H as <-. cbn.
        rewrite lookup_insert_eq. simpl. rewrite length_app.
        split_and!; [done|done|by eapply mem_others_insert].
      + injection H as <-. cbn. rewrite lookup_insert_eq.
        split_and!; [done|done|by eapply mem_others_insert].
    - done.
    - done.
    - done.
    - intros s [] rows s' Hx Hq; try discriminate Hq; revert Hx; cbn; repeat case_match;
        intros; simplify_eq; done.
    - intros s [] rows s' Hx Hq; try discriminate Hq; revert Hx; cbn; repeat case_match;
        intros; simplify_eq; done.
Qed.

End MemDB.

End Database.
