(* ===== verification/World.v ===== *)
(** * The world the script acts on, and its primitive effects

    The stateful part of the script runs in [PyM (world D)]: the world is
    the database state [D] of some [MySQL] implementation and the trace of
    the observable events the script has caused, in order (log lines,
    downloads, secret fetches, connections, SQL statements, appends).  The
    primitives here are the library calls the script makes: [log.info] and
    [log.error], [cursor.execute] ([execute]) and [wr.mysql.to_sql]
    ([to_sql], which raises [EmptyDataFrame] on an empty frame before
    touching the database, and otherwise commits the append, or rolls the
    session back and re-raises, as awswrangler does).  The connection is
    not in autocommit mode: what a run leaves in the database once its
    connection is closed is the session rolled back to its last commit,
    [durable]. *)

From S2P Require Import Prelude Config Credentials Database.
Import Config Credentials Database.

Local Open Scope py_scope.

Module World.

Inductive level := INFO | ERROR.

Inductive event :=
| EvLog (lvl : level) (msg : string)
| EvLogArgs (items : list (string * argval))
| EvFetch (url path : string)
| EvGetSecret (arn : string)
| EvConnect (p : conn_params)
| EvSql (q : stmt)
| EvAppend (db t : string) (rows : nat)
| EvClose.

Record world (D : Type) := mk_world {
  w_db : D;
  w_trace : list event
}.
Arguments mk_world {D} _ _.
Arguments w_db {D} _.
Arguments w_trace {D} _.

(** The SQL statements of a trace, in order. *)
Fixpoint sql_of (tr : list event) : list stmt :=
  match tr with
  | [] => []
  | EvSql q :: tr' => q :: sql_of tr'
  | _ :: tr' => sql_of tr'
  end.

(** The events that act on the database: a statement or an append. *)
Definition touches_db (ev : event) : bool :=
  match ev with EvSql _ | EvAppend _ _ _ => true | _ => false end.

Definition db_free (tr : list event) : bool := forallb (fun ev => negb (touches_db ev)) tr.

Definition is_append (ev : event) : bool := match ev with EvAppend _ _ _ => true | _ => false end.

(** The trace of [w'] extends that of [w]. *)
Definition trace_ext {D} (w w' : world D) : Prop := exists tr', w_trace w' = w_trace w ++ tr'.

#[export] Instance trace_ext_preorder {D} : PreOrder (@trace_ext D).
Proof.
  split.
  - intros w. exists []. by rewrite app_nil_r.
  - intros w1 w2 w3 [t1 H1] [t2 H2]. exists (t1 ++ t2). by rewrite H2, H1, app_assoc.
Qed.

(** The trace of [w'] extends that of [w] by events that append no rows. *)
Definition no_append_ext {D} (w w' : world D) : Prop :=
  exists tr', w_trace w' = w_trace w ++ tr' /\ forallb (fun ev => negb (is_append ev)) tr' = true.

#[export] Instance no_append_ext_preorder {D} : PreOrder (@no_append_ext D).
Proof.
  split.
  - intros w. exists []. by rewrite app_nil_r.
  - intros w1 w2 w3 [t1 [H1 F1]] [t2 [H2 F2]]. exists (t1 ++ t2).
    by rewrite H2, H1, app_assoc, forallb_app, F1, F2.
Qed.

(** The keyword parameters of awswrangler's [wr.mysql.to_sql(df, con,
    table, schema, mode, index, dtype, varchar_lengths, use_column_names,
    chunksize)]; it takes no [**kwargs]. *)
Definition to_sql_params : list string :=
  ["df"; "con"; "table"; "schema"; "mode"; "index"; "dtype"; "varchar_lengths";
   "use_column_names"; "chunksize"].

Section Effects.
Context {D : Type} `{!MySQL D}.

Definition emit (ev : event) : PyM (world D) unit :=
    py_modify (fun w => mk_world (w_db w) (w_trace w ++ [ev])).

Definition log_info (msg : string) : PyM (world D) unit := emit (EvLog INFO msg).
Definition log_error (msg : string) : PyM (world D) unit := emit (EvLog ERROR msg).

Definition set_db (d : D) : PyM (world D) unit :=
    py_modify (fun w => mk_world d (w_trace w)).

  (** [cursor.execute(render q)] and the rows it returns. *)
Definition execute (q : stmt) : PyM (world D) (list Z) :=
    emit (EvSql q) ;;;
    w <- py_get ;;
    match sql_exec (w_db w) q with
    | inl e => py_raise e
    | inr (rows, d) => set_db d ;;; py_ret rows
    end.

  (** [wr.mysql.to_sql(df=f, table=t, schema=db, mode="append", ...)]:
      an empty frame is refused first; then [try: create, insert;
      con.commit() except: con.rollback(); raise]. *)
Definition to_sql (db t : string) (f : frame) : PyM (world D) unit :=
    match fr_rows f with
    | [] => py_raise EmptyDataFrame
    | _ =>
        emit (EvAppend db t (length (fr_rows f))) ;;;
        w <- py_get ;;
        match sql_append (w_db w) db t f with
        | inl e => set_db (sql_rollback (w_db w)) ;;; py_raise e
        | inr d => set_db (sql_commit d)
        end
    end.

  (** A call [wr.mysql.to_sql(...)] with the keyword arguments [kws]:
      Python binds the arguments before the body runs, and a keyword the
      function does not take raises [TypeError] there. *)
Definition call_to_sql (kws : list string) (db t : string) (f : frame) : PyM (world D) unit :=
    if forallb (fun k => bool_decide (k ∈ to_sql_params)) kws then to_sql db t f
    else py_raise TypeError.

  (** What other sessions see once the connection is closed: MySQL rolls
      back the work not committed. *)
Definition durable (w : world D) : D := sql_rollback (w_db w).

  (** A computation that never touches the database: it only appends to
      the trace, and sends no statement and no append. *)
Definition keeps_db {A} (m : PyM (world D) A) : Prop :=
    forall d tr, exists r tr', m (mk_world d tr) = (r, mk_world d (tr ++ tr')) /\ db_free tr' = true.

  (** ** Lemmas *)

Lemma sql_of_app tr1 tr2 : sql_of (tr1 ++ tr2) = sql_of tr1 ++ sql_of tr2.
Proof. induction tr1 as [|[] tr1 IH]; simpl; by rewrite ?IH. Qed.

Lemma db_free_app tr1 tr2 : db_free (tr1 ++ tr2) = db_free tr1 && db_free tr2.
Proof. apply forallb_app. Qed.

Lemma keeps_ret {A} (a : A) : keeps_db (py_ret a).
Proof. intros d tr. exists (inr a), []. by rewrite app_nil_r. Qed.

Lemma keeps_raise {A} e : keeps_db (A:=A) (py_raise e).
Proof. intros d tr. exists (inl e), []. by rewrite app_nil_r. Qed.

Lemma keeps_lift {A} (r : py_exn + A) : keeps_db (py_lift r).
Proof. intros d tr. exists r, []. by rewrite app_nil_r. Qed.

Lemma keeps_emit ev : touches_db ev = false -> keeps_db (emit ev).
Proof. intros Hev d tr. exists (inr tt), [ev]. simpl. by rewrite Hev. Qed.

Lemma keeps_log_info msg : keeps_db (log_info msg).
Proof. by apply keeps_emit. Qed.

Lemma keeps_log_error msg : keeps_db (log_error msg).
Proof. by apply keeps_emit. Qed.

Lemma keeps_bind {A B} (m : PyM (world D) A) (k : A -> PyM (world D) B) :
    keeps_db m -> (forall a, keeps_db (k a)) -> keeps_db (py_bind m k).
Proof.
    intros Hm Hk d tr. destruct (Hm d tr) as ([e|a] & tr1 & H1 & S1); unfold py_bind; rewrite H1.
    - by exists (inl e), tr1.
    - destruct (Hk a d (tr ++ tr1)) as (r & tr2 & H2 & S2). rewrite H2.
      exists r, (tr1 ++ tr2). by rewrite app_assoc, db_free_app, S1, S2.
Qed.

Lemma keeps_try {A} (m : PyM (world D) A) h :
    keeps_db m -> (forall e, keeps_db (h e)) -> keeps_db (py_try m h).
Proof.
    intros Hm Hh d tr. destruct (Hm d tr) as ([e|a] & tr1 & H1 & S1); unfold py_try; rewrite H1.
    - destruct (Hh e d (tr ++ tr1)) as (r & tr2 & H2 & S2). rewrite H2.
      exists r, (tr1 ++ tr2). by rewrite app_assoc, db_free_app, S1, S2.
    - by exists (inr a), tr1.
Qed.

  (** Every effect only appends to the trace. *)
Lemma appends_emit ev : py_mono trace_ext (emit ev).
Proof. intros w. by exists [ev]. Qed.

Lemma appends_set_db d : py_mono trace_ext (set_db d).
Proof. intros w. exists []. simpl. by rewrite app_nil_r. Qed.

Lemma appends_log_info msg : py_mono trace_ext (log_info msg).
Proof. apply appends_emit. Qed.

Lemma appends_execute q : py_mono trace_ext (execute q).
Proof.
    unfold execute. apply py_mono_bind; [apply _|apply appends_emit|intros _].
    apply py_mono_bind; [apply _|apply py_mono_get; apply _|intros w].
    destruct (sql_exec (w_db w) q) as [e|[rows d]]; eauto using appends_set_db with mono typeclass_instances.
Qed.

Lemma appends_to_sql db t f : py_mono trace_ext (to_sql db t f).
Proof.
    unfold to_sql. destruct (fr_rows f); [apply py_mono_raise; apply _|].
    apply py_mono_bind; [apply _|apply appends_emit|intros _].
    apply py_mono_bind; [apply _|apply py_mono_get; apply _|intros w].
    destruct (sql_append (w_db w) db t f); eauto using appends_set_db with mono typeclass_instances.
Qed.

Lemma keeps_appends {A} (m : PyM (world D) A) : keeps_db m -> py_mono trace_ext m.
Proof.
    intros Hm [d tr]. destruct (Hm d tr) as (r & tr' & H & _). rewrite H. by exists tr'.
Qed.

  (** The effects that append no rows. *)
Lemma noapp_emit ev : is_append ev = false -> py_mono no_append_ext (emit ev).
Proof. intros Hev w. exists [ev]. simpl. by rewrite Hev. Qed.

Lemma noapp_set_db d : py_mono no_append_ext (set_db d).
Proof. intros w. exists []. simpl. by rewrite app_nil_r. Qed.

Lemma noapp_log_info msg : py_mono no_append_ext (log_info msg).
Proof. by apply noapp_emit. Qed.

Lemma noapp_execute q : py_mono no_append_ext (execute q).
Proof.
    unfold execute. apply py_mono_bind; [apply _|by apply noapp_emit|intros _].
    apply py_mono_bind; [apply _|apply py_mono_get; apply _|intros w].
    destruct (sql_exec (w_db w) q) as [e|[rows d]]; eauto using noapp_set_db with mono typeclass_instances.
Qed.

Lemma keeps_noapp {A} (m : PyM (world D) A) : keeps_db m -> py_mono no_append_ext m.
Proof.
    intros Hm [d tr]. destruct (Hm d tr) as (r & tr' & H & Hf). rewrite H. exists tr'.
    split; [done|]. clear H. induction tr' as [|ev tr' IH]; [done|].
    unfold db_free in Hf, IH. simpl in Hf |- *. apply andb_prop in Hf as [Hev Hf].
    rewrite (IH Hf). by destruct ev.
Qed.

  (** A call with a keyword [to_sql] does not take raises at once. *)
Lemma call_to_sql_rejected kws db t f w :
    forallb (fun k => bool_decide (k ∈ to_sql_params)) kws = false ->
    call_to_sql kws db t f w = (inl TypeError, w).
Proof. intros Hk. unfold call_to_sql. by rewrite Hk. Qed.

Lemma emit_run ev d tr :
    emit ev (mk_world d tr) = (inr tt, mk_world d (tr ++ [ev])).
Proof. reflexivity. Qed.

Lemma execute_ok q d tr rows d' :
    sql_exec d q = inr (rows, d') ->
    execute q (mk_world d tr) = (inr rows, mk_world d' (tr ++ [EvSql q])).
Proof. intros H. unfold execute. cbn. by rewrite H. Qed.

Lemma execute_err q d tr e :
    sql_exec d q = inl e ->
    execute q (mk_world d tr) = (inl e, mk_world d (tr ++ [EvSql q])).
Proof. intros H. unfold execute. cbn. by rewrite H. Qed.

Lemma to_sql_ok db t f d tr d' :
    fr_rows f <> [] -> sql_append d db t f = inr d' ->
    to_sql db t f (mk_world d tr) =
      (inr tt, mk_world (sql_commit d') (tr ++ [EvAppend db t (length (fr_rows f))])).
Proof.
    intros Hne H. unfold to_sql. destruct (fr_rows f) eqn:E; [done|].
    cbn. by rewrite H.
Qed.
End Effects.

(** Prove that a computation only appends to the trace, by its structure. *)
Ltac appends_solve :=
  repeat match goal with
  | |- py_mono _ (py_bind _ _) => apply py_mono_bind; [apply _| |intros ?]
  | |- py_mono _ (py_try _ _) => apply py_mono_try; [apply _| |intros ?]
  | |- py_mono _ (match ?x with _ => _ end) => destruct x
  | |- py_mono _ (if ?x then _ else _) => destruct x
  | |- _ => solve [eauto with mono typeclass_instances]
  end.

Create HintDb keeps discriminated.
#[export] Hint Resolve keeps_ret keeps_raise keeps_lift keeps_emit keeps_log_info
  keeps_log_error keeps_bind keeps_try : keeps.
#[export] Hint Resolve appends_emit appends_set_db appends_log_info appends_execute appends_to_sql : mono.
#[export] Hint Resolve noapp_emit noapp_set_db noapp_log_info noapp_execute : mono.

End World.
