(* ===== verification/Logging.v ===== *)
(** * The logging setup (lines 15-23) and what a log call prints

    Lines 15-23 configure Python's [logging]: [basicConfig] gives the root
    logger a [StreamHandler] on [sys.stdout] with [BASIC_FORMAT] and level
    INFO; [getLogger(__name__)] creates the script's logger, which gets level
    INFO and a second [StreamHandler] on [sys.stdout] (level DEBUG, format
    ['%(asctime)s - %(name)s - %(levelname)s - %(message)s']), and keeps
    [propagate = True].  [setup_logging] is that sequence of calls on the
    state of the two loggers, each call as the [logging] module performs it.
    [emit_lines] is [Logger.info]/[Logger.error] ([isEnabledFor], then
    [callHandlers]: the logger's own handlers, then, since it propagates,
    the root's, each filtering on its level and formatting with
    [Formatter.format]).  [event_lines] gives the lines one event of the
    [World] trace prints.  The time stamp is an input ([asctime]).  Only
    the script's own records are modelled: what other libraries log
    through the root logger once [basicConfig] has set it to INFO (boto3's
    and botocore's records, for instance), and the [-h] text argparse
    writes, are not. *)

From S2P Require Import Prelude PyStr Config World.
Import PyStr Config World.

Local Open Scope string_scope.

Module Logging.

(** ** Levels *)

Definition NOTSET : Z := 0.
Definition DEBUG : Z := 10.
Definition INFO_level : Z := 20.
Definition WARNING : Z := 30.
Definition ERROR_level : Z := 40.

Definition level_num (l : level) : Z := match l with INFO => INFO_level | ERROR => ERROR_level end.

(** [getLevelName] *)
Definition level_name (n : Z) : string :=
  if (n =? 10)%Z then "DEBUG" else if (n =? 20)%Z then "INFO"
  else if (n =? 30)%Z then "WARNING" else if (n =? 40)%Z then "ERROR"
  else if (n =? 0)%Z then "NOTSET" else "Level " +:+ pretty n.

(** ** Handlers and loggers *)

(** A [StreamHandler] object: its identity, stream, level and its
    formatter's format string ([None] when no formatter is set:
    [logging._defaultFormatter], ['%(message)s']). *)
Record handler := mk_handler { h_id : nat; h_stream : string; h_level : Z; h_fmt : option string }.

Record logger := mk_logger {
  lg_name : string;
  lg_level : Z;
  lg_handlers : list handler;
  lg_propagate : bool
}.

(** The root logger and the script's logger, whose parent is the root. *)
Record loggers := mk_loggers { root : logger; log : logger }.

Definition BASIC_FORMAT : string := "%(levelname)s:%(name)s:%(message)s".

(** [logging.StreamHandler(stream)]: level NOTSET, no formatter. *)
Definition stream_handler (id : nat) (stream : string) : handler := mk_handler id stream NOTSET None.

Definition handler_set_level (h : handler) (n : Z) : handler :=
  mk_handler (h_id h) (h_stream h) n (h_fmt h).
Definition set_formatter (h : handler) (fmt : string) : handler :=
  mk_handler (h_id h) (h_stream h) (h_level h) (Some fmt).

Definition set_level (lg : logger) (n : Z) : logger :=
  mk_logger (lg_name lg) n (lg_handlers lg) (lg_propagate lg).

(** [Logger.addHandler]: a handler object already there is not added again. *)
Definition add_handler (lg : logger) (h : handler) : logger :=
  if existsb (fun h' => Nat.eqb (h_id h') (h_id h)) (lg_handlers lg) then lg
  else mk_logger (lg_name lg) (lg_level lg) (lg_handlers lg ++ [h]) (lg_propagate lg).

(** At import: the root logger has level WARNING and no handler. *)
Definition initial_root : logger := mk_logger "root" WARNING [] true.

(** [logging.basicConfig(stream=..., level=...)]: only when the root has
    no handler yet, a [StreamHandler] with [BASIC_FORMAT], and the level. *)
Definition basic_config (stream : string) (lvl : Z) (r : logger) : logger :=
  match lg_handlers r with
  | [] => set_level (add_handler r (set_formatter (stream_handler 0 stream) BASIC_FORMAT)) lvl
  | _ => r
  end.

(** [logging.getLogger(name)] for a name not seen before. *)
Definition get_logger (name : string) : logger := mk_logger name NOTSET [] true.

Definition main_format : string := "%(asctime)s - %(name)s - %(levelname)s - %(message)s".

(** Lines 15-23, in order; [name] is [__name__]. *)
Definition setup_logging (name : string) : loggers :=
  let r := basic_config "stdout" INFO_level initial_root in
  let lg := get_logger name in
  let lg := set_level lg INFO_level in
  let h := stream_handler 1 "stdout" in
  let h := handler_set_level h DEBUG in
  let h := set_formatter h main_format in
  let lg := add_handler lg h in
  mk_loggers r lg.

(** ** Formatting *)

(** [fmt % record.__dict__] for the [%(key)s] directives (and [%%]); an
    unknown key is a [KeyError], an unterminated directive [None] too. *)
Fixpoint percent_format (fields : string -> option string) (key : option string) (s : string)
    : option string :=
  match key, s with
  | None, EmptyString => Some EmptyString
  | None, String "%" (String "(" r) => percent_format fields (Some EmptyString) r
  | None, String "%" (String "%" r) => String "%" <$> percent_format fields None r
  | None, String c r => String c <$> percent_format fields None r
  | Some k, EmptyString => None
  | Some k, String ")" (String "s" r) =>
      v ← fields k; (fun t => v +:+ t) <$> percent_format fields None r
  | Some k, String c r => percent_format fields (Some (k +:+ String c EmptyString)) r
  end.

(** The attributes of a [LogRecord] the two formats use. *)
Definition record_fields (name : string) (lvl : Z) (msg asctime : string) (k : string) : option string :=
  if bool_decide (k = "name") then Some name
  else if bool_decide (k = "levelname") then Some (level_name lvl)
  else if bool_decide (k = "message") then Some msg
  else if bool_decide (k = "asctime") then Some asctime
  else None.

(** [Handler.format(record)]. *)
Definition format_record (h : handler) (name : string) (lvl : Z) (msg asctime : string) : string :=
  default "" (percent_format (record_fields name lvl msg asctime) None (default "%(message)s" (h_fmt h))).

(** [Logger.getEffectiveLevel]: the first level set on the way to the root. *)
Definition effective_level (st : loggers) : Z :=
  if bool_decide (lg_level (log st) = NOTSET) then lg_level (root st) else lg_level (log st).

(** The lines one logger's handlers write for a record. *)
Definition handler_lines (lg : logger) (name : string) (lvl : Z) (msg asctime : string) : list string :=
  omap (fun h => if (h_level h <=? lvl)%Z then Some (format_record h name lvl msg asctime) else None)
       (lg_handlers lg).

(** [log.info(msg)] / [log.error(msg)]: [isEnabledFor], then
    [callHandlers] on the logger and, as it propagates, on the root. *)
Definition emit_lines (st : loggers) (lvl : Z) (msg asctime : string) : list string :=
  if (effective_level st <=? lvl)%Z then
    handler_lines (log st) (lg_name (log st)) lvl msg asctime ++
    (if lg_propagate (log st) then handler_lines (root st) (lg_name (log st)) lvl msg asctime else [])
  else [].

(** ** [str] of the dict logged at line 66 *)

Fixpoint argval_repr (v : argval) : string :=
  match v with
  | AStr s => py_repr s
  | AInt z => pretty z
  | ABool true => "True"
  | ABool false => "False"
  | ANone => "None"
  | AList vs => "[" +:+ String.concat ", " (map argval_repr vs) +:+ "]"
  end.

Definition dict_repr (items : list (string * argval)) : string :=
  "{" +:+ String.concat ", " (map (fun kv => py_repr kv.1 +:+ ": " +:+ argval_repr kv.2) items) +:+ "}".

(** ** What a run prints *)

(** The lines a trace event prints, at time [t]. *)
Definition event_lines (st : loggers) (t : string) (ev : event) : list string :=
  match ev with
  | EvLog l m => emit_lines st (level_num l) m t
  | EvLogArgs items => emit_lines st INFO_level (dict_repr items) t
  | _ => []
  end.

(** ** Properties *)

Lemma event_lines_log st t l m : event_lines st t (EvLog l m) = emit_lines st (level_num l) m t.
Proof. done. Qed.

(** C22: After lines 15-23, each [log.info] or [log.error] call prints
    two lines on standard output: the script's own handler writes
    [asctime - name - LEVEL - message], then, because the logger
    propagates to the root that [basicConfig] configured, the root's
    handler writes [LEVEL:name:message]. *)
Theorem log_prints_twice name t l m :
  event_lines (setup_logging name) t (EvLog l m) =
    [t +:+ " - " +:+ name +:+ " - " +:+ level_name (level_num l) +:+ " - " +:+ m;
     level_name (level_num l) +:+ ":" +:+ name +:+ ":" +:+ m].
Proof. destruct l; vm_compute; by rewrite !string_app_nil_r. Qed.

End Logging.
