(* ===== verification/TableState.v ===== *)
(** * The table state manager (lines 122-145)

    [table_exists] is the function of lines 122-128; [prepare_table] is the
    [if DROP_TABLE ... elif DELETE_ROWS ...] block of lines 130-145, with its
    log lines.  The abstract specification is a [disposition] chosen once
    from the configuration (spec 4.2), the statements it may issue, and its
    effect on the database ([disposition_post]); [prepare_table_refines]
    shows that the code implements it against the [MySQLLaws] interface, for
    names that parse (see [Database.ident_ok] and [Database.literal_ok]);
    [delete_mode_recheck] composes it with the check of line 79. *)

From S2P Require Import Prelude PyStr Config Database World.
Import PyStr Config Database World.

Local Open Scope py_scope.

Module TableState.

(** ** The abstract specification *)

Inductive disposition := DropTable | ClearRows (truncate : bool) | Keep.

(** Spec 4.2: drop wins over delete; the (normalised) mode picks
    TRUNCATE or DELETE. *)
Definition disposition_of (drop delete : bool) (mode : string) : disposition :=
  if drop then DropTable
  else if delete then ClearRows (bool_decide (mode = "TRUNCATE"%string))
  else Keep.

(** The statements the disposition issues, given whether the table
    existed. *)
Definition disposition_sql (d : disposition) (existed : bool) (db t : string) : list stmt :=
  match d with
  | DropTable => [DropIfExists db t]
  | ClearRows tr =>
      SelectExists db t :: (if existed then [if tr then Truncate db t else DeleteFrom db t] else [])
  | Keep => []
  end.

Section TableState.
Context {D : Type} `{!MySQL D}.

  (** Its effect on the database. *)
Definition disposition_post (d : disposition) (s s' : D) (db t : string) : Prop :=
    match d with
    | DropTable => db_has_table s' db t = false /\ others_unchanged s s' db t
    | ClearRows _ =>
        if db_has_table s db t
        then db_has_table s' db t = true /\ db_row_count s' db t = 0 /\ others_unchanged s s' db t
        else s' = s
    | Keep => s' = s
    end.

  (** ** The code *)

  (** Lines 122-128: a row means the table exists. *)
Definition table_exists (table_name db_name : string) : PyM (world D) bool :=
    rows <- execute (SelectExists db_name table_name) ;;
    py_ret (match rows with [] => false | _ :: _ => true end).

Definition skip_msg : string := "Table doesn't exist, skipping row deletion.".

  (** Lines 130-145; [mode] is [DELETE_MODE], normalised again at line 136. *)
Definition prepare_table (db_name table_name : string) (drop delete : bool)
      (mode : string) : PyM (world D) unit :=
    if drop then
      log_info (render (DropIfExists db_name table_name)) ;;;
      _ <- execute (DropIfExists db_name table_name) ;; py_ret tt
    else if delete then
      ex <- table_exists table_name db_name ;;
      if ex then
        if bool_decide (py_upper (py_strip mode) = "TRUNCATE"%string) then
          log_info (render (Truncate db_name table_name)) ;;;
          _ <- execute (Truncate db_name table_name) ;; py_ret tt
        else
          log_info (render (DeleteFrom db_name table_name)) ;;;
          _ <- execute (DeleteFrom db_name table_name) ;; py_ret tt
      else log_info skip_msg
    else py_ret tt.

  (** Names for which every statement of the script parses. *)
Definition names_ok (db t : string) : bool :=
    ident_ok db && ident_ok t && literal_ok db && literal_ok t.

  (** ** Lemmas *)

Lemma appends_prepare_table db t drop delete mode :
    py_mono trace_ext (prepare_table db t drop delete mode).
Proof. unfold prepare_table, table_exists. appends_solve. Qed.

Lemma noapp_prepare_table db t drop delete mode :
    py_mono no_append_ext (prepare_table db t drop delete mode).
Proof. unfold prepare_table, table_exists. appends_solve. Qed.

Context `{!MySQLLaws D}.

Lemma table_exists_run t db d tr :
    literal_ok db = true -> literal_ok t = true ->
    table_exists t db (mk_world d tr) =
      (inr (db_has_table d db t), mk_world d (tr ++ [EvSql (SelectExists db t)])).
Proof.
    intros H1 H2. unfold table_exists. unfold py_bind at 1.
    rewrite (execute_ok _ _ _ _ _ (law_select_exists d db t H1 H2)).
    by destruct (db_has_table d db t).
Qed.

Lemma names_ok_split db t :
    names_ok db t = true ->
    ident_ok db = true /\ ident_ok t = true /\ literal_ok db = true /\ literal_ok t = true.
Proof. unfold names_ok. by intros (((-> & ->)%andb_prop & ->)%andb_prop & ->)%andb_prop. Qed.

  (** One executed statement that the laws say succeeds, after its log. *)
Lemma log_execute_run q d d' tr :
    sql_exec d q = inr ([], d') ->
    (log_info (render q) ;;; _ <- execute q ;; py_ret tt) (mk_world d tr) =
      (inr tt, mk_world d' (tr ++ [EvLog INFO (render q)] ++ [EvSql q])).
Proof.
    intros H. unfold py_bind at 1. unfold log_info. rewrite emit_run.
    unfold py_bind. rewrite (execute_ok _ _ _ _ _ H). by rewrite app_assoc.
Qed.

  (** Close a goal [exists d' tr', run = (inr tt, mk_world d' (tr ++ tr')) /\ post /\ sql]
      once the run is computed. *)
Ltac run_done Hpost :=
    do 2 eexists; split; [reflexivity|]; split; [exact Hpost|reflexivity].

  (** The disposition's run, shared by [prepare_table_refines] and the
      end-to-end theorems of [Script]. *)
Lemma prepare_table_spec db t drop delete mode d tr :
    names_ok db t = true -> normalize_delete_mode mode = mode ->
    exists d' tr',
      prepare_table db t drop delete mode (mk_world d tr) = (inr tt, mk_world d' (tr ++ tr')) /\
      disposition_post (disposition_of drop delete mode) d d' db t /\
      sql_of tr' = disposition_sql (disposition_of drop delete mode) (db_has_table d db t) db t.
Proof.
    intros (Hidb & Hit & Hldb & Hlt)%names_ok_split Hmode.
    unfold normalize_delete_mode in Hmode. unfold prepare_table, disposition_of.
    destruct drop.
    - destruct (law_drop d db t Hidb Hit) as (d' & Hx & Hpost).
      rewrite (log_execute_run _ _ _ _ Hx). run_done Hpost.
    - destruct delete; [|exists d, []; by rewrite app_nil_r].
      unfold py_bind at 1. rewrite table_exists_run by done.
      unfold disposition_post. destruct (db_has_table d db t) eqn:Ehas.
      + rewrite Hmode. case_bool_decide.
        * destruct (law_truncate d db t Hidb Hit Ehas) as (d' & Hx & Hpost).
          rewrite (log_execute_run _ _ _ _ Hx), <-!app_assoc. run_done Hpost.
        * destruct (law_delete d db t Hidb Hit Ehas) as (d' & Hx & Hpost).
          rewrite (log_execute_run _ _ _ _ Hx), <-!app_assoc. run_done Hpost.
      + unfold log_info. rewrite emit_run, <-app_assoc. run_done (eq_refl d).
Qed.

  (** The rows the table holds after the disposition: none after a drop or
      a clear, the old ones otherwise. *)
Lemma disposition_rows drop delete mode d d' db t :
    disposition_post (disposition_of drop delete mode) d d' db t ->
    rows_before d' db t = if drop || delete then 0 else rows_before d db t.
Proof.
    unfold disposition_of, disposition_post, rows_before.
    destruct drop; simpl; [intros [Hh _]; by rewrite Hh|].
    destruct delete; simpl; [|by intros ->].
    destruct (db_has_table d db t) eqn:Eh; [intros (Hh & Hc & _); by rewrite Hh, Hc|].
    intros ->. by rewrite Eh.
Qed.

  (** A table absent before the disposition is absent after it. *)
Lemma disposition_absent drop delete mode d d' db t :
  db_has_table d db t = false ->
  disposition_post (disposition_of drop delete mode) d d' db t -> db_has_table d' db t = false.
Proof.
  intros Hd. unfold disposition_of, disposition_post.
  destruct drop; [by intros [? _]|]. rewrite Hd.
  destruct delete; by intros ->.
Qed.

  (** What a rollback would return to after the disposition: DROP and
      TRUNCATE are committed at once, while a DELETE stays pending in the
      session (the connection is not in autocommit mode). *)
Lemma prepare_table_rollback db t drop delete mode d tr d' tr' :
    names_ok db t = true ->
    prepare_table db t drop delete mode (mk_world d tr) = (inr tt, mk_world d' tr') ->
    sql_rollback d' =
      if drop || delete && db_has_table d db t && bool_decide (py_upper (py_strip mode) = "TRUNCATE"%string)
      then d' else sql_rollback d.
Proof.
    intros (Hidb & Hit & Hldb & Hlt)%names_ok_split. unfold prepare_table.
    destruct drop; simpl.
    - destruct (law_drop d db t Hidb Hit) as (d1 & Hx & _).
      rewrite (log_execute_run _ _ _ _ Hx). intros [= <- _]. by apply (law_exec_commit _ _ _ _ Hx).
    - destruct delete; simpl; [|by intros [= <- _]].
      unfold py_bind at 1. rewrite table_exists_run by done.
      destruct (db_has_table d db t) eqn:Ehas; simpl.
      + case_bool_decide.
        * destruct (law_truncate d db t Hidb Hit Ehas) as (d1 & Hx & _).
          rewrite (log_execute_run _ _ _ _ Hx). intros [= <- _]. by apply (law_exec_commit _ _ _ _ Hx).
        * destruct (law_delete d db t Hidb Hit Ehas) as (d1 & Hx & _).
          rewrite (log_execute_run _ _ _ _ Hx). intros [= <- _]. by apply (law_exec_pending _ _ _ _ Hx).
      + unfold log_info. rewrite emit_run. by intros [= <- _].
Qed.

(** ** Properties *)

  (** C12: [table_exists] issues the one INFORMATION_SCHEMA query of line
      124, leaves the database as it was, and answers whether the table
      exists: false exactly when the query returns no row. *)
Theorem table_exists_correct t db d tr :
    literal_ok db = true -> literal_ok t = true ->
    table_exists t db (mk_world d tr) =
      (inr (db_has_table d db t), mk_world d (tr ++ [EvSql (SelectExists db t)])).
Proof. apply table_exists_run. Qed.

  (** C5: [prepare_table] refines the disposition chosen from the
      configuration: for names that parse and a mode already normalised (as
      line 78 leaves it), it returns, issues exactly the statements of the
      disposition, and leaves the database as [disposition_post] says:
      table dropped; or, when it existed, emptied but kept; or unchanged. *)
Theorem prepare_table_refines db t drop delete mode d tr :
    names_ok db t = true -> normalize_delete_mode mode = mode ->
    exists d' tr',
      prepare_table db t drop delete mode (mk_world d tr) = (inr tt, mk_world d' (tr ++ tr')) /\
      disposition_post (disposition_of drop delete mode) d d' db t /\
      sql_of tr' = disposition_sql (disposition_of drop delete mode) (db_has_table d db t) db t.
Proof. apply prepare_table_spec. Qed.


End TableState.

#[export] Hint Resolve appends_prepare_table noapp_prepare_table : mono.

(** ** Witnesses, on the in-memory database *)

Import MemDB.

(** A database holding [mydb.tbl] with two rows. *)
Definition sample_db : memdb :=
  mem_init (<[("mydb", "tbl") := mk_table ["a"] [[VInt 1]; [VInt 2]] 3]> ∅).

Lemma table_exists_correct_witness :
  table_exists (D:=memdb) "tbl" "mydb" (mk_world sample_db []) =
    (inr (db_has_table sample_db "mydb" "tbl"),
     mk_world sample_db ([] ++ [EvSql (SelectExists "mydb" "tbl")])).
Proof. apply (table_exists_correct "tbl" "mydb" sample_db []); reflexivity. Defined.

Lemma prepare_table_refines_witness :
  exists d' tr',
    prepare_table (D:=memdb) "mydb" "tbl" false true "TRUNCATE" (mk_world sample_db []) =
      (inr tt, mk_world d' ([] ++ tr')) /\
    disposition_post (disposition_of false true "TRUNCATE") sample_db d' "mydb" "tbl" /\
    sql_of tr' = disposition_sql (disposition_of false true "TRUNCATE")
                   (db_has_table sample_db "mydb" "tbl") "mydb" "tbl".
Proof. apply prepare_table_refines; reflexivity. Defined.


End TableState.
