(* ===== verification/Ingest.v ===== *)
(** * The chunked ingest pipeline (lines 116-121, 149-161)

    [wr.s3.read_csv(path=[S3_OBJECT], chunksize=CHUNK_SIZE)] returns a lazy
    generator over pandas' [TextFileReader]: nothing is read, and nothing
    is checked, until the loop of line 149 asks for the first chunk.
    [read_csv] gives what that loop then sees: an exception (the object is
    missing, the file has no columns, or the chunk size is below 1), or the
    list of chunks.  [read_chunks] is pandas' chunking: rows in order,
    [chunksize] at a time, the last chunk shorter; an object with a header
    and no rows still yields one empty chunk.  [load_chunks] is the loop
    of lines 149-161: [convert_dtypes], the running total of line 151, the
    log line of line 152 and the call of lines 153-161.  The keyword
    arguments of that call are a parameter [kws] of the loop: the script
    passes [to_sql_kwargs], whose [ssl_ca] awswrangler's [to_sql] does not
    take, so the first iteration raises [TypeError] before anything is
    appended ([load_chunks_type_error]); with keywords it does take, each
    append is committed by [to_sql] itself ([load_chunks_committed] holds
    for every [kws]).

    [convert_dtypes] comes from the [Pandas] interface, whose one law is
    that it keeps the rows (the index of line 151). *)

From S2P Require Import Prelude Database World.
Import Database World.

Local Open Scope py_scope.

Module Ingest.

(** ** The interface of pandas' [DataFrame.convert_dtypes] *)

Class Pandas := {
  convert_dtypes : frame -> frame;
  convert_dtypes_rows f : length (fr_rows (convert_dtypes f)) = length (fr_rows f)
}.

(** The frames of this model already hold converted values ([value] has
    the nullable dtypes' cells), and dtypes are not modelled: on them
    [convert_dtypes] changes nothing. *)
#[export] Instance pandas_converted : Pandas :=
  {| convert_dtypes f := f; convert_dtypes_rows f := eq_refl |}.

(** ** Reading the object in chunks *)

(** [take n] rows at a time; [fuel] bounds the number of chunks. *)
Fixpoint chunks_fuel {A} (fuel n : nat) (rows : list A) : list (list A) :=
  match fuel with
  | O => []
  | S fuel' =>
      match rows with
      | [] => []
      | _ :: _ => take n rows :: chunks_fuel fuel' n (drop n rows)
      end
  end.

(** pandas' [TextFileReader] iteration: the first read returns a chunk even
    when there are no rows; later reads stop at the end of the data. *)
Definition read_chunks {A} (n : nat) (rows : list A) : list (list A) :=
  match rows with
  | [] => [[]]
  | _ :: _ => chunks_fuel (length rows) n rows
  end.

(** The S3 object, as the CSV parser sees it: its header and its rows. *)
Record csv_object := mk_csv {
  csv_columns : list string;
  csv_rows : list (list value)
}.

(** What the loop of line 149 gets from the generator of lines 116-119:
    the object is opened first, then pandas checks [chunksize >= 1], then
    it parses the header. *)
Definition read_csv (chunk_size : Z) (obj : option csv_object) : py_exn + list frame :=
  match obj with
  | None => inl (ClientError "s3")
  | Some o =>
      if (chunk_size <? 1)%Z then inl ValueError
      else match csv_columns o with
           | [] => inl EmptyDataError
           | cols => inr (map (mk_frame cols) (read_chunks (Z.to_nat chunk_size) (csv_rows o)))
           end
  end.

(** ** The load loop *)

Section Load.
Context {D : Type} `{!MySQL D} `{!Pandas}.

Definition inserting_msg (n : nat) : string :=
    "Inserting " +:+ pretty n +:+ " rows".

  (** The keyword arguments of the call of lines 153-161. *)
Definition to_sql_kwargs : list string :=
    ["df"; "table"; "index"; "schema"; "mode"; "con"; "ssl_ca"].

  (** One iteration of lines 150-161, from [row_count] to the new total,
      the call to [wr.mysql.to_sql] made with the keywords [kws]. *)
Definition load_chunk (kws : list string) (db_name table_name : string) (row_count : nat)
      (df : frame) : PyM (world D) nat :=
    let df := convert_dtypes df in
    let row_count := row_count + length (fr_rows df) in
    log_info (inserting_msg (length (fr_rows df))) ;;;
    call_to_sql kws db_name table_name df ;;;
    py_ret row_count.

  (** Line 121 and the loop of line 149. *)
Definition load_chunks (kws : list string) (db_name table_name : string) (dfs : list frame)
      : PyM (world D) nat :=
    py_fold (load_chunk kws db_name table_name) 0 dfs.

End Load.

Lemma appends_load_chunks {D} `{!MySQL D} `{!Pandas} kws db t dfs :
  py_mono trace_ext (load_chunks (D:=D) kws db t dfs).
Proof.
  apply py_mono_fold; [apply _|]. intros a x. unfold load_chunk, call_to_sql. appends_solve.
Qed.

#[export] Hint Resolve appends_load_chunks : mono.

(** ** Lemmas on chunking *)

Lemma convert_dtypes_nil `{!Pandas} f : fr_rows f = [] -> fr_rows (convert_dtypes f) = [].
Proof. intros Hf. apply length_zero_iff_nil. by rewrite convert_dtypes_rows, Hf. Qed.

Section Chunks.
Context {A : Type}.

Lemma chunks_fuel_concat fuel n (rows : list A) :
    0 < n -> length rows <= fuel * n -> concat (chunks_fuel fuel n rows) = rows.
Proof.
    revert rows. induction fuel as [|fuel IH]; intros rows Hn Hlen; simpl.
    - destruct rows; simpl in *; [done | lia].
    - destruct rows as [|x rows']; [done|]. simpl.
      rewrite IH; [by rewrite take_drop | done |].
      rewrite length_drop. simpl in *. lia.
Qed.

Lemma chunks_fuel_bound fuel n (rows : list A) :
    Forall (fun c => length c <= n) (chunks_fuel fuel n rows).
Proof.
    revert rows. induction fuel as [|fuel IH]; intros rows; simpl; [done|].
    destruct rows; [done|]. constructor; [|apply IH]. rewrite length_take. lia.
Qed.

Lemma chunks_fuel_nonempty fuel n (rows : list A) :
    0 < n -> Forall (fun c => c <> []) (chunks_fuel fuel n rows).
Proof.
    revert rows. induction fuel as [|fuel IH]; intros rows Hn; simpl; [done|].
    destruct rows as [|x rows]; [done|]. constructor; [|by apply IH].
    destruct n; [lia|]. done.
Qed.

Lemma read_chunks_concat n (rows : list A) :
    0 < n -> concat (read_chunks n rows) = rows.
Proof.
    intros Hn. destruct rows as [|x rows]; [done|].
    unfold read_chunks. apply chunks_fuel_concat; [done|]. nia.
Qed.

Lemma read_chunks_bound n (rows : list A) :
    Forall (fun c => length c <= n) (read_chunks n rows).
Proof.
    destruct rows; [constructor; [simpl; lia | done] | apply chunks_fuel_bound].
Qed.
Lemma chunks_fuel_nil fuel n : chunks_fuel (A:=A) fuel n [] = [].
Proof. by destruct fuel. Qed.

Lemma chunks_fuel_full fuel n (rows : list A) :
    Forall (fun c => length c = n) (removelast (chunks_fuel fuel n rows)).
Proof.
    revert rows. induction fuel as [|fuel IH]; intros rows; [done|].
    destruct rows as [|x rows']; [done|]. cbn [chunks_fuel].
    destruct (chunks_fuel fuel n (drop n (x :: rows'))) as [|c cs] eqn:Hc; [done|].
    change (removelast (take n (x :: rows') :: c :: cs))
      with (take n (x :: rows') :: removelast (c :: cs)).
    constructor; [|rewrite <-Hc; apply IH].
    destruct (drop n (x :: rows')) as [|y ys] eqn:Hd.
    - by rewrite chunks_fuel_nil in Hc.
    - apply (f_equal length) in Hd. rewrite length_drop in Hd. simpl in *.
      rewrite length_take. simpl. lia.
Qed.

(** A non-empty object gives a non-empty list of non-empty chunks. *)
Lemma read_chunks_nonempty n (rows : list A) :
    0 < n -> rows <> [] -> read_chunks n rows <> [] /\ Forall (fun c => c <> []) (read_chunks n rows).
Proof.
    intros Hn Hr. destruct rows as [|x rows]; [done|]. unfold read_chunks.
    split; [by simpl|]. by apply chunks_fuel_nonempty.
Qed.

Lemma read_chunks_full n (rows : list A) :
    Forall (fun c => length c = n) (removelast (read_chunks n rows)).
Proof. destruct rows; [constructor | apply chunks_fuel_full]. Qed.
End Chunks.

(** ** Lemmas on the load loop *)

(** The rows of a list of frames. *)
Definition total_rows (dfs : list frame) : nat := sum_list_with (fun f => length (fr_rows f)) dfs.

Section LoadLemmas.
Context {D : Type} `{!MySQL D} `{!MySQLLaws D} `{!Pandas}.

Lemma rows_before_append s db t f s' :
    sql_append s db t f = inr s' ->
    rows_before s' db t = rows_before s db t + length (fr_rows f).
Proof.
    intros (Hhas & Hcnt & _)%law_append. unfold rows_before at 1. by rewrite Hhas, Hcnt.
Qed.

  (** One iteration: it adds the chunk's rows to the total and to the
      table and commits them; or it raises, and the durable state is as it
      was (the failed append is rolled back, with whatever was pending). *)
Lemma load_chunk_spec kws db t acc df d tr :
    match load_chunk kws db t acc df (mk_world d tr) with
    | (inr a, w') => a = acc + length (fr_rows df) /\
                     rows_before (w_db w') db t = rows_before d db t + length (fr_rows df) /\
                     sql_rollback (w_db w') = w_db w'
    | (inl _, w') => sql_rollback (w_db w') = sql_rollback d
    end.
Proof.
    unfold load_chunk, call_to_sql, to_sql, log_info, emit, set_db. py_unfold.
    destruct (forallb _ kws); simpl; [|done].
    rewrite <-(convert_dtypes_rows df).
    destruct (fr_rows (convert_dtypes df)) as [|r rs] eqn:E; simpl; [done|].
    destruct (sql_append d db t (convert_dtypes df)) as [e|d'] eqn:Ha; simpl;
      [apply law_rollback_idem|].
    split_and!; [done| |apply law_commit_durable].
    rewrite rows_before_commit, (rows_before_append _ _ _ _ _ Ha). by rewrite E.
Qed.

Lemma load_fold_spec kws db t dfs acc d tr :
    match py_fold (load_chunk kws db t) acc dfs (mk_world d tr) with
    | (inr rc, w') => rc = acc + total_rows dfs /\
                      rows_before (w_db w') db t = rows_before d db t + total_rows dfs /\
                      (dfs <> [] -> sql_rollback (w_db w') = w_db w')
    | (inl _, w') => exists k, k < length dfs /\
                      rows_before (sql_rollback (w_db w')) db t =
                        rows_before (if bool_decide (k = 0) then sql_rollback d else d) db t
                        + total_rows (take k dfs)
    end.
Proof.
    revert acc d tr. induction dfs as [|df dfs IH]; intros acc d tr; simpl.
    - split_and!; [lia|lia|done].
    - pose proof (load_chunk_spec kws db t acc df d tr) as Hstep. unfold py_bind.
      destruct (load_chunk kws db t acc df (mk_world d tr)) as [[e|a] [d1 tr1]]; simpl in *.
      + exists 0. simpl. split; [lia|]. rewrite Hstep. lia.
      + destruct Hstep as (-> & Hd1 & Hc1). specialize (IH (acc + length (fr_rows df)) d1 tr1).
        destruct (py_fold (load_chunk kws db t) _ dfs (mk_world d1 tr1)) as [[e|rc] w'] eqn:Ef.
        * destruct IH as (k & Hk & Hw). exists (S k). simpl.
          rewrite Hw, Hc1. case_bool_decide; simpl; lia.
        * destruct IH as (-> & Hw & Hc). split_and!; [lia|lia|]. intros _.
          destruct dfs; [|by apply Hc]. simpl in Ef. by injection Ef as _ <-.
Qed.

  (** With the script's keywords, an iteration logs its line and raises
      [TypeError] from the call, the database untouched. *)
Lemma load_chunk_rejected db t acc df d tr :
    load_chunk to_sql_kwargs db t acc df (mk_world d tr) =
      (inl TypeError, mk_world d (tr ++ [EvLog INFO (inserting_msg (length (fr_rows df)))])).
Proof.
    unfold load_chunk, log_info, emit. py_unfold.
    rewrite call_to_sql_rejected by (vm_compute; reflexivity). simpl. by rewrite convert_dtypes_rows.
Qed.

Lemma noapp_load_chunks db t dfs : py_mono no_append_ext (load_chunks (D:=D) to_sql_kwargs db t dfs).
Proof.
    apply py_mono_fold; [apply _|]. intros a x [d tr]. rewrite load_chunk_rejected.
    exists [EvLog INFO (inserting_msg (length (fr_rows x)))]. done.
Qed.

  (** With the script's keywords the loop raises on any chunk list the
      reader can give, the database untouched. *)
Lemma load_chunks_rejected db t dfs d tr :
    dfs <> [] -> exists tr',
      load_chunks (D:=D) to_sql_kwargs db t dfs (mk_world d tr) = (inl TypeError, mk_world d (tr ++ tr')).
Proof.
    destruct dfs as [|df dfs]; [done|]. intros _. eexists. unfold load_chunks. simpl.
    unfold py_bind. rewrite load_chunk_rejected. reflexivity.
Qed.

  (** ** Properties of the loop *)

  (** C1: The script never appends a row: the call of lines 153-161
      passes [ssl_ca], a keyword awswrangler's [wr.mysql.to_sql] does not
      take, so on the first chunk, after the log line of line 152, Python
      raises [TypeError] while binding the arguments; the loop ends there
      with the database as it was. *)
Theorem load_chunks_type_error db t df dfs d tr :
    load_chunks to_sql_kwargs db t (df :: dfs) (mk_world d tr) =
      (inl TypeError, mk_world d (tr ++ [EvLog INFO (inserting_msg (length (fr_rows df)))])).
Proof. unfold load_chunks. simpl. unfold py_bind. by rewrite load_chunk_rejected. Qed.

  (** C4: Whatever keywords the call of lines 153-161 passes, the loop
      of lines 149-161 either returns the running total, which is the
      number of rows of all chunks, with every one of them appended to the
      table and committed; or it raises at some chunk [k], and once the
      connection is closed the table holds exactly the rows of the chunks
      before [k] on top of what it held (no partial chunk, no rollback of
      earlier chunks, each [to_sql] having committed its own); a failure
      at the first chunk also rolls back what was pending before the
      loop. *)
Theorem load_chunks_committed kws db t dfs d tr :
    match load_chunks kws db t dfs (mk_world d tr) with
    | (inr rc, w') => rc = total_rows dfs /\
                      rows_before (w_db w') db t = rows_before d db t + rc /\
                      (dfs <> [] -> durable w' = w_db w')
    | (inl _, w') => exists k, k < length dfs /\
                      rows_before (durable w') db t =
                        rows_before (if bool_decide (k = 0) then sql_rollback d else d) db t
                        + total_rows (take k dfs)
    end.
Proof.
    unfold load_chunks, durable. pose proof (load_fold_spec kws db t dfs 0 d tr) as Hf.
    destruct (py_fold _ 0 dfs _) as [[e|rc] w']; [exact Hf|]. destruct Hf as (Hrc & Hw & Hc).
    split_and!; [lia|lia|exact Hc].
Qed.

End LoadLemmas.

#[export] Hint Resolve noapp_load_chunks : mono.

(** ** Properties of the chunking *)

(** C3: For a chunk size of at least 1, the chunks pandas yields partition
    the rows in their order: concatenated they give the rows back, so their
    sizes add up to the number of rows; no chunk is longer than the chunk
    size, and every chunk but the last has exactly that size. *)
Theorem read_chunks_partition {A} n (rows : list A) :
  0 < n ->
  concat (read_chunks n rows) = rows /\
  sum_list_with length (read_chunks n rows) = length rows /\
  Forall (fun c => length c <= n) (read_chunks n rows) /\
  Forall (fun c => length c = n) (removelast (read_chunks n rows)).
Proof.
  intros Hn. rewrite sum_list_with_length_concat, read_chunks_concat by done.
  split_and!; [done | done | apply read_chunks_bound | apply read_chunks_full].
Qed.

Lemma read_chunks_partition_witness :
  concat (read_chunks 3 [1; 2; 3; 4; 5; 6; 7]) = [1; 2; 3; 4; 5; 6; 7] /\
  sum_list_with length (read_chunks 3 [1; 2; 3; 4; 5; 6; 7]) = length [1; 2; 3; 4; 5; 6; 7] /\
  Forall (fun c => length c <= 3) (read_chunks 3 [1; 2; 3; 4; 5; 6; 7]) /\
  Forall (fun c => length c = 3) (removelast (read_chunks 3 [1; 2; 3; 4; 5; 6; 7])).
Proof. apply (read_chunks_partition 3 [1; 2; 3; 4; 5; 6; 7]). lia. Defined.

(** ** Witness, on the in-memory database *)

Import MemDB.

Definition example_frames : list frame :=
  [mk_frame ["a"] [[VInt 1]; [VInt 2]]; mk_frame ["a"] [[VInt 3]]].

(** The loop with keywords [to_sql] takes. *)
Definition fixed_kwargs : list string := ["df"; "table"; "index"; "schema"; "mode"; "con"].

Lemma load_chunks_committed_witness :
  match load_chunks (D:=memdb) fixed_kwargs "mydb" "tbl" example_frames (mk_world ∅ []) with
  | (inr rc, w') => rc = total_rows example_frames /\
                    rows_before (w_db w') "mydb" "tbl" = rows_before (∅ : memdb) "mydb" "tbl" + rc /\
                    (example_frames <> [] -> durable w' = w_db w')
  | (inl _, w') => exists k, k < length example_frames /\
                    rows_before (durable w') "mydb" "tbl" =
                      rows_before (if bool_decide (k = 0) then sql_rollback (∅ : memdb) else ∅) "mydb" "tbl"
                      + total_rows (take k example_frames)
  end.
Proof. exact (load_chunks_committed fixed_kwargs "mydb" "tbl" example_frames ∅ []). Defined.

End Ingest.
