(* ===== verification/ChunkSpec.v ===== *)
(** * A reference chunker, and what the reader's chunking amounts to

    [Ingest.chunks_fuel] is the chunking of pandas' [TextFileReader] written
    with fuel, as the reader of lines 116-119 runs it: one read of at most
    [chunksize] rows per iteration of line 149, until the data is exhausted.
    This file gives the reference it is measured against: [chunks_ref],
    defined by well-founded recursion on the number of rows left, the
    slicing [rows[i*n:(i+1)*n]] of chunk [i], and the number of chunks,
    [ceil(len / n)].  The lemmas show that the reader is the reference
    chunker when the fuel [read_chunks] supplies (the number of rows) is
    used, and [read_chunks_slices] gives each chunk as a slice and how many
    chunks, hence how many iterations of line 149, a load makes. *)

From Equations Require Import Equations.
From S2P Require Import Prelude Database World Ingest.
Import Ingest.

Module ChunkSpec.

Section Ref.
Context {A : Type}.

(** [rows[:n]], then the rest; [n = S k] so that every round consumes a row. *)
Equations? chunks_ref (k : nat) (rows : list A) : list (list A) by wf (length rows) lt :=
  chunks_ref k [] := [];
  chunks_ref k (x :: xs) := take (S k) (x :: xs) :: chunks_ref k (drop (S k) (x :: xs)).
Proof. rewrite length_drop. simpl. lia. Qed.

(** The number of chunks of [len] rows, [n] at a time: [ceil(len / n)]. *)
Definition chunk_count (n len : nat) : nat := (len + n - 1) / n.

(** ** Lemmas *)

Lemma chunks_ref_cons k x xs :
  chunks_ref k (x :: xs) = take (S k) (x :: xs) :: chunks_ref k (drop (S k) (x :: xs)).
Proof. by simp chunks_ref. Qed.

Lemma chunks_fuel_ref fuel k (rows : list A) :
  length rows <= fuel * S k -> chunks_fuel fuel (S k) rows = chunks_ref k rows.
Proof.
  revert rows. induction fuel as [|fuel IH]; intros rows Hlen.
  - destruct rows; [by simp chunks_ref | simpl in *; lia].
  - destruct rows as [|x xs]; [by simp chunks_ref|].
    rewrite chunks_ref_cons. cbn [chunks_fuel]. f_equal.
    apply IH. rewrite length_drop. simpl in *. lia.
Qed.

Lemma chunk_count_step k m :
  chunk_count (S k) (S m) = S (chunk_count (S k) (S m - S k)).
Proof.
  unfold chunk_count. destruct (Nat.le_gt_cases m k).
  - replace (S m - S k) with 0 by lia. rewrite (Nat.div_small (0 + S k - 1)) by lia.
    symmetry. apply (Nat.div_unique _ _ 1 m); lia.
  - replace (S m + S k - 1) with ((S m - S k + S k - 1) + 1 * S k) by lia.
    rewrite Nat.div_add by lia. lia.
Qed.

Lemma chunks_ref_length k (rows : list A) :
  length (chunks_ref k rows) = chunk_count (S k) (length rows).
Proof.
  funelim (chunks_ref k rows); simp chunks_ref.
  - unfold chunk_count. rewrite Nat.div_small; simpl; lia.
  - rewrite length_cons, H, length_drop. change (length (x :: xs)) with (S (length xs)).
    by rewrite (chunk_count_step k (length xs)).
Qed.

Lemma chunks_ref_lookup k (rows : list A) i :
  chunks_ref k rows !! i =
    if bool_decide (i * S k < length rows) then Some (take (S k) (drop (i * S k) rows)) else None.
Proof.
  funelim (chunks_ref k rows); simp chunks_ref.
  - by rewrite bool_decide_false by (simpl; lia).
  - destruct i as [|i]; [done|].
    change ((?c :: ?cs) !! S i) with (cs !! i).
    rewrite H, length_drop, drop_drop. cbn [length].
    replace (S k + i * S k) with (S i * S k) by lia.
    apply (f_equal (fun b : bool => if b then _ else _)). apply bool_decide_ext. lia.
Qed.

End Ref.

(** ** Properties *)

(** For a chunk size [n >= 1] and an object with rows, the chunks the
    reader yields are exactly those of the reference chunker. *)
Lemma read_chunks_ref {A} n (rows : list A) :
  1 <= n -> rows <> [] -> read_chunks n rows = chunks_ref (pred n) rows.
Proof.
  intros Hn Hr. destruct rows as [|x xs]; [done|]. unfold read_chunks.
  destruct n as [|k]; [lia|]. apply chunks_fuel_ref. simpl. nia.
Qed.

(** C17: Chunk [i] is the slice [rows[i*n:(i+1)*n]] and there are
    exactly [ceil(len / n)] chunks; an object with a header and no row
    still gives one (empty) chunk. *)
Theorem read_chunks_slices {A} n (rows : list A) :
  1 <= n ->
  length (read_chunks n rows) = (if bool_decide (rows = []) then 1 else chunk_count n (length rows)) /\
  forall i, i < chunk_count n (length rows) ->
    read_chunks n rows !! i = Some (take n (drop (i * n) rows)).
Proof.
  intros Hn. destruct n as [|k]; [lia|].
  destruct rows as [|x xs].
  - split; [done|]. intros i Hi. unfold chunk_count in Hi.
    rewrite Nat.div_small in Hi; simpl in *; lia.
  - rewrite read_chunks_ref by done. simpl pred.
    split; [by rewrite chunks_ref_length|]. intros i Hi.
    rewrite chunks_ref_lookup, bool_decide_true; [done|].
    rewrite <-chunks_ref_length in Hi. apply lookup_lt_is_Some_2 in Hi as [c Hc].
    rewrite chunks_ref_lookup in Hc. by case_bool_decide.
Qed.

(** ** Witnesses *)

Lemma read_chunks_slices_witness :
  length (read_chunks 2 [1; 2; 3; 4; 5]) =
    (if bool_decide ([1; 2; 3; 4; 5] = []) then 1 else chunk_count 2 (length [1; 2; 3; 4; 5])) /\
  forall i, i < chunk_count 2 (length [1; 2; 3; 4; 5]) ->
    read_chunks 2 [1; 2; 3; 4; 5] !! i = Some (take 2 (drop (i * 2) [1; 2; 3; 4; 5])).
Proof. apply read_chunks_slices. lia. Defined.

End ChunkSpec.
