(* ===== verification/Script.v ===== *)
(** * The whole script, and the verification step (lines 65-172)

    [main] is the module body of [load_csv_to_mysql.py] from line 65 on, as
    one computation in [PyM (world D)], composed from the components in the
    order the code runs them.  What the outside world answers (the CA
    download, the secret, the connection, the S3 object) is the [env]
    record.  [verify] is lines 164-172: the count query, the close, and the
    two counts logged side by side without any comparison.  The call of
    lines 153-161 passes [ssl_ca], which awswrangler's [to_sql] does not
    take, so no run gets past the first chunk: [main_never_completes]
    shows that every run raises and appends nothing, and [verify] is never
    reached.  What a run leaves once its connection is closed is
    [World.durable]: DROP and TRUNCATE are committed at once, while a
    DELETE is rolled back with the connection. *)

From S2P Require Import Prelude PyStr Config Credentials Database World TableState Ingest.
Import Config Credentials Database World TableState Ingest.

Local Open Scope py_scope.

Module Script.

(** ** The environment *)

(** [secretsmanager.get_secret_value] then [json.loads]. *)
Inductive secret_fetch :=
| SecretNotFound
| SecretNotJson
| SecretOk (d : json_doc).

Record env := mk_env {
  env_fetch_ok : string -> bool;
  env_secret : string -> secret_fetch;
  env_connect_ok : conn_params -> bool;
  env_object : string -> option csv_object
}.

Definition ca_file : string := "./rds-combined-ca-bundle.pem".
Definition ca_msg : string := "Getting CA Bundle from URL.".
Definition ca_err : string := "An Unexpected Error Occurred when retrieving the SSL CA bundle...".

Section Script.
Context {D : Type} `{!MySQL D} `{!Pandas}.
Variable E : env.

  (** Lines 83-87: a failed download is logged and ignored. *)
Definition fetch_ca (url : string) : PyM (world D) unit :=
    log_info ca_msg ;;;
    py_try (emit (EvFetch url ca_file) ;;;
            if env_fetch_ok E url then py_ret tt else py_raise (ClientError "urllib"))
           (fun _ => log_error ca_err).

  (** Lines 89-95: the secret, when an ARN is given.  A secret held as
      [SecretBinary] (a [KeyError] on ['SecretString']) and a failure to
      build the boto3 client are not among the outcomes modelled. *)
Definition get_secret (arn : option string) : PyM (world D) (option json_doc) :=
    match arn with
    | None => py_ret None
    | Some a =>
        log_info ("Fetching Secret: " +:+ a) ;;;
        emit (EvGetSecret a) ;;;
        match env_secret E a with
        | SecretNotFound => py_raise (ClientError "secretsmanager")
        | SecretNotJson => log_info "Retrieved secret" ;;; py_raise JSONDecodeError
        | SecretOk d => log_info "Retrieved secret" ;;; py_ret (Some d)
        end
    end.

  (** Lines 108-114. *)
Definition connect (p : conn_params) : PyM (world D) unit :=
    emit (EvConnect p) ;;;
    if env_connect_ok E p then py_ret tt else py_raise OperationalError.

Definition db_count_msg (z : Z) : string := "DB Table row count: " +:+ pretty z.
Definition csv_count_msg (n : nat) : string := "CSV row count: " +:+ pretty n.

  (** Lines 164-172: [db_count['count'][0]] is the first row. *)
Definition verify (db_name table_name : string) (row_count : nat) : PyM (world D) unit :=
    rows <- execute (SelectCount db_name table_name) ;;
    emit EvClose ;;;
    match rows with
    | [] => py_raise (KeyError "0")
    | z :: _ =>
        log_info (db_count_msg z) ;;;
        log_info (csv_count_msg row_count) ;;;
        log_info "Finished"
    end.

  (** Lines 65-114: everything before the database is touched. *)
Definition setup (a : args) : PyM (world D) (config * conn_params) :=
    emit (EvLogArgs (logged_args a)) ;;;
    cfg <- py_lift (load_config a) ;;
    fetch_ca (cfg_ssl_ca cfg) ;;;
    secret <- get_secret (db_secret_arn a) ;;
    p <- py_lift (resolve_creds (explicit_creds a) secret) ;;
    connect p ;;;
    py_ret (cfg, p).

  (** Lines 116-172, on database [db_name]; the generator of lines 116-119
      is only run by the loop. *)
Definition load_and_verify (cfg : config) (db_name : string) : PyM (world D) unit :=
    let t := cfg_table_name cfg in
    prepare_table db_name t (cfg_drop_table cfg) (cfg_delete_rows cfg) (cfg_delete_mode cfg) ;;;
    dfs <- py_lift (read_csv (cfg_chunk_size cfg) (env_object E (cfg_s3_object cfg))) ;;
    row_count <- load_chunks to_sql_kwargs db_name t dfs ;;
    verify db_name t row_count.

  (** Lines 65-172: [DB_NAME] enters the SQL text through [str.format]. *)
Definition main (a : args) : PyM (world D) unit :=
    cp <- setup a ;;
    load_and_verify cp.1 (py_str (cp_database cp.2)).

End Script.

(** ** Lemmas *)

Section ScriptLemmas.
Context {D : Type} `{!MySQL D} `{!MySQLLaws D} `{!Pandas}.
Variable E : env.

Lemma fetch_ca_run url d tr :
    fetch_ca (D:=D) E url (mk_world d tr) =
      (inr tt, mk_world d (tr ++ [EvLog INFO ca_msg; EvFetch url ca_file] ++
                          (if env_fetch_ok E url then [] else [EvLog ERROR ca_err]))).
Proof.
    unfold fetch_ca, log_info, log_error, emit. py_unfold. simpl.
    destruct (env_fetch_ok E url); simpl; by rewrite <-!app_assoc.
Qed.

Lemma keeps_fetch_ca url : keeps_db (D:=D) (fetch_ca E url).
Proof.
    intros d tr. rewrite fetch_ca_run. eexists _, _. split; [reflexivity|].
    by destruct (env_fetch_ok E url).
Qed.

Lemma keeps_get_secret arn : keeps_db (D:=D) (get_secret E arn).
Proof. unfold get_secret. destruct arn; [destruct (env_secret E s)|]; eauto 10 with keeps. Qed.

Lemma keeps_connect p : keeps_db (D:=D) (connect E p).
Proof. unfold connect. destruct (env_connect_ok E p); eauto with keeps. Qed.

Lemma keeps_setup a : keeps_db (D:=D) (setup E a).
Proof. unfold setup. eauto 20 using keeps_fetch_ca, keeps_get_secret, keeps_connect with keeps. Qed.

Lemma setup_result a w cfg p w' :
    setup (D:=D) E a w = (inr (cfg, p), w') ->
    load_config a = inr cfg /\ exists secret, resolve_creds (explicit_creds a) secret = inr p.
Proof.
    unfold setup. intros (? & w1 & _ & Hb)%py_bind_inr_inv.
    apply py_bind_inr_inv in Hb as (cfg' & w2 & (Hc & ->)%py_lift_inr_inv & Hb).
    apply py_bind_inr_inv in Hb as (? & w3 & _ & Hb).
    apply py_bind_inr_inv in Hb as (sec & w4 & _ & Hb).
    apply py_bind_inr_inv in Hb as (p' & w5 & (Hp & ->)%py_lift_inr_inv & Hb).
    apply py_bind_inr_inv in Hb as (? & w6 & _ & Hb).
    injection Hb as <- <- _. eauto.
Qed.

  (** After a setup that returned, the run goes on with lines 116-172 on
      the database as it was. *)
Lemma main_after_setup a d tr cfg p w1 :
    setup (D:=D) E a (mk_world d tr) = (inr (cfg, p), w1) ->
    exists tr1, w1 = mk_world d (tr ++ tr1) /\ load_config a = inr cfg /\
      main E a (mk_world d tr) = load_and_verify E cfg (py_str (cp_database p)) (mk_world d (tr ++ tr1)).
Proof.
    intros Hs. destruct (keeps_setup a d tr) as (r & tr1 & Hs' & _). rewrite Hs in Hs'.
    injection Hs' as <- ->. exists tr1. split_and!; [done|by apply (setup_result _ _ _ _ _ Hs)|].
    unfold main. by rewrite (py_bind_run_inr _ _ _ _ _ Hs).
Qed.

Lemma connect_inr p w w' :
    connect (D:=D) E p w = (inr tt, w') ->
    env_connect_ok E p = true /\ w_trace w' = w_trace w ++ [EvConnect p].
Proof.
    unfold connect, emit. py_unfold. simpl.
    destruct (env_connect_ok E p); simpl; [by intros [= <-]|done].
Qed.

  (** A setup that returns has connected, and the connection is its last
      event. *)
Lemma setup_connected a d tr cfg p w' :
    setup (D:=D) E a (mk_world d tr) = (inr (cfg, p), w') ->
    env_connect_ok E p = true /\ exists pre, w_trace w' = tr ++ pre ++ [EvConnect p].
Proof.
    unfold setup. intros (? & w1 & H1 & Hb)%py_bind_inr_inv.
    apply py_bind_inr_inv in Hb as (cfg' & w2 & H2 & Hb).
    apply py_bind_inr_inv in Hb as (? & w3 & H3 & Hb).
    apply py_bind_inr_inv in Hb as (sec & w4 & H4 & Hb).
    apply py_bind_inr_inv in Hb as (p' & w5 & H5 & Hb).
    apply py_bind_inr_inv in Hb as ([] & w6 & H6 & Hb). injection Hb as -> -> ->.
    destruct (connect_inr _ _ _ H6) as [Hok ->]. split; [done|].
    assert (Hext : trace_ext (mk_world d tr) w5).
    { etrans; [exact (py_mono_run _ _ _ _ _ (appends_emit _) H1)|].
      etrans; [exact (py_mono_run _ _ _ _ _ (py_mono_lift _ _) H2)|].
      etrans; [exact (py_mono_run _ _ _ _ _ (keeps_appends _ (keeps_fetch_ca _)) H3)|].
      etrans; [exact (py_mono_run _ _ _ _ _ (keeps_appends _ (keeps_get_secret _)) H4)|].
      exact (py_mono_run _ _ _ _ _ (py_mono_lift _ _) H5). }
    destruct Hext as [pre Hpre]. exists pre. by rewrite Hpre, <-app_assoc.
Qed.

Lemma appends_verify db t rc : py_mono trace_ext (verify (D:=D) db t rc).
Proof. unfold verify. appends_solve. Qed.

Lemma appends_load_and_verify cfg db : py_mono trace_ext (load_and_verify (D:=D) E cfg db).
Proof. unfold load_and_verify. appends_solve. apply appends_verify. Qed.

Lemma noapp_verify db t rc : py_mono no_append_ext (verify (D:=D) db t rc).
Proof. unfold verify. appends_solve. Qed.

Lemma noapp_load_and_verify cfg db : py_mono no_append_ext (load_and_verify (D:=D) E cfg db).
Proof. unfold load_and_verify. appends_solve. apply noapp_verify. Qed.

Lemma read_csv_nonempty n obj dfs : read_csv n obj = inr dfs -> dfs <> [].
Proof.
    unfold read_csv. destruct obj as [o|]; [|done]. destruct (_ <? _)%Z; [done|].
    destruct (csv_columns o); [done|]. intros [= <-].
    unfold read_chunks. destruct (csv_rows o) as [|x xs]; [done|]. done.
Qed.

  (** Lines 116-161 from the reader on always raise, the database
      untouched: the reader raises, or it yields at least one chunk, on
      which the call of lines 153-161 raises. *)
Lemma read_load_raises n obj db t (k : nat -> PyM (world D) unit) d tr :
    exists e tr', py_bind (py_lift (read_csv n obj))
                    (fun dfs => py_bind (load_chunks to_sql_kwargs db t dfs) k) (mk_world d tr) =
                  (inl e, mk_world d (tr ++ tr')).
Proof.
    destruct (read_csv n obj) as [e|dfs] eqn:Hr; [exists e, []; by rewrite app_nil_r|].
    rewrite py_bind_lift_inr.
    destruct (load_chunks_rejected db t dfs d tr (read_csv_nonempty _ _ _ Hr)) as [tr' Hl].
    exists TypeError, tr'. by rewrite (py_bind_run_inl _ _ _ _ _ Hl).
Qed.

(** Rewrite the reader and the loop of a goal with [read_load_raises]. *)
Ltac reader_raises :=
  match goal with
  | |- context [py_bind (py_lift (read_csv ?n ?o))
                  (fun dfs => py_bind (load_chunks _ ?db ?t dfs) ?k) (mk_world ?d0 ?tr0)] =>
      let e := fresh "e" in let tr' := fresh "tr'" in let Hl := fresh "Hl" in
      destruct (read_load_raises n o db t k d0 tr0) as (e & tr' & Hl); rewrite Hl
  end.

Lemma load_and_verify_raises cfg db w : is_inl (fst (load_and_verify (D:=D) E cfg db w)) = true.
Proof.
    unfold load_and_verify. cbv zeta.
    destruct (prepare_table db (cfg_table_name cfg) (cfg_drop_table cfg) (cfg_delete_rows cfg)
                (cfg_delete_mode cfg) w) as [[e|[]] [d2 tr2]] eqn:Hp.
    { by rewrite (py_bind_run_inl _ _ _ _ _ Hp). }
    rewrite (py_bind_run_inr _ _ _ _ _ Hp). by reader_raises.
Qed.

  (** ** Properties *)

  (** C2: No run of the script completes or appends a row: every run
      ends with an exception (an invalid argument, a failed secret or
      connection, a reader error, or the [TypeError] of the call of lines
      153-161 on the first chunk the reader yields), and its events include
      no append, whatever the arguments, the environment and the
      database. *)
Theorem main_never_completes a d tr :
    is_inl (fst (main (D:=D) E a (mk_world d tr))) = true /\
    no_append_ext (mk_world d tr) (snd (main (D:=D) E a (mk_world d tr))).
Proof.
    split.
    - unfold main. destruct (keeps_setup a d tr) as ([e|[cfg p]] & tr1 & Hs & _).
      + by rewrite (py_bind_run_inl _ _ _ _ _ Hs).
      + rewrite (py_bind_run_inr _ _ _ _ _ Hs). apply load_and_verify_raises.
    - refine (py_mono_run _ _ _ _ _ _ (surjective_pairing _)). unfold main.
      apply py_mono_bind; [apply _|apply keeps_noapp, keeps_setup|intros cp].
      apply noapp_load_and_verify.
Qed.

  (** C9: An invalid delete mode stops the job with argparse's status 2
      before any I/O: the only event is the log line of line 66. *)
Theorem main_bad_mode_no_io a d tr :
    normalize_delete_mode (delete_mode a) <> "TRUNCATE" ->
    normalize_delete_mode (delete_mode a) <> "DELETE" ->
    main (D:=D) E a (mk_world d tr) =
      (inl (SystemExit 2 (normalize_delete_mode (delete_mode a) +:+ " is not a valid delete mode")),
       mk_world d (tr ++ [EvLogArgs (logged_args a)])).
Proof.
    intros H1 H2. unfold main, setup, load_config.
    rewrite check_delete_mode_spec, bool_decide_eq_false_2; [reflexivity|].
    by intros [?|?].
Qed.

  (** C10: A missing user, with no secret to take it from, is a
      configuration error, yet it is raised only after the CA bundle has
      been downloaded (spec 7 says configuration errors come before any
      network I/O). *)
Theorem main_missing_user_after_io a d tr :
    db_secret_arn a = None -> db_user a = None ->
    is_inl (load_config a) = false ->
    exists tr', main (D:=D) E a (mk_world d tr) = (inl (SystemExit 2 msg_user), mk_world d (tr ++ tr'))
      /\ In (EvFetch (ssl_ca_url a) ca_file) tr'.
Proof.
    intros Harn Huser Hcfg. unfold main, setup.
    destruct (load_config a) as [e|cfg] eqn:Hc; [done|].
    py_unfold. unfold emit at 1. simpl. rewrite fetch_ca_run, Harn. simpl.
    unfold resolve_creds, require_creds. simpl. rewrite Huser. simpl.
    eexists. split; [by rewrite <-!app_assoc|]. rewrite (load_config_ssl_ca _ _ Hc). set_solver.
Qed.

  (** C26: A failed secret retrieval is fatal and surfaces the client's
      exception uncaught (spec 7): a secret that is not found raises
      boto3's [ClientError] right after the fetch, and a secret that is not
      JSON raises [JSONDecodeError] after "Retrieved secret" has been
      logged; in both cases the CA bundle has already been downloaded and
      the database is untouched. *)
Theorem main_secret_error a d tr arn :
    db_secret_arn a = Some arn -> is_inl (load_config a) = false ->
    match env_secret E arn with
    | SecretNotFound =>
        exists tr', main (D:=D) E a (mk_world d tr) =
          (inl (ClientError "secretsmanager"),
           mk_world d (tr ++ tr' ++ [EvLog INFO ("Fetching Secret: " +:+ arn); EvGetSecret arn])) /\
          In (EvFetch (ssl_ca_url a) ca_file) tr'
    | SecretNotJson =>
        exists tr', main (D:=D) E a (mk_world d tr) =
          (inl JSONDecodeError,
           mk_world d (tr ++ tr' ++ [EvLog INFO ("Fetching Secret: " +:+ arn); EvGetSecret arn;
                                     EvLog INFO "Retrieved secret"])) /\
          In (EvFetch (ssl_ca_url a) ca_file) tr'
    | SecretOk _ => True
    end.
Proof.
    intros Harn Hcfg. unfold main, setup.
    destruct (load_config a) as [e|cfg] eqn:Hc; [done|].
    py_unfold. unfold emit at 1. simpl. rewrite fetch_ca_run, Harn.
    rewrite (load_config_ssl_ca _ _ Hc). unfold get_secret.
    destruct (env_secret E arn) as [| |dd]; [..|done]; unfold log_info, emit; py_unfold; simpl;
      exists ([EvLogArgs (logged_args a); EvLog INFO ca_msg; EvFetch (ssl_ca_url a) ca_file] ++
              if env_fetch_ok E (ssl_ca_url a) then [] else [EvLog ERROR ca_err]);
      (split; [by rewrite <-!app_assoc|set_solver]).
Qed.

  (** C13: The CA download of lines 83-87 never stops the job and never
      touches the database; when it fails, the failure is only logged. *)
Theorem fetch_ca_soft url d tr :
    exists tr', fetch_ca (D:=D) E url (mk_world d tr) = (inr tt, mk_world d (tr ++ tr')) /\
      (env_fetch_ok E url = false -> In (EvLog ERROR ca_err) tr').
Proof.
    rewrite fetch_ca_run. eexists. split; [reflexivity|].
    intros ->. set_solver.
Qed.

  (** C14: The reader is lazy, so whatever goes wrong with the object (it
      is missing, [--chunk_size] is below 1, it has no header, or it has no
      rows, whose one empty chunk the loop still hands to [to_sql]) surfaces
      only in the loop: with [--drop_table] the run stops with an exception
      after the table has already been dropped. *)
Theorem main_reader_error_after_drop a d tr cfg p w1 :
    setup E a (mk_world d tr) = (inr (cfg, p), w1) ->
    cfg_drop_table cfg = true ->
    names_ok (py_str (cp_database p)) (cfg_table_name cfg) = true ->
    (is_inl (read_csv (cfg_chunk_size cfg) (env_object E (cfg_s3_object cfg))) = true \/
     exists o, env_object E (cfg_s3_object cfg) = Some o /\ csv_rows o = []) ->
    exists e w', main (D:=D) E a (mk_world d tr) = (inl e, w') /\
      db_has_table (w_db w') (py_str (cp_database p)) (cfg_table_name cfg) = false.
Proof.
    intros Hs Hdrop Hnames Hbad. destruct (main_after_setup _ _ _ _ _ _ Hs) as (tr1 & -> & _ & ->).
    unfold load_and_verify. pose proof (names_ok_split _ _ Hnames) as (Hidb & Hit & _ & _).
    unfold prepare_table. rewrite Hdrop.
    destruct (law_drop d _ _ Hidb Hit) as (d' & Hx & Hgone & _).
    rewrite (py_bind_run_inr _ _ _ _ _ (log_execute_run _ _ _ _ Hx)).
    reader_raises. do 2 eexists. split; [reflexivity|done].
Qed.

  (** C24: The connection is not in autocommit mode, and only DDL and
      [to_sql] commit: when the load fails before its first append (the
      reader raises, or the object has no rows), a [--delete_rows] run in
      DELETE mode leaves the table with all its rows once the connection
      is closed, since its DELETE was never committed, while in TRUNCATE
      mode the table is left empty. *)
Theorem main_reader_error_delete_rolled_back a d tr cfg p w1 :
    setup E a (mk_world d tr) = (inr (cfg, p), w1) ->
    sql_rollback d = d ->
    cfg_drop_table cfg = false -> cfg_delete_rows cfg = true ->
    names_ok (py_str (cp_database p)) (cfg_table_name cfg) = true ->
    (is_inl (read_csv (cfg_chunk_size cfg) (env_object E (cfg_s3_object cfg))) = true \/
     exists o, env_object E (cfg_s3_object cfg) = Some o /\ csv_rows o = []) ->
    exists e w', main (D:=D) E a (mk_world d tr) = (inl e, w') /\
      rows_before (durable w') (py_str (cp_database p)) (cfg_table_name cfg) =
        if bool_decide (cfg_delete_mode cfg = "TRUNCATE"%string) then 0
        else rows_before d (py_str (cp_database p)) (cfg_table_name cfg).
Proof.
    intros Hs Hclean Hdrop Hdel Hnames Hbad.
    destruct (main_after_setup _ _ _ _ _ _ Hs) as (tr1 & -> & Hcfg & ->).
    pose proof (load_config_inr _ _ Hcfg) as Hmode. unfold load_and_verify.
    destruct (prepare_table_spec _ _ (cfg_drop_table cfg) (cfg_delete_rows cfg) (cfg_delete_mode cfg)
              d (tr ++ tr1) Hnames Hmode) as (d2 & trp & Hp & Hpost & _).
    pose proof (prepare_table_rollback _ _ _ _ _ _ _ _ _ Hnames Hp) as Hrb.
    pose proof (disposition_rows _ _ _ _ _ _ _ Hpost) as Hrows.
    rewrite (py_bind_run_inr _ _ _ _ _ Hp).
    assert (Hend : rows_before (sql_rollback d2) (py_str (cp_database p)) (cfg_table_name cfg) =
              if bool_decide (cfg_delete_mode cfg = "TRUNCATE"%string) then 0
              else rows_before d (py_str (cp_database p)) (cfg_table_name cfg)).
    { unfold normalize_delete_mode in Hmode. rewrite Hdrop, Hdel, Hmode in Hrb.
      rewrite Hdrop, Hdel in Hrows. cbn [orb] in Hrows.
      destruct (db_has_table d _ _) eqn:Eh; simpl in Hrb; case_bool_decide; rewrite Hrb, ?Hclean;
        try done. unfold rows_before. by rewrite Eh. }
    reader_raises. do 2 eexists. split; [reflexivity|exact Hend].
Qed.

  (** C25: The order of a run's effects: its events split into a first
      part that never touches the database (arguments, CA download, secret,
      credential check, connection attempt) and a second part that starts
      only after a connection that succeeded, which is the last event of
      the first part; every statement and append is in the second part. *)
Theorem main_db_after_connect a d tr r w' :
    main (D:=D) E a (mk_world d tr) = (r, w') ->
    exists tr1 tr2, w_trace w' = tr ++ tr1 ++ tr2 /\ db_free tr1 = true /\
      (tr2 <> [] -> exists p pre, tr1 = pre ++ [EvConnect p] /\ env_connect_ok E p = true).
Proof.
    unfold main. destruct (keeps_setup a d tr) as ([e|[cfg p]] & tr1 & Hs & Hfree).
    - rewrite (py_bind_run_inl _ _ _ _ _ Hs). intros [= _ <-].
      exists tr1, []. by rewrite app_nil_r.
    - rewrite (py_bind_run_inr _ _ _ _ _ Hs). simpl. intros Hlv.
      destruct (py_mono_run _ _ _ _ _ (appends_load_and_verify _ _) Hlv) as [tr2 Htr2].
      exists tr1, tr2. simpl in Htr2. rewrite Htr2, <-app_assoc. split_and!; [done|done|].
      intros _. destruct (setup_connected _ _ _ _ _ _ Hs) as [Hok [pre Hpre]].
      simpl in Hpre. apply app_inv_head in Hpre. by exists p, pre.
Qed.

End ScriptLemmas.

(** ** Witnesses, on the in-memory database *)

Import MemDB.

(** A secret with every connection field, a working connection, a failing
    CA download, and a five-row object. *)
Definition example_env : env := {|
  env_fetch_ok _ := false;
  env_secret _ := SecretOk (JObject (<["username" := PyStr "u"]> (<["password" := PyStr "p"]>
                   (<["host" := PyStr "h"]> (<["dbname" := PyStr "mydb"]> ∅)))));
  env_connect_ok _ := true;
  env_object _ := Some (mk_csv ["a"] [[VInt 1]; [VInt 2]; [VInt 3]; [VInt 4]; [VInt 5]])
|}.

Definition example_args (drop : bool) (mode : string) (chunk : Z) (arn : option string) : args := {|
  s3_object := "s3://bucket/data.csv"; db_host := None; db_port := None; db_name := None;
  db_user := None; db_password := None; db_secret_arn := arn; table_name := "tbl";
  drop_table := drop; delete_rows := false; delete_mode := mode; chunk_size := chunk;
  ssl_ca_url := default_ssl_ca_url; extra_py_files := None; scriptLocation := None;
  job_bookmark_option := None; job_language := None; connection_names := None |}.

Lemma main_bad_mode_no_io_witness :
  main (D:=memdb) example_env (example_args false "bogus" 2 None) (mk_world sample_db []) =
    (inl (SystemExit 2 (normalize_delete_mode "bogus" +:+ " is not a valid delete mode")),
     mk_world sample_db ([] ++ [EvLogArgs (logged_args (example_args false "bogus" 2 None))])).
Proof.
  apply main_bad_mode_no_io; intros Hm; vm_compute in Hm; discriminate Hm.
Defined.

Lemma main_missing_user_after_io_witness :
  exists tr', main (D:=memdb) example_env (example_args false "DELETE" 2 None) (mk_world sample_db []) =
    (inl (SystemExit 2 msg_user), mk_world sample_db ([] ++ tr')) /\
    In (EvFetch (ssl_ca_url (example_args false "DELETE" 2 None)) ca_file) tr'.
Proof. apply main_missing_user_after_io; reflexivity. Defined.

Lemma fetch_ca_soft_witness :
  exists tr', fetch_ca (D:=memdb) example_env default_ssl_ca_url (mk_world sample_db []) =
    (inr tt, mk_world sample_db ([] ++ tr')) /\
    (env_fetch_ok example_env default_ssl_ca_url = false -> In (EvLog ERROR ca_err) tr').
Proof. apply fetch_ca_soft. Defined.

(** [--chunk_size 0] with [--drop_table]: the table is gone, then the
    reader raises. *)
Lemma main_reader_error_after_drop_witness :
  exists e w', main (D:=memdb) example_env (example_args true "TRUNCATE" 0 (Some "arn"))
                  (mk_world sample_db []) = (inl e, w') /\
    db_has_table (w_db w') "mydb" "tbl" = false.
Proof.
  eapply (main_reader_error_after_drop example_env _ _ _
    {| cfg_s3_object := "s3://bucket/data.csv"; cfg_table_name := "tbl";
       cfg_drop_table := true; cfg_delete_rows := false; cfg_delete_mode := "TRUNCATE";
       cfg_chunk_size := 0; cfg_ssl_ca := default_ssl_ca_url |}
    {| cp_host := PyStr "h"; cp_user := PyStr "u"; cp_password := PyStr "p";
       cp_database := PyStr "mydb"; cp_port := None |});
    [reflexivity | reflexivity | reflexivity |].
  left. reflexivity.
Defined.

(** [--delete_rows] with [--chunk_size 0]: the reader raises after the
    disposition. *)
Definition delete_args (mode : string) : args := {|
  s3_object := "s3://bucket/data.csv"; db_host := None; db_port := None; db_name := None;
  db_user := None; db_password := None; db_secret_arn := Some "arn"; table_name := "tbl";
  drop_table := false; delete_rows := true; delete_mode := mode; chunk_size := 0;
  ssl_ca_url := default_ssl_ca_url; extra_py_files := None; scriptLocation := None;
  job_bookmark_option := None; job_language := None; connection_names := None |}.

(** In DELETE mode the two rows of [mydb.tbl] are back once the
    connection is closed. *)
Lemma main_reader_error_delete_rolled_back_witness :
  exists e w', main (D:=memdb) example_env (delete_args "DELETE") (mk_world sample_db []) = (inl e, w') /\
    rows_before (durable w') "mydb" "tbl" =
      if bool_decide ("DELETE" = "TRUNCATE"%string) then 0 else rows_before sample_db "mydb" "tbl".
Proof.
  eapply (main_reader_error_delete_rolled_back example_env _ _ _
    {| cfg_s3_object := "s3://bucket/data.csv"; cfg_table_name := "tbl";
       cfg_drop_table := false; cfg_delete_rows := true; cfg_delete_mode := "DELETE";
       cfg_chunk_size := 0; cfg_ssl_ca := default_ssl_ca_url |}
    {| cp_host := PyStr "h"; cp_user := PyStr "u"; cp_password := PyStr "p";
       cp_database := PyStr "mydb"; cp_port := None |});
    [reflexivity..|]. left. reflexivity.
Defined.

(** A whole run on the in-memory database: its statements come after the
    connection. *)
Lemma main_db_after_connect_witness :
  exists tr1 tr2,
    w_trace (main (D:=memdb) example_env (example_args false "truncate" 2 (Some "arn"))
               (mk_world sample_db [])).2 = [] ++ tr1 ++ tr2 /\ db_free tr1 = true /\
    (tr2 <> [] -> exists p pre, tr1 = pre ++ [EvConnect p] /\ env_connect_ok example_env p = true).
Proof.
  apply (main_db_after_connect example_env (example_args false "truncate" 2 (Some "arn")) sample_db []
           (main (D:=memdb) example_env (example_args false "truncate" 2 (Some "arn"))
              (mk_world sample_db [])).1).
  apply surjective_pairing.
Defined.

(** A secret that cannot be found: the run stops with boto3's error. *)
Definition no_secret_env : env := {|
  env_fetch_ok _ := false; env_secret _ := SecretNotFound; env_connect_ok _ := true;
  env_object := env_object example_env |}.

Lemma main_secret_error_witness :
  match env_secret no_secret_env "arn" with
  | SecretNotFound =>
      exists tr', main (D:=memdb) no_secret_env (example_args false "DELETE" 2 (Some "arn")) (mk_world sample_db []) =
        (inl (ClientError "secretsmanager"),
         mk_world sample_db ([] ++ tr' ++ [EvLog INFO ("Fetching Secret: " +:+ "arn"); EvGetSecret "arn"])) /\
        In (EvFetch (ssl_ca_url (example_args false "DELETE" 2 (Some "arn"))) ca_file) tr'
  | SecretNotJson =>
      exists tr', main (D:=memdb) no_secret_env (example_args false "DELETE" 2 (Some "arn")) (mk_world sample_db []) =
        (inl JSONDecodeError,
         mk_world sample_db ([] ++ tr' ++ [EvLog INFO ("Fetching Secret: " +:+ "arn"); EvGetSecret "arn";
                                          EvLog INFO "Retrieved secret"])) /\
        In (EvFetch (ssl_ca_url (example_args false "DELETE" 2 (Some "arn"))) ca_file) tr'
  | SecretOk _ => True
  end.
Proof. apply main_secret_error; reflexivity. Defined.

End Script.
