(* ===== verification/Program.v ===== *)
(** * The script from its command line (lines 65-172)

    The Glue job runs [load_csv_to_mysql.py] with its arguments in
    [sys.argv].  [program] is the module body from line 65 on, as it runs
    on [sys.argv[1:]]: [arg_parser.parse_args()] ([ArgParse.parse_args]),
    which exits with [SystemExit] before anything else happens, or returns
    the namespace that [vars(...)] turns into the dict the script reads at
    lines 68-81 ([ArgParse.args_of_ns]); then the rest of the module body
    ([Script.main]).  Argparse can store a value the typed reading of
    lines 68-81 has no field for (an empty list, from [--opt=--]); for
    such a command line [program] is [None]: the model does not follow the
    script further. *)

From S2P Require Import Prelude PyStr Config ArgParse ArgParseProps Database World Ingest Script.
Import Config ArgParse ArgParseProps Database World Ingest Script.

Local Open Scope string_scope.

Module Program.

Section Program.
Context {D : Type} `{!MySQL D} `{!Pandas}.
Variable E : env.

(** Lines 65-172 on [sys.argv[1:]]. *)
Definition program (argv : list string) : option (PyM (world D) unit) :=
  match parse_args argv with
  | inl e => Some (py_raise e)
  | inr ns => main E <$> args_of_ns ns
  end.

(** ** Properties *)

(** C23: On any command line without a token ending in [=--], argparse
    either rejects it, and the run stops with its [SystemExit] before any
    effect, or leaves a namespace in which every option of lines 42-62
    holds a value of its declared type ([type=int] an int, [type=str] a
    string, [store_true] a bool), [None] only where the default is, with
    both required options set: the reads of lines 68-81 all find the type
    the script expects, and the run is the module body on that
    configuration. *)
Theorem program_typed argv :
  no_eq_dashdash argv = true ->
  match parse_args argv with
  | inl e => program argv = Some (py_raise e)
  | inr ns => typed ns = true /\ exists a, args_of_ns ns = Some a /\ program argv = Some (main E a)
  end.
Proof.
  intros Hn. unfold program. destruct (parse_args argv) as [e|ns] eqn:Ep; [done|].
  destruct (parse_args_ns_typed argv ns Hn Ep) as [Ht [a Ha]].
  split; [done|]. exists a. by rewrite Ha.
Qed.

End Program.

(** ** Witness, on the in-memory database *)

Import MemDB.

(** A command line with a value given as [--opt=value]. *)
Definition glue_argv : list string :=
  ["--s3_object"; "s3://bucket/data.csv"; "--table_name"; "tbl"; "--chunk_size=100"].

Lemma program_typed_witness :
  no_eq_dashdash glue_argv = true /\
  match parse_args glue_argv with
  | inl e => program (D:=memdb) example_env glue_argv = Some (py_raise e)
  | inr ns => typed ns = true /\
      exists a, args_of_ns ns = Some a /\ program (D:=memdb) example_env glue_argv = Some (main example_env a)
  end.
Proof.
  assert (Hn : no_eq_dashdash glue_argv = true) by (vm_compute; reflexivity).
  split; [exact Hn|]. exact (program_typed example_env glue_argv Hn).
Defined.

End Program.
